(** * Shopping cart and catalogue controllers of the e-commerce REST API

    A shallow embedding of [src/controllers/CartController.js], of the
    product controller and of [src/models/Product.js].

    Conventions of the embedding.
    - A MongoDB collection is a finite map from its unique key to the
      document: products by [_id], carts by [user] (one cart per user).
      An [_id] is the string the database prints for it, hex letters in
      lower case; a string of a request is cast to it ([canonId]) where
      the code hands it to [findById] next to a comparison of strings.
    - A product is held as the schema reads it: a path that the stored
      document lacks has the default of the schema.
    - A JavaScript [Number] is [Z] where the routes validate an integer
      (quantities, ratings, stock) and [Q] for prices and averages: the
      exact value of the double.  The arithmetic of the coupon and of the
      price check rounds every operation to the nearest double
      ([roundDouble]) and can overflow to an infinity ([Double]).
    - An [async] handler is a function from the request and the database
      to the response and the database.  The database also records the
      sequence of writes, so that "persists" is observable.
    - A template literal is kept as the list of its fragments: literal
      text and interpolated numbers.
    - [populate] resolves references.  The projection of a query or of
      a [populate] is modelled where it changes the answer: products
      loaded without [images] cannot be serialised, because the
      [mainImage] virtual reads that path ([validateCart],
      [getLowStockProducts]).  Elsewhere a document is answered whole.
      Defaults of query parameters ([limit = 10] and the like) are
      applied by the caller. *)

From Stdlib Require Import ZArith QArith Qround Qabs Qminmax Qpower String List
  Lia Lqa Sorted.
From Stdlib Require PrimFloat FloatOps SpecFloat Uint63.
From stdpp Require Import gmap strings list fin_maps.

Local Open Scope Z_scope.

(** ** Messages *)

Inductive Frag :=
| Lit (s : string)
| Int (z : Z)
| Num (q : Q).

Definition Message := list Frag.

(** ** Doubles *)

(** The result of an operation on finite doubles: the exact value of a
    finite double, or an infinity.  The operations used here give no
    NaN on finite operands. *)
Inductive Double :=
| Fin (q : Q)
| PInf
| NInf.

(** Two to the power [e]. *)
Definition pow2 (e : Z) : Q := (2 ^ e)%Q.
Arguments pow2 : simpl never.

(** The nearest integer, halves to the even one. *)
Definition roundHalfEven (y : Q) : Z :=
  let f := Qfloor y in
  match Qcompare (y - inject_Z f) (1 # 2) with
  | Lt => f
  | Gt => f + 1
  | Eq => if Z.even f then f else f + 1
  end.

(** The binary exponent of a positive rational: [2^e <= x < 2^(e+1)]. *)
Definition exponentOf (x : Q) : Z :=
  let e := Z.log2 (Qnum x) - Z.log2 (Zpos (Qden x)) in
  if Qle_bool (pow2 e) x then e else e - 1.

(** The exponent of the last place of the doubles around a positive
    [a]: 53 significant bits, and -1074 at least (gradual underflow). *)
Definition ulpExponent (a : Q) : Z := Z.max (exponentOf a - 52) (-1074).

(** The multiple of [2^ulpExponent] nearest to a positive [a], halves to
    the even one. *)
Definition nearest (a : Q) : Q :=
  (inject_Z (roundHalfEven (a / pow2 (ulpExponent a)))
   * pow2 (ulpExponent a))%Q.

(** Rounding to binary64, to nearest with halves to even; an infinity
    from 2^1024 on. *)
Definition roundDouble (x : Q) : Double :=
  let a := Qabs x in
  if Qle_bool a 0 then Fin 0
  else
    let m := nearest a in
    if Qle_bool (pow2 1024) m
    then (if Qle_bool 0 x then PInf else NInf)
    else Fin (Qred (if Qle_bool 0 x then m else - m)).

(** The rational is the value of a double. *)
Definition isDouble (x : Q) : bool :=
  match roundDouble x with
  | Fin q => Qeq_bool q x
  | PInf | NInf => false
  end.

(** The order of the doubles. *)
Definition leD (a b : Double) : Prop :=
  match a, b with
  | NInf, _ => True
  | _, PInf => True
  | Fin p, Fin q => (p <= q)%Q
  | _, _ => False
  end.

(** A double is zero or positive, [Infinity] included. *)
Definition nonNegative (d : Double) : Prop :=
  match d with
  | Fin q => (0 <= q)%Q
  | PInf => True
  | NInf => False
  end.

(** The value of a primitive float of Rocq, a binary64 number of the
    machine; [None] for NaN.  Only used to compare [roundDouble] with
    the machine's arithmetic. *)
Definition valueOf (f : PrimFloat.float) : option Double :=
  match FloatOps.Prim2SF f with
  | SpecFloat.S754_zero _ => Some (Fin 0)
  | SpecFloat.S754_infinity s => Some (if s then NInf else PInf)
  | SpecFloat.S754_nan => None
  | SpecFloat.S754_finite s m e =>
      Some (Fin (Qred ((if s then -1 else 1) * inject_Z (Zpos m) * pow2 e)))
  end.

(** The integer [n] as a float. *)
Definition floatOf (n : Z) : PrimFloat.float :=
  PrimFloat.of_uint63 (Uint63.of_Z n).

(** The machine's result of an operation on two finite floats is the
    exact result rounded by [roundDouble]. *)
Definition agrees (op : PrimFloat.float -> PrimFloat.float -> PrimFloat.float)
    (exact : Q -> Q -> Q) (a b : PrimFloat.float) : bool :=
  match valueOf a, valueOf b with
  | Some (Fin x), Some (Fin y) =>
      match valueOf (op a b), roundDouble (exact x y) with
      | Some (Fin p), Fin q => Qeq_bool p q
      | Some PInf, PInf => true
      | Some NInf, NInf => true
      | _, _ => false
      end
  | _, _ => false
  end.

(** Floats to try the operations on: prices and percentages, a third,
    numbers near the largest double and the least normal one, the least
    subnormal one, and a negative price. *)
Definition probes : list PrimFloat.float :=
  let ratio n d := PrimFloat.div (floatOf n) (floatOf d) in
  let huge := ratio (2 ^ 62) 1 in
  let huge4 := PrimFloat.mul (PrimFloat.mul huge huge)
                             (PrimFloat.mul huge huge) in
  let huge16 := PrimFloat.mul (PrimFloat.mul huge4 huge4)
                              (PrimFloat.mul huge4 huge4) in
  let tiny16 := PrimFloat.div (floatOf 1) huge16 in
  [ratio 1999 100; ratio 10 1; ratio 100 1; ratio 1 100; ratio 1013 100;
   ratio 1012 100; ratio 20 1; ratio 50 1; ratio 1 3; ratio 3 1;
   PrimFloat.mul huge16 (ratio (2 ^ 31 - 1) 1);
   PrimFloat.div tiny16 (ratio (2 ^ 30) 1);
   PrimFloat.div (PrimFloat.div tiny16 huge) (ratio (2 ^ 20) 1);
   PrimFloat.opp (ratio 1999 100)].

(** [a * b] on doubles. *)
Definition mulD (a b : Q) : Double := roundDouble (a * b).

(** [a / b] for a positive double [b]. *)
Definition divD (a : Double) (b : Q) : Double :=
  match a with
  | Fin q => roundDouble (q / b)
  | PInf => PInf
  | NInf => NInf
  end.

(** [a - b] for a finite [a]. *)
Definition subD (a : Q) (b : Double) : Double :=
  match b with
  | Fin q => roundDouble (a - q)
  | PInf => NInf
  | NInf => PInf
  end.

(** The double written [0.01]. *)
Definition cent : Q := 5764607523034235 # 576460752303423488.

(** [d > 0.01] after [Math.abs]. *)
Definition aboveCent (d : Double) : bool :=
  match d with
  | Fin q => negb (Qle_bool (Qabs q) cent)
  | PInf | NInf => true
  end.

(** ** Data model *)

(** [reviewSchema] and [productSchema] of [models/Product.js]. *)
Module Review.
Record t := mk { user : string; rating : Z; comment : string }.
End Review.

Module Product.
Record t := mk {
    name : string;
    description : string;
    price : Q;
    category : string;
    brand : string;
    inventory_quantity : Z;
    inventory_lowStockThreshold : Z;
    reviews : list Review.t;
    ratings_average : Q;
    ratings_count : Z;
    isActive : bool;
    isFeatured : bool;
    tags : list string;
    createdAt : Z
  }.
End Product.

(** A cart line: product reference, quantity, price at the time of add. *)
Module Item.
Record t := mk { product : string; quantity : Z; price : Q }.
End Item.

(** The cart document; its [user] is the key it is stored under. *)
Module Cart.
Record t := mk {
    items : list Item.t;
    totalItems : Z;
    totalPrice : Q
  }.
End Cart.

(** A line of a cart after [populate('items.product')]: the stored line
    and the referenced document, [None] for JavaScript's [null]. *)
Module PItem.
Record t := mk { item : Item.t; product : option Product.t }.
End PItem.

Module PCart.
Record t := mk {
    items : list PItem.t;
    totalItems : Z;
    totalPrice : Q
  }.
End PCart.

(** ** The database *)

Inductive DbWrite :=
| CartCreated (user : string)
| CartSaved (user : string)
| ProductSaved (id : string)
| ProductUpdated (id : string).

Record World := mkWorld {
  carts : gmap string Cart.t;
  products : gmap string Product.t;
  writes : list DbWrite
}.

Definition Cart_findOne (w : World) (user : string) : option Cart.t :=
  carts w !! user.

Definition Product_findById (w : World) (id : string) : option Product.t :=
  products w !! id.

Definition populateItem (w : World) (it : Item.t) : PItem.t :=
  PItem.mk it (Product_findById w (Item.product it)).

Definition populate (w : World) (c : Cart.t) : PCart.t :=
  PCart.mk (map (populateItem w) (Cart.items c))
           (Cart.totalItems c) (Cart.totalPrice c).

Definition depopulate (c : PCart.t) : Cart.t :=
  Cart.mk (map PItem.item (PCart.items c))
          (PCart.totalItems c) (PCart.totalPrice c).

(** *** The cart model *)

Definition sumZ (l : list Z) : Z := foldr Z.add 0 l.
Definition sumQ (l : list Q) : Q := foldr Qplus 0%Q l.

Definition lineTotal (it : Item.t) : Q :=
  (Item.price it * inject_Z (Item.quantity it))%Q.

(** Modelled from the spec: [models/Cart.js] is not among the sources.
    [recomputeTotals] "sets totalItems = Σ quantity, totalPrice =
    Σ (price×quantity) over current items". *)
Definition recomputeTotals (c : Cart.t) : Cart.t :=
  Cart.mk (Cart.items c)
          (sumZ (map Item.quantity (Cart.items c)))
          (sumQ (map lineTotal (Cart.items c))).

(** Modelled from the spec: [cart.save()] of the missing cart model.
    The totals "must be recomputed on every mutation that changes items"
    and the controllers never assign them, so saving recomputes them and
    then stores the document under its user.  The schema validators of
    the missing model are not modelled: saving never fails. *)
Definition Cart_save (user : string) (c : Cart.t) (w : World)
  : Cart.t * World :=
  let c' := recomputeTotals c in
  (c', mkWorld (<[user := c']> (carts w)) (products w)
               (writes w ++ [CartSaved user])).

(** Saving a populated document stores its references and leaves the
    populated view in the handler's hands, with the recomputed totals. *)
Definition PCart_save (user : string) (c : PCart.t) (w : World)
  : PCart.t * World :=
  let '(c', w') := Cart_save user (depopulate c) w in
  (PCart.mk (PCart.items c) (Cart.totalItems c') (Cart.totalPrice c'), w').

(** Modelled from the spec: [Cart.create(doc)] of the missing cart model,
    which builds the document and saves it. *)
Definition Cart_create (user : string) (c : Cart.t) (w : World)
  : Cart.t * World :=
  let c' := recomputeTotals c in
  (c', mkWorld (<[user := c']> (carts w)) (products w)
               (writes w ++ [CartCreated user])).

(** [new Cart({ user, items: [] })]: a document not yet stored; its
    totals are set when it is saved. *)
Definition Cart_new : Cart.t := Cart.mk [] 0 0%Q.

(** ** Responses *)

Module Summary.
  (** The summary object; a field the literal does not have is [None]. *)
Record t := mk {
    totalItems : option Z;
    totalPrice : option Q;
    itemsCount : option nat;
    isEmpty : option bool
  }.
End Summary.

Module VError.
  (** One entry of [errors] in [validateCart]. *)
Record t := mk {
    productId : option string;
    productName : option string;
    message : Message;
    type : option string;
    oldPrice : option Q;
    newPrice : option Q
  }.
End VError.

Module Validation.
Record t := mk {
    cart : PCart.t;
    isValid : bool;
    errors : list VError.t;
    validItemsCount : nat
  }.
End Validation.

Inductive CouponType := percentage | fixed.

Module Coupon.
Record t := mk { discount : Q; type : CouponType }.
End Coupon.

Module CouponResult.
Record t := mk {
    code : string;
    coupon : Coupon.t;
    originalPrice : Q;
    discountAmount : Double;
    finalPrice : Double
  }.
End CouponResult.

Inductive Data :=
| DCart (cart : Cart.t)
| DPopulated (cart : PCart.t)
| DSummary (s : Summary.t)
| DValidation (v : Validation.t)
| DCoupon (c : CouponResult.t)
| DProduct (p : Product.t)
| DProducts (ps : list (string * Product.t))
| DReview (r : Review.t).

Record Response := mkResponse {
  status : Z;
  success : bool;
  message : option Message;
  data : option Data
}.

Definition fail (code : Z) (msg : Message) : Response :=
  mkResponse code false (Some msg) None.

(** ** CartController.js *)

Definition itemAvailable (item : PItem.t) : bool :=
  match PItem.product item with
  | Some p => Product.isActive p
  | None => false
  end.

(** [exports.getCart] *)
Definition getCart (user : string) (w : World) : Response * World :=
  let '(cart, w1) :=
    match Cart_findOne w user with
    | Some c => (populate w c, w)
    | None =>
        let '(c, w') := Cart_create user (Cart.mk [] 0 0%Q) w in
        (populate w' c, w')
    end in
  let cart := PCart.mk
                (List.filter itemAvailable (PCart.items cart))
                (PCart.totalItems cart) (PCart.totalPrice cart) in
  let '(cart, w2) :=
    if negb (Z.of_nat (length (PCart.items cart)) =? PCart.totalItems cart)
    then PCart_save user cart w1
    else (cart, w1) in
  (mkResponse 200 true None (Some (DPopulated cart)), w2).

Definition sameProduct (productId : string) (item : Item.t) : Prop :=
  Item.product item = productId.

#[global] Instance sameProduct_dec productId item :
  Decision (sameProduct productId item).
Proof. unfold sameProduct. apply _. Defined.

(** [cart.items.findIndex(item => item.product.toString() === productId)],
    [None] for [-1]. *)
Definition findIndex (productId : string) (items : list Item.t)
  : option (nat * Item.t) :=
  list_find (sameProduct productId) items.

Definition withItems (c : Cart.t) (items : list Item.t) : Cart.t :=
  Cart.mk items (Cart.totalItems c) (Cart.totalPrice c).

Definition msgNotFoundOrInactive : Message :=
  [Lit "Product not found or inactive"].
Definition msgOnlyInStock (n : Z) : Message :=
  [Lit "Only "; Int n; Lit " items available in stock"].
Definition msgCannotAdd (quantity more : Z) : Message :=
  [Lit "Cannot add "; Int quantity; Lit " items. Only "; Int more;
   Lit " more available"].

(** A hex digit as an ObjectId prints it: [A]..[F] in lower case. *)
Definition lowerHex (c : Ascii.ascii) : Ascii.ascii :=
  let n := Ascii.N_of_ascii c in
  if ((65 <=? n) && (n <=? 70))%N then Ascii.ascii_of_N (n + 32) else c.

(** The string of the ObjectId that the string [id] is cast to. *)
Fixpoint canonId (id : string) : string :=
  match id with
  | EmptyString => EmptyString
  | String c rest => String (lowerHex c) (canonId rest)
  end.

(** [Product.findById(productId)] on the string of a request body: the
    string is cast to an ObjectId, which reads hex digits in either case,
    while the ids of stored documents print in lower case.  The answer
    is the document whose id is the string itself, which is the case of
    a string already in lower case, and else the document whose id is
    its lower-case form. *)
Definition Product_findByIdCast (w : World) (id : string)
  : option Product.t :=
  match products w !! id with
  | Some p => Some p
  | None => products w !! canonId id
  end.

(** [exports.addToCart]; [quantity] is [None] when the body has none.
    The line lookup compares the stored id, printed, with the string of
    the body; a new line stores the id the string is cast to. *)
Definition addToCart (user productId : string) (quantity : option Z)
    (w : World) : Response * World :=
  let quantity := default 1 quantity in
  match Product_findByIdCast w productId with
  | None => (fail 404 msgNotFoundOrInactive, w)
  | Some product =>
    if negb (Product.isActive product)
    then (fail 404 msgNotFoundOrInactive, w)
    else if Product.inventory_quantity product <? quantity
    then (fail 400 (msgOnlyInStock (Product.inventory_quantity product)), w)
    else
      let cart := default Cart_new (Cart_findOne w user) in
      match findIndex productId (Cart.items cart) with
      | Some (existingItemIndex, existing) =>
          let newQuantity := Item.quantity existing + quantity in
          if Product.inventory_quantity product <? newQuantity
          then (fail 400 (msgCannotAdd quantity
                  (Product.inventory_quantity product
                   - Item.quantity existing)), w)
          else
            let items :=
              <[existingItemIndex :=
                  Item.mk (Item.product existing) newQuantity
                          (Item.price existing)]> (Cart.items cart) in
            let '(cart, w') := Cart_save user (withItems cart items) w in
            (mkResponse 200 true
               (Some [Lit "Item added to cart successfully"])
               (Some (DPopulated (populate w' cart))), w')
      | None =>
          let items :=
            Cart.items cart
            ++ [Item.mk (canonId productId) quantity
                        (Product.price product)] in
          let '(cart, w') := Cart_save user (withItems cart items) w in
          (mkResponse 200 true
             (Some [Lit "Item added to cart successfully"])
             (Some (DPopulated (populate w' cart))), w')
      end
  end.

(** [exports.updateCartItem] *)
Definition updateCartItem (user productId : string) (quantity : Z)
    (w : World) : Response * World :=
  if quantity <? 1
  then (fail 400 [Lit "Quantity must be at least 1"], w)
  else
    match Cart_findOne w user with
    | None => (fail 404 [Lit "Cart not found"], w)
    | Some cart =>
      match findIndex productId (Cart.items cart) with
      | None => (fail 404 [Lit "Item not found in cart"], w)
      | Some (itemIndex, existing) =>
        match Product_findById w productId with
        | None => (fail 404 msgNotFoundOrInactive, w)
        | Some product =>
          if negb (Product.isActive product)
          then (fail 404 msgNotFoundOrInactive, w)
          else if Product.inventory_quantity product <? quantity
          then (fail 400
                  (msgOnlyInStock (Product.inventory_quantity product)), w)
          else
            let items :=
              <[itemIndex :=
                  Item.mk (Item.product existing) quantity
                          (Product.price product)]> (Cart.items cart) in
            let '(cart, w') := Cart_save user (withItems cart items) w in
            (mkResponse 200 true (Some [Lit "Cart updated successfully"])
               (Some (DPopulated (populate w' cart))), w')
        end
      end
    end.

(** [exports.removeFromCart] *)
Definition removeFromCart (user productId : string) (w : World)
  : Response * World :=
  match Cart_findOne w user with
  | None => (fail 404 [Lit "Cart not found"], w)
  | Some cart =>
    match findIndex productId (Cart.items cart) with
    | None => (fail 404 [Lit "Item not found in cart"], w)
    | Some (itemIndex, _) =>
      let '(cart, w') :=
        Cart_save user (withItems cart (delete itemIndex (Cart.items cart))) w in
      (mkResponse 200 true
         (Some [Lit "Item removed from cart successfully"])
         (Some (DPopulated (populate w' cart))), w')
    end
  end.

(** [exports.clearCart] *)
Definition clearCart (user : string) (w : World) : Response * World :=
  match Cart_findOne w user with
  | None => (fail 404 [Lit "Cart not found"], w)
  | Some cart =>
    let '(cart, w') := Cart_save user (withItems cart []) w in
    (mkResponse 200 true (Some [Lit "Cart cleared successfully"])
       (Some (DCart cart)), w')
  end.

(** [exports.getCartSummary] *)
Definition getCartSummary (user : string) (w : World) : Response * World :=
  let empty :=
    (mkResponse 200 true None
       (Some (DSummary (Summary.mk (Some 0) (Some 0%Q) None (Some true)))),
     w) in
  match Cart_findOne w user with
  | None => empty
  | Some cart =>
    if (length (Cart.items cart) =? 0)%nat then empty
    else
      (mkResponse 200 true None
         (Some (DSummary
            (Summary.mk (Some (Cart.totalItems cart))
                        (Some (Cart.totalPrice cart))
                        (Some (length (Cart.items cart)))
                        (Some false)))), w)
  end.

(** [Math.abs(item.price - item.product.price) > 0.01], in doubles. *)
Definition priceChanged (snapshot live : Q) : bool :=
  aboveCent (subD snapshot (Fin live)).

Definition errUnavailable (item : PItem.t) : VError.t :=
  VError.mk (match PItem.product item with
             | Some _ => Some (Item.product (PItem.item item))
             | None => None
             end)
            None [Lit "Product is no longer available"] None None None.

Definition errStock (item : PItem.t) (p : Product.t) : VError.t :=
  VError.mk (Some (Item.product (PItem.item item))) (Some (Product.name p))
    [Lit "Only "; Int (Product.inventory_quantity p);
     Lit " items available, but "; Int (Item.quantity (PItem.item item));
     Lit " requested"]
    None None None.

Definition errPrice (item : PItem.t) (p : Product.t) : VError.t :=
  VError.mk (Some (Item.product (PItem.item item))) (Some (Product.name p))
    [Lit "Price has changed from $"; Num (Item.price (PItem.item item));
     Lit " to $"; Num (Product.price p)]
    (Some "price_change"%string)
    (Some (Item.price (PItem.item item))) (Some (Product.price p)).

(** The body of the [for (const item of cart.items)] loop of
    [validateCart], on the pair ([errors], [validItems]). *)
Definition validateStep (acc : list VError.t * list PItem.t)
    (item : PItem.t) : list VError.t * list PItem.t :=
  let '(errors, validItems) := acc in
  match PItem.product item with
  | None => (errors ++ [errUnavailable item], validItems)
  | Some p =>
    if negb (Product.isActive p)
    then (errors ++ [errUnavailable item], validItems)
    else if Product.inventory_quantity p <? Item.quantity (PItem.item item)
    then (errors ++ [errStock item p], validItems)
    else
      let errors :=
        if priceChanged (Item.price (PItem.item item)) (Product.price p)
        then errors ++ [errPrice item p]
        else errors in
      (errors, validItems ++ [item])
  end.

Definition validateLoop (items : list PItem.t)
  : list VError.t * list PItem.t :=
  foldl validateStep ([], []) items.

(** The [TypeError] of the [mainImage] virtual on a document loaded
    without its [images], [this.images.find] on [undefined], in the
    words of V8 (Node 16.9 and later). *)
Definition msgImagesUndefined : Message :=
  [Lit "Cannot read properties of undefined (reading 'find')"].

(** Whether [res.json] can serialise the cart of [validateCart].  Its
    products were populated with 'name price inventory isActive', so
    without [images], and the product schema serialises its virtuals:
    [mainImage] throws on every loaded product.  Only a cart none of
    whose lines has a product loaded goes through. *)
Definition serialisable (cart : PCart.t) : bool :=
  forallb (fun item => match PItem.product item with
                       | Some _ => false
                       | None => true
                       end) (PCart.items cart).

(** [exports.validateCart]; an error thrown by [res.json] is caught and
    answered with 400, after the save. *)
Definition validateCart (user : string) (w : World) : Response * World :=
  match Cart_findOne w user with
  | None => (fail 400 [Lit "Cart is empty"], w)
  | Some c =>
    let cart := populate w c in
    if (length (PCart.items cart) =? 0)%nat
    then (fail 400 [Lit "Cart is empty"], w)
    else
      let '(errors, validItems) := validateLoop (PCart.items cart) in
      let '(cart, w') :=
        if (0 <? length errors)%nat
           && negb (length validItems =? length (PCart.items cart))%nat
        then PCart_save user (PCart.mk validItems
                           (PCart.totalItems cart) (PCart.totalPrice cart)) w
        else (cart, w) in
      if serialisable cart
      then
        (mkResponse 200 (length errors =? 0)%nat None
           (Some (DValidation
              (Validation.mk cart (length errors =? 0)%nat errors
                             (length validItems)))), w')
      else (fail 400 msgImagesUndefined, w')
  end.

(** The [validCoupons] table of [applyCoupon].  The route accepts codes
    of upper-case letters and digits only, so no inherited property of
    the object literal is reachable. *)
Definition validCoupons : list (string * Coupon.t) :=
  [("SAVE10"%string, Coupon.mk 10 percentage);
   ("WELCOME20"%string, Coupon.mk 20 percentage);
   ("FLAT50"%string, Coupon.mk 50 fixed)].

Fixpoint lookupCoupon (code : string) (table : list (string * Coupon.t))
  : option Coupon.t :=
  match table with
  | [] => None
  | (k, c) :: rest => if String.eqb k code then Some c else lookupCoupon code rest
  end.

(** [(cart.totalPrice * coupon.discount) / 100] and
    [Math.min(coupon.discount, cart.totalPrice)], in doubles. *)
Definition couponDiscount (coupon : Coupon.t) (totalPrice : Q) : Double :=
  match Coupon.type coupon with
  | percentage => divD (mulD totalPrice (Coupon.discount coupon)) 100
  | fixed => Fin (Qmin (Coupon.discount coupon) totalPrice)
  end.

(** [exports.applyCoupon] *)
Definition applyCoupon (user couponCode : string) (w : World)
  : Response * World :=
  match lookupCoupon couponCode validCoupons with
  | None => (fail 400 [Lit "Invalid coupon code"], w)
  | Some coupon =>
    match Cart_findOne w user with
    | None => (fail 400 [Lit "Cart is empty"], w)
    | Some cart =>
      if (length (Cart.items cart) =? 0)%nat
      then (fail 400 [Lit "Cart is empty"], w)
      else
        let discountAmount := couponDiscount coupon (Cart.totalPrice cart) in
        let finalPrice := subD (Cart.totalPrice cart) discountAmount in
        (mkResponse 200 true (Some [Lit "Coupon applied successfully"])
           (Some (DCoupon
              (CouponResult.mk couponCode coupon (Cart.totalPrice cart)
                               discountAmount finalPrice))), w)
    end
  end.

(** ** models/Product.js *)

(** [Math.round]: the nearest integer, halves towards plus infinity. *)
Definition Math_round (x : Q) : Z := Qfloor (x + (1 # 2)).

Definition withRatings (p : Product.t) (average : Q) (count : Z)
  : Product.t :=
  Product.mk (Product.name p) (Product.description p) (Product.price p)
    (Product.category p) (Product.brand p) (Product.inventory_quantity p)
    (Product.inventory_lowStockThreshold p) (Product.reviews p)
    average count
    (Product.isActive p) (Product.isFeatured p) (Product.tags p)
    (Product.createdAt p).

(** [productSchema.methods.calculateAverageRating] *)
Definition calculateAverageRating (p : Product.t) : Product.t :=
  if (length (Product.reviews p) =? 0)%nat
  then withRatings p 0 0
  else
    let sum := foldl (fun acc review => acc + Review.rating review) 0
                     (Product.reviews p) in
    let len := Z.of_nat (length (Product.reviews p)) in
    withRatings p
      (inject_Z (Math_round (inject_Z sum / inject_Z len * 10)) / 10)%Q
      len.

Definition withReviews (p : Product.t) (reviews : list Review.t)
  : Product.t :=
  Product.mk (Product.name p) (Product.description p) (Product.price p)
    (Product.category p) (Product.brand p) (Product.inventory_quantity p)
    (Product.inventory_lowStockThreshold p) reviews
    (Product.ratings_average p) (Product.ratings_count p)
    (Product.isActive p) (Product.isFeatured p) (Product.tags p)
    (Product.createdAt p).

Definition withActive (p : Product.t) (active : bool) : Product.t :=
  Product.mk (Product.name p) (Product.description p) (Product.price p)
    (Product.category p) (Product.brand p) (Product.inventory_quantity p)
    (Product.inventory_lowStockThreshold p) (Product.reviews p)
    (Product.ratings_average p) (Product.ratings_count p)
    active (Product.isFeatured p) (Product.tags p) (Product.createdAt p).

(** [product.save()]: the product schema has no save hook. *)
Definition Product_save (id : string) (p : Product.t) (w : World) : World :=
  mkWorld (carts w) (<[id := p]> (products w))
          (writes w ++ [ProductSaved id]).

(** The [inventory] object of a request body. *)
Module InventoryBody.
Record t := mk { quantity : option Z; lowStockThreshold : option Z }.
End InventoryBody.

(** The [ratings] object of a request body. *)
Module RatingsBody.
Record t := mk { average : option Q; count : option Z }.
End RatingsBody.

(** The body of [PUT /api/products/:id], a JSON object nested as the
    schema is and restricted to the paths of the schema: a path the body
    does not have is [None]. *)
Module Patch.
Record t := mk {
    name : option string;
    description : option string;
    price : option Q;
    category : option string;
    brand : option string;
    inventory : option InventoryBody.t;
    reviews : option (list Review.t);
    ratings : option RatingsBody.t;
    isActive : option bool;
    isFeatured : option bool;
    tags : option (list string)
  }.
End Patch.

(** The document after [$set: body].  A top-level path of the body
    replaces what the document has under it: for the nested [inventory]
    and [ratings] the whole sub-document, so a field the body's object
    leaves out is no longer stored and reads back as the default of the
    schema (quantity 0, lowStockThreshold 10, average 0, count 0). *)
Definition applyPatch (b : Patch.t) (p : Product.t) : Product.t :=
  Product.mk
    (default (Product.name p) (Patch.name b))
    (default (Product.description p) (Patch.description b))
    (default (Product.price p) (Patch.price b))
    (default (Product.category p) (Patch.category b))
    (default (Product.brand p) (Patch.brand b))
    (match Patch.inventory b with
     | Some body => default 0 (InventoryBody.quantity body)
     | None => Product.inventory_quantity p
     end)
    (match Patch.inventory b with
     | Some body => default 10 (InventoryBody.lowStockThreshold body)
     | None => Product.inventory_lowStockThreshold p
     end)
    (default (Product.reviews p) (Patch.reviews b))
    (match Patch.ratings b with
     | Some body => default 0%Q (RatingsBody.average body)
     | None => Product.ratings_average p
     end)
    (match Patch.ratings b with
     | Some body => default 0 (RatingsBody.count body)
     | None => Product.ratings_count p
     end)
    (default (Product.isActive p) (Patch.isActive b))
    (default (Product.isFeatured p) (Patch.isFeatured b))
    (default (Product.tags p) (Patch.tags b))
    (Product.createdAt p).

Definition optb {A} (f : A -> bool) (o : option A) : bool :=
  match o with Some a => f a | None => true end.

Definition validReview (r : Review.t) : bool :=
  (1 <=? Review.rating r) && (Review.rating r <=? 5)
  && (String.length (Review.comment r) <=? 500)%nat.

(** The validators of the schema on the paths an update sets
    ([runValidators: true]). *)
Definition validPatch (b : Patch.t) : bool :=
  optb (fun s => (String.length s <=? 100)%nat) (Patch.name b)
  && optb (fun s => (String.length s <=? 2000)%nat) (Patch.description b)
  && optb (fun q => Qle_bool 0 q) (Patch.price b)
  && optb (fun body => optb (fun z => 0 <=? z) (InventoryBody.quantity body))
          (Patch.inventory b)
  && optb (forallb validReview) (Patch.reviews b)
  && optb (fun body =>
             optb (fun q => Qle_bool 0 q && Qle_bool q 5)
                  (RatingsBody.average body))
          (Patch.ratings b).

(** [Product.findByIdAndUpdate(id, body, { new: true, runValidators: true })] *)
Definition Product_findByIdAndUpdate (id : string) (b : Patch.t) (w : World)
  : option Product.t * World :=
  match Product_findById w id with
  | None => (None, w)
  | Some p =>
      let p' := applyPatch b p in
      (Some p', mkWorld (carts w) (<[id := p']> (products w))
                        (writes w ++ [ProductUpdated id]))
  end.

(** ** The product controller *)

Definition msgProductNotFound : Message := [Lit "Product not found"].

(** [exports.getProduct] *)
Definition getProduct (id : string) (w : World) : Response * World :=
  match Product_findById w id with
  | None => (fail 404 msgProductNotFound, w)
  | Some product => (mkResponse 200 true None (Some (DProduct product)), w)
  end.

(** The message of a validation error of the database layer, which the
    [catch] block passes on; only its beginning is kept. *)
Definition msgValidation : Message := [Lit "Validation failed"].

(** [exports.updateProduct] *)
Definition updateProduct (id : string) (body : Patch.t) (w : World)
  : Response * World :=
  if negb (validPatch body)
  then (fail 400 msgValidation, w)
  else
    match Product_findByIdAndUpdate id body w with
    | (None, w') => (fail 404 msgProductNotFound, w')
    | (Some product, w') =>
        (mkResponse 200 true (Some [Lit "Product updated successfully"])
           (Some (DProduct product)), w')
    end.

(** [exports.deleteProduct] *)
Definition deleteProduct (id : string) (w : World) : Response * World :=
  match Product_findById w id with
  | None => (fail 404 msgProductNotFound, w)
  | Some product =>
      (mkResponse 200 true (Some [Lit "Product deleted successfully"]) None,
       Product_save id (withActive product false) w)
  end.

(** [exports.addReview]; [user] is [req.user.id]. *)
Definition addReview (id user : string) (rating : Z) (comment : string)
    (w : World) : Response * World :=
  match Product_findById w id with
  | None => (fail 404 msgProductNotFound, w)
  | Some product =>
    match List.find (fun review => String.eqb (Review.user review) user)
                    (Product.reviews product) with
    | Some _ => (fail 400 [Lit "You have already reviewed this product"], w)
    | None =>
        let review := Review.mk user rating comment in
        let product :=
          withReviews product (Product.reviews product ++ [review]) in
        let product := calculateAverageRating product in
        (mkResponse 201 true (Some [Lit "Review added successfully"])
           (Some (DReview review)), Product_save id product w)
    end
  end.

(** *** Queries *)

(** [Product.find(filter)]: the documents of the collection that satisfy
    the filter, with their ids. *)
Definition Product_find (filter : string -> Product.t -> bool) (w : World)
  : list (string * Product.t) :=
  List.filter (fun d => filter d.1 d.2) (map_to_list (products w)).

(** [.limit(n)]; a limit of zero is no limit. *)
Definition db_limit {A} (n : nat) (l : list A) : list A :=
  match n with O => l | _ => take n l end.

(** [.skip(n)] *)
Definition db_skip {A} (n : nat) (l : list A) : list A := drop n l.

(** The order of documents on a sort path; a path the documents do not
    have orders nothing. *)
Definition comparePath (path : string) (a b : Product.t) : comparison :=
  if String.eqb path "name" then
    String.compare (Product.name a) (Product.name b)
  else if String.eqb path "price" then
    Qcompare (Product.price a) (Product.price b)
  else if String.eqb path "createdAt" then
    Z.compare (Product.createdAt a) (Product.createdAt b)
  else if String.eqb path "ratings.average" then
    Qcompare (Product.ratings_average a) (Product.ratings_average b)
  else if String.eqb path "brand" then
    String.compare (Product.brand a) (Product.brand b)
  else Eq.

(** [before path dir a b]: [a] may precede [b] under [{ path: dir }]. *)
Definition before (path : string) (descending : bool) (a b : Product.t)
  : bool :=
  match comparePath path a b with
  | Eq => true
  | Lt => negb descending
  | Gt => descending
  end.

Fixpoint insertSorted (le : Product.t -> Product.t -> bool)
    (d : string * Product.t) (l : list (string * Product.t))
  : list (string * Product.t) :=
  match l with
  | [] => [d]
  | e :: rest =>
      if le d.2 e.2 then d :: l else e :: insertSorted le d rest
  end.

(** [.sort(sort)] *)
Definition db_sort (path : string) (descending : bool)
    (l : list (string * Product.t)) : list (string * Product.t) :=
  foldr (insertSorted (before path descending)) [] l.

(** The query string of [GET /api/products] after parsing; a parameter
    that is absent or empty, hence falsy, is [None]. *)
Module Query.
Record t := mk {
    page : nat;
    limit : nat;
    category : option string;
    brand : option string;
    minPrice : option Q;
    maxPrice : option Q;
    rating : option Q;
    search : option string;
    sortBy : string;
    sortOrder : string;
    featured : option string
  }.
End Query.

Section ProductQueries.

  (** Matching is the database's: [regex_i pattern s] is the
      case-insensitive regular expression test, [text_search q p] the
      [$text] search of the text index. *)
Variable regex_i : string -> string -> bool.
Variable text_search : string -> Product.t -> bool.

Definition listFilter (q : Query.t) (_ : string) (p : Product.t) : bool :=
  Product.isActive p
  && optb (fun c => String.eqb (Product.category p) c) (Query.category q)
  && optb (fun b => regex_i b (Product.brand p)) (Query.brand q)
  && optb (fun m => Qle_bool m (Product.price p)) (Query.minPrice q)
  && optb (fun m => Qle_bool (Product.price p) m) (Query.maxPrice q)
  && optb (fun r => Qle_bool r (Product.ratings_average p)) (Query.rating q)
  && optb (fun s => text_search s p) (Query.search q)
  && optb (fun f => negb (String.eqb f "true") || Product.isFeatured p)
          (Query.featured q).

(** [exports.getProducts]; [page] and [limit] are the parsed integers.
    The pagination block of the answer is left out. *)
Definition getProducts (q : Query.t) (w : World) : Response * World :=
  let skip := ((Query.page q - 1) * Query.limit q)%nat in
  let products :=
    db_limit (Query.limit q)
      (db_skip skip
         (db_sort (Query.sortBy q) (String.eqb (Query.sortOrder q) "desc")
            (Product_find (listFilter q) w))) in
  (mkResponse 200 true None (Some (DProducts products)), w).

Definition searchFilter (q : string) (_ : string) (p : Product.t) : bool :=
  Product.isActive p
  && (regex_i q (Product.name p)
      || regex_i q (Product.description p)
      || regex_i q (Product.brand p)
      || existsb (regex_i q) (Product.tags p)).

(** [exports.searchProducts]; [q] is [None] when absent or empty. *)
Definition searchProducts (q : option string) (limit : nat) (w : World)
  : Response * World :=
  match q with
  | None => (fail 400 [Lit "Search query is required"], w)
  | Some q =>
      (mkResponse 200 true None
         (Some (DProducts (db_limit limit (Product_find (searchFilter q) w)))),
       w)
  end.

End ProductQueries.

Definition relatedFilter (id : string) (product : Product.t)
    (id' : string) (p : Product.t) : bool :=
  negb (String.eqb id' id)
  && String.eqb (Product.category p) (Product.category product)
  && Product.isActive p.

(** [exports.getRelatedProducts] *)
Definition getRelatedProducts (id : string) (limit : nat) (w : World)
  : Response * World :=
  match Product_findById w id with
  | None => (fail 404 msgProductNotFound, w)
  | Some product =>
      (mkResponse 200 true None
         (Some (DProducts
            (db_limit limit (Product_find (relatedFilter id product) w)))),
       w)
  end.

(** The products an answer lists. *)
Definition listed (r : Response) : list (string * Product.t) :=
  match data r with
  | Some (DProducts ps) => ps
  | _ => []
  end.

(** ** Statements about the cart *)

(** The operations that change a cart. *)
Inductive CartOp :=
| OpAdd (productId : string) (quantity : option Z)
| OpUpdate (productId : string) (quantity : Z)
| OpRemove (productId : string)
| OpClear.

Definition runOp (user : string) (op : CartOp) (w : World)
  : Response * World :=
  match op with
  | OpAdd productId quantity => addToCart user productId quantity w
  | OpUpdate productId quantity => updateCartItem user productId quantity w
  | OpRemove productId => removeFromCart user productId w
  | OpClear => clearCart user w
  end.

Definition totalsConsistent (c : Cart.t) : Prop :=
  Cart.totalItems c = sumZ (map Item.quantity (Cart.items c))
  /\ Cart.totalPrice c = sumQ (map lineTotal (Cart.items c)).


(** What the loop of [validateCart] does with one item alone. *)
Definition itemErrors (item : PItem.t) : list VError.t :=
  (validateStep ([], []) item).1.

Definition itemKept (item : PItem.t) : list PItem.t :=
  (validateStep ([], []) item).2.

(** The item passes the first two checks of the loop. *)
Definition keptb (item : PItem.t) : bool :=
  match PItem.product item with
  | Some p =>
      Product.isActive p
      && negb (Product.inventory_quantity p <? Item.quantity (PItem.item item))
  | None => false
  end.

(** The lines of the user's stored cart, none without a cart. *)
Definition storedItems (w : World) (user : string) : list Item.t :=
  match Cart_findOne w user with
  | Some c => Cart.items c
  | None => []
  end.

(** The item's product is missing or inactive. *)
Definition unavailable (w : World) (it : Item.t) : Prop :=
  match Product_findById w (Item.product it) with
  | Some p => Product.isActive p = false
  | None => True
  end.

(** The item's product is there and active, with less stock than the
    item's quantity. *)
Definition shortOfStock (w : World) (it : Item.t) : Prop :=
  exists p, Product_findById w (Item.product it) = Some p
    /\ Product.isActive p = true
    /\ Product.inventory_quantity p < Item.quantity it.

(** The item's product is there and active, with enough stock: price
    drift is the only error the item can have. *)
Definition purchasable (w : World) (it : Item.t) : Prop :=
  exists p, Product_findById w (Item.product it) = Some p
    /\ Product.isActive p = true
    /\ Item.quantity it <= Product.inventory_quantity p.

(** All four fields of the summary are there. *)
Definition fullSummary (s : Summary.t) : Prop :=
  is_Some (Summary.totalItems s) /\ is_Some (Summary.totalPrice s)
  /\ is_Some (Summary.itemsCount s) /\ is_Some (Summary.isEmpty s).

(** The ratings agree with the reviews: the count is their number and
    the average is the multiple of one tenth nearest to their mean
    (halves upwards); both are zero without reviews. *)
Definition meanRating (reviews : list Review.t) : Q :=
  (inject_Z (sumZ (map Review.rating reviews))
   / inject_Z (Z.of_nat (length reviews)))%Q.

Definition ratingsConsistent (p : Product.t) : Prop :=
  Product.ratings_count p = Z.of_nat (length (Product.reviews p))
  /\ match Product.reviews p with
     | [] => Product.ratings_average p = 0%Q
     | _ =>
       exists k : Z,
         (Product.ratings_average p == inject_Z k / 10)%Q
         /\ (meanRating (Product.reviews p) - (1 # 20)
             < Product.ratings_average p)%Q
         /\ (Product.ratings_average p
             <= meanRating (Product.reviews p) + (1 # 20))%Q
     end.

(** ** Sample data *)

Definition widget : Product.t :=
  Product.mk "Widget" "A plain widget" 10 "tools" "Acme" 5 10 [] 0 0
             true false [] 0.

(** One active product with price 10 and 5 in stock; no carts. *)
Definition shop : World := mkWorld ∅ {[ "p1"%string := widget ]} [].

Definition retired : Product.t :=
  Product.mk "Gadget" "A retired gadget" 5 "tools" "Acme" 9 10 [] 0 0
             false false [] 1.

Definition scarce : Product.t :=
  Product.mk "Gizmo" "A scarce gizmo" 7 "tools" "Acme" 1 10 [] 0 0
             true false [] 2.

(** The shop after three users reviewed the widget with 5, 4 and 3. *)
Definition reviewed : World :=
  (addReview "p1" "carol" 3 "It does the job"
     (addReview "p1" "bob" 4 "A good widget"
        (addReview "p1" "alice" 5 "A great widget" shop).2).2).2.

(** A request body that sets the reviews and nothing else. *)
Definition onlyReviews (reviews : list Review.t) : Patch.t :=
  Patch.mk None None None None None None (Some reviews)
           None None None None.

(** [GET /api/products] without parameters. *)
Definition defaultQuery : Query.t :=
  Query.mk 1 12 None None None None None None "createdAt" "desc" None.

(** A matcher that accepts everything. *)
Definition anyMatch {A} (_ : string) (_ : A) : bool := true.

(** A cart whose lines are: a widget bought at 8 (now 10), a retired
    gadget, 4 gizmos with 1 in stock, and a product that is gone. *)
Definition market : World :=
  mkWorld
    {[ "u1"%string :=
         recomputeTotals
           (Cart.mk [Item.mk "p1" 2 8; Item.mk "p2" 1 5; Item.mk "p3" 4 7;
                     Item.mk "p4" 1 1] 0 0%Q) ]}
    (<[ "p1"%string := widget ]>
       (<[ "p2"%string := retired ]> {[ "p3"%string := scarce ]}))
    [].

(** The shop after user [u1] added 3 widgets. *)
Definition shop3 : World := (addToCart "u1" "p1" (Some 3) shop).2.

(** The shop with a stored cart of user [u1]: one line of 2 widgets,
    totalItems 2 and totalPrice 20. *)
Definition shop2 : World :=
  mkWorld {[ "u1"%string := Cart.mk [Item.mk "p1" 2 10] 2 20 ]}
          {[ "p1"%string := widget ]} [].

(** ** Further parts of the sources *)

(** *** Virtuals of models/Product.js *)

(** [productSchema.virtual('inStock')] *)
Definition inStock (p : Product.t) : bool := 0 <? Product.inventory_quantity p.

(** [productSchema.virtual('lowStock')] *)
Definition lowStock (p : Product.t) : bool :=
  Product.inventory_quantity p <=? Product.inventory_lowStockThreshold p.

(** An element of the [images] path of the product schema. *)
Module Image.
Record t := mk { url : string; alt : option string; isMain : bool }.
End Image.

(** [productSchema.virtual('mainImage')], on the [images] of the
    document; [None] for [null]. *)
Definition mainImage (images : list Image.t) : option string :=
  match List.find Image.isMain images with
  | Some mainImg => Some (Image.url mainImg)
  | None =>
      match images with
      | first :: _ => Some (Image.url first)
      | [] => None
      end
  end.

(** *** Answers of the further handlers *)

(** The JSON envelope with a payload of type [A]. *)
Module Reply.
Record t (A : Type) := mk {
    status : Z;
    success : bool;
    message : option Message;
    data : option A
  }.
Arguments mk {A} _ _ _ _.
Arguments status {A} _.
Arguments success {A} _.
Arguments message {A} _.
Arguments data {A} _.
End Reply.

Definition refuse {A} (code : Z) (msg : Message) : Reply.t A :=
  Reply.mk code false (Some msg) None.

(** *** Inventory *)

Definition withInventory (p : Product.t) (quantity threshold : Z)
  : Product.t :=
  Product.mk (Product.name p) (Product.description p) (Product.price p)
    (Product.category p) (Product.brand p) quantity threshold
    (Product.reviews p) (Product.ratings_average p) (Product.ratings_count p)
    (Product.isActive p) (Product.isFeatured p) (Product.tags p)
    (Product.createdAt p).

(** The error of the schema's [min: [0, 'Quantity cannot be negative']]
    on [inventory.quantity], as the [catch] block passes it on; of the
    message only the validator's own text is kept. *)
Definition msgQuantityNegative : Message :=
  [Lit "Quantity cannot be negative"].

(** [exports.updateInventory]; a field the body does not have is [None].
    Saving validates the quantity the handler assigned against the
    schema's [min: 0]; the answer carries the inventory: quantity and
    lowStockThreshold. *)
Definition updateInventory (id : string) (quantity lowStockThreshold : option Z)
    (w : World) : Reply.t (Z * Z) * World :=
  match Product_findById w id with
  | None => (refuse 404 msgProductNotFound, w)
  | Some product =>
      let product :=
        withInventory product
          (default (Product.inventory_quantity product) quantity)
          (default (Product.inventory_lowStockThreshold product)
                   lowStockThreshold) in
      if negb (optb (fun q => 0 <=? q) quantity)
      then (refuse 400 msgQuantityNegative, w)
      else
        (Reply.mk 200 true (Some [Lit "Inventory updated successfully"])
           (Some (Product.inventory_quantity product,
                  Product.inventory_lowStockThreshold product)),
         Product_save id product w)
  end.

(** The filter [{ isActive: true, $expr: { $lte: ['$inventory.quantity',
    '$inventory.lowStockThreshold'] } }], on the fields as the schema
    reads them. *)
Definition lowStockFilter (_ : string) (p : Product.t) : bool :=
  Product.isActive p
  && (Product.inventory_quantity p <=? Product.inventory_lowStockThreshold p).

(** The order of [.sort('inventory.quantity')]. *)
Definition byQuantity (a b : Product.t) : bool :=
  Product.inventory_quantity a <=? Product.inventory_quantity b.

(** The query of [exports.getLowStockProducts], in the order of
    [.sort('inventory.quantity')]. *)
Definition lowStockQuery (w : World) : list (string * Product.t) :=
  foldr (insertSorted byQuantity) [] (Product_find lowStockFilter w).

(** [exports.getLowStockProducts]: the products and their count.  The
    query selects ['name sku inventory brand'], so the documents come
    without [images]; [res.json] serialises every document with its
    virtuals, the getter of [mainImage] calls [find] on the missing
    [images], and the [catch] block answers with the TypeError.  An
    empty result has no document to serialise. *)
Definition getLowStockProducts (w : World)
  : Reply.t (list (string * Product.t) * nat) * World :=
  let products := lowStockQuery w in
  match products with
  | [] => (Reply.mk 200 true None (Some (products, length products)), w)
  | _ :: _ => (refuse 400 msgImagesUndefined, w)
  end.

(** *** Pagination *)

(** The values [Math.ceil(total / limit)] takes on counts. *)
Inductive Pages :=
| Finite (n : nat)
| Infinity
| NaN.

Definition totalPagesOf (total limit : nat) : Pages :=
  match limit, total with
  | O, O => NaN
  | O, _ => Infinity
  | _, _ => Finite ((total + limit - 1) / limit)
  end.

(** [page < totalPages] *)
Definition beforePages (page : nat) (pages : Pages) : bool :=
  match pages with
  | Finite n => (page <? n)%nat
  | Infinity => true
  | NaN => false
  end.

Module Pagination.
Record t := mk {
    currentPage : nat;
    totalPages : Pages;
    total : nat;
    hasNextPage : bool;
    hasPrevPage : bool
  }.
End Pagination.

(** The [pagination] object of [getProducts] and of [getReviews]. *)
Definition pagination (page limit total : nat) : Pagination.t :=
  Pagination.mk page (totalPagesOf total limit) total
    (beforePages page (totalPagesOf total limit)) (1 <? page)%nat.

Definition withPage (q : Query.t) (page : nat) : Query.t :=
  Query.mk page (Query.limit q) (Query.category q) (Query.brand q)
    (Query.minPrice q) (Query.maxPrice q) (Query.rating q) (Query.search q)
    (Query.sortBy q) (Query.sortOrder q) (Query.featured q).

Section Listing.

Variable regex_i : string -> string -> bool.
Variable text_search : string -> Product.t -> bool.

(** The documents [getProducts] pages through: filtered and sorted. *)
Definition matching (q : Query.t) (w : World) : list (string * Product.t) :=
  db_sort (Query.sortBy q) (String.eqb (Query.sortOrder q) "desc")
          (Product_find (listFilter regex_i text_search q) w).

(** The [pagination] block of the answer of [getProducts];
    [Product.countDocuments(filter)] counts the matching documents. *)
Definition getProductsPagination (q : Query.t) (w : World) : Pagination.t :=
  pagination (Query.page q) (Query.limit q)
    (length (Product_find (listFilter regex_i text_search q) w)).

End Listing.

(** *** Reviews of a product *)

Fixpoint insertBy {A} (le : A -> A -> bool) (x : A) (l : list A) : list A :=
  match l with
  | [] => [x]
  | y :: rest => if le x y then x :: l else y :: insertBy le x rest
  end.

(** [Array.prototype.sort] with a comparator: a stable sort. *)
Definition sortBy {A} (le : A -> A -> bool) (l : list A) : list A :=
  foldr (insertBy le) [] l.

Section Reviews.

(** The [createdAt] that [timestamps: true] gives a review. *)
Variable reviewCreatedAt : Review.t -> Z.

(** [(a, b) => new Date(b.createdAt) - new Date(a.createdAt)] is not
    positive: [a] may stay before [b]. *)
Definition newerFirst (a b : Review.t) : bool :=
  reviewCreatedAt b <=? reviewCreatedAt a.

(** [exports.getReviews]; [page] and [limit] are the parsed integers.
    With page 0 the slice starts at a negative index and ends at 0: it is
    empty.  The sorted array is not saved. *)
Definition getReviews (id : string) (page limit : nat) (w : World)
  : Reply.t (list Review.t * Pagination.t) * World :=
  match Product_findById w id with
  | None => (refuse 404 msgProductNotFound, w)
  | Some product =>
      let skip := ((page - 1) * limit)%nat in
      let sorted := sortBy newerFirst (Product.reviews product) in
      let reviews :=
        match page with
        | O => []
        | _ => take limit (drop skip sorted)
        end in
      (Reply.mk 200 true None
         (Some (reviews,
                pagination page limit (length (Product.reviews product)))),
       w)
  end.

End Reviews.

(** The reviews an answer of getReviews carries. *)
Definition reviewsOf (r : Reply.t (list Review.t * Pagination.t))
  : list Review.t :=
  match Reply.data r with
  | Some (reviews, _) => reviews
  | None => []
  end.

(** ** Further statements *)

(** The quantity the user's cart already holds of a product, in the line
    [findIndex] finds. *)
Definition lineQuantity (w : World) (user productId : string) : Z :=
  match findIndex productId (storedItems w user) with
  | Some (_, existing) => Item.quantity existing
  | None => 0
  end.

(** The products of the lines of the user's cart. *)
Definition cartProducts (w : World) (user : string) : list string :=
  map Item.product (storedItems w user).

(** The shop with the gizmo added, after user [u1] added 3 widgets. *)
Definition shop3b : World :=
  mkWorld (carts shop3) (<[ "p3"%string := scarce ]> (products shop3)) [].

(** A request body that sets [isActive] and nothing else. *)
Definition onlyActive (active : bool) : Patch.t :=
  Patch.mk None None None None None None None
           None (Some active) None None.

(** The requests that pass every check of their handler. *)
Definition accepts (user : string) (op : CartOp) (w : World) : Prop :=
  match op with
  | OpAdd productId quantity =>
      exists product,
        Product_findByIdCast w productId = Some product
        /\ Product.isActive product = true
        /\ default 1 quantity <= Product.inventory_quantity product
        /\ lineQuantity w user productId + default 1 quantity
           <= Product.inventory_quantity product
  | OpUpdate productId quantity =>
      1 <= quantity
      /\ In productId (cartProducts w user)
      /\ exists product,
           Product_findById w productId = Some product
           /\ Product.isActive product = true
           /\ quantity <= Product.inventory_quantity product
  | OpRemove productId => In productId (cartProducts w user)
  | OpClear => is_Some (Cart_findOne w user)
  end.

(** User [u1] holds a retired gadget and 4 gizmos, of which 1 is in
    stock. *)
Definition clearance : World :=
  mkWorld
    {[ "u1"%string :=
         recomputeTotals (Cart.mk [Item.mk "p2" 1 5; Item.mk "p3" 4 7] 0 0%Q) ]}
    (<[ "p2"%string := retired ]> {[ "p3"%string := scarce ]})
    [].

(** A world whose product has hex letters in its id: user [u1] holds all
    5 widgets of product [a1]. *)
Definition depot : World :=
  (addToCart "u1" "a1" (Some 5)
     (mkWorld ∅ {[ "a1"%string := widget ]} [])).2.

(** The double nearest to 19.99. *)
Definition double_19_99 : Q := 5626684784446013 # 281474976710656.

Definition gauge : Product.t :=
  Product.mk "Gauge" "A pressure gauge" double_19_99 "tools" "Acme" 3 10
             [] 0 0 true false [] 3.

(** User [u1] holds one gauge, priced 19.99; the cart is stored with its
    totals, totalItems 1 and totalPrice 19.99. *)
Definition bench : World :=
  mkWorld {[ "u1"%string :=
               Cart.mk [Item.mk "p5" 1 double_19_99] 1 double_19_99 ]}
          {[ "p5"%string := gauge ]} [].


(** ** Proofs *)

(** *** Doubles *)

Lemma pow2_pos e : (0 < pow2 e)%Q.
Proof. apply Qpower_0_lt. reflexivity. Qed.

Lemma pow2_add a b : (pow2 (a + b) == pow2 a * pow2 b)%Q.
Proof. apply Qpower_plus. discriminate. Qed.

Lemma pow2_le a b : a <= b -> (pow2 a <= pow2 b)%Q.
Proof. intros H. apply Qpower_le_compat_l; [exact H | discriminate]. Qed.

Lemma pow2_lt a b : a < b -> (pow2 a < pow2 b)%Q.
Proof. intros H. apply Qpower_lt_compat_l; [exact H | reflexivity]. Qed.

Lemma pow2_Z e : 0 <= e -> (pow2 e == inject_Z (2 ^ e))%Q.
Proof. intros H. unfold pow2. symmetry. by apply (Zpower_Qpower 2). Qed.

Lemma pow2_0 : (pow2 0 == 1)%Q.
Proof. reflexivity. Qed.

Lemma pow2_sub a b : (pow2 (a - b) == pow2 a / pow2 b)%Q.
Proof. apply Qpower_minus. discriminate. Qed.

(** Rounding to an integer. *)

Lemma roundHalfEven_floor y :
  Qfloor y <= roundHalfEven y <= Qfloor y + 1.
Proof.
  unfold roundHalfEven.
  destruct (Qcompare _ _); [destruct (Z.even _) | |]; lia.
Qed.

Lemma roundHalfEven_near y :
  (Qabs (inject_Z (roundHalfEven y) - y) <= 1 # 2)%Q.
Proof.
  pose proof (Qfloor_le y) as Hlo. pose proof (Qlt_floor y) as Hhi.
  unfold roundHalfEven.
  rewrite inject_Z_plus in Hhi. change (inject_Z 1) with 1%Q in Hhi.
  destruct (Qcompare_spec (y - inject_Z (Qfloor y)) (1 # 2)) as [H | H | H].
  - destruct (Z.even (Qfloor y));
      [| rewrite inject_Z_plus; change (inject_Z 1) with 1%Q];
      apply Qabs_Qle_condition; split; lra.
  - apply Qabs_Qle_condition; split; lra.
  - rewrite inject_Z_plus. change (inject_Z 1) with 1%Q.
    apply Qabs_Qle_condition; split; lra.
Qed.

Lemma roundHalfEven_int n : roundHalfEven (inject_Z n) = n.
Proof.
  unfold roundHalfEven. rewrite Qfloor_Z.
  assert (inject_Z n - inject_Z n == 0)%Q as H by ring.
  destruct (Qcompare_spec (inject_Z n - inject_Z n) (1 # 2)) as [H1 | H1 | H1];
    [lra | reflexivity | lra].
Qed.

Lemma roundHalfEven_mono y z :
  (y <= z)%Q -> roundHalfEven y <= roundHalfEven z.
Proof.
  intros Hle.
  pose proof (Qfloor_resp_le _ _ Hle) as Hf.
  destruct (Z.eq_dec (Qfloor y) (Qfloor z)) as [E | E].
  - unfold roundHalfEven. rewrite E.
    destruct (Qcompare_spec (y - inject_Z (Qfloor z)) (1 # 2)) as [H | H | H];
      destruct (Qcompare_spec (z - inject_Z (Qfloor z)) (1 # 2))
        as [H' | H' | H'];
      try destruct (Z.even (Qfloor z)); try lia; lra.
  - pose proof (roundHalfEven_floor y). pose proof (roundHalfEven_floor z).
    lia.
Qed.

Lemma roundHalfEven_comp y z : (y == z)%Q -> roundHalfEven y = roundHalfEven z.
Proof.
  intros H. apply Z.le_antisymm; apply roundHalfEven_mono; lra.
Qed.

(** The exponent. *)

Lemma Q_num_den x : (x * inject_Z (Zpos (Qden x)) == inject_Z (Qnum x))%Q.
Proof. destruct x as [n d]. unfold Qeq. simpl. lia. Qed.

Lemma exponentOf_spec x :
  (0 < x)%Q ->
  (pow2 (exponentOf x) <= x)%Q /\ (x < pow2 (exponentOf x + 1))%Q.
Proof.
  intros Hx.
  set (n := Qnum x). set (d := Zpos (Qden x)).
  assert (0 < n) as Hn.
  { destruct x as [n' d']. unfold Qlt in Hx. simpl in *. subst n. lia. }
  assert (0 < d) as Hd by (subst d; lia).
  pose proof (Z.log2_spec n Hn) as Ha. pose proof (Z.log2_spec d Hd) as Hb.
  pose proof (Z.log2_nonneg n) as Ha0. pose proof (Z.log2_nonneg d) as Hb0.
  pose proof (Q_num_den x) as Hnd. fold n d in Hnd.
  set (a := Z.log2 n) in *. set (b := Z.log2 d) in *.
  assert (x < pow2 (a - b + 1))%Q as Hup.
  { apply (Qmult_lt_r _ _ (pow2 b)); [apply pow2_pos |].
    rewrite <- pow2_add. replace (a - b + 1 + b) with (a + 1) by lia.
    apply Qle_lt_trans with (x * inject_Z d)%Q.
    - apply Qmult_le_l; [exact Hx |]. rewrite pow2_Z by lia.
      rewrite <- Zle_Qle. lia.
    - rewrite Hnd, pow2_Z by lia. rewrite <- Zlt_Qlt.
      replace (a + 1) with (Z.succ a) by lia. lia. }
  assert (pow2 (a - b - 1) < x)%Q as Hlo.
  { apply (Qmult_lt_r _ _ (pow2 (b + 1))); [apply pow2_pos |].
    rewrite <- pow2_add. replace (a - b - 1 + (b + 1)) with a by lia.
    apply Qle_lt_trans with (x * inject_Z d)%Q.
    - rewrite Hnd, pow2_Z by lia. rewrite <- Zle_Qle. lia.
    - apply Qmult_lt_l; [exact Hx |]. rewrite pow2_Z by lia.
      rewrite <- Zlt_Qlt. replace (b + 1) with (Z.succ b) by lia. lia. }
  unfold exponentOf. fold n d a b.
  destruct (Qle_bool (pow2 (a - b)) x) eqn:E.
  - apply Qle_bool_iff in E. by split.
  - split; [by apply Qlt_le_weak |].
    replace (a - b - 1 + 1) with (a - b) by lia.
    apply Qnot_le_lt. intros H. apply Qle_bool_iff in H. congruence.
Qed.

(** The exponent is the only one with that property. *)
Lemma exponentOf_unique x e :
  (pow2 e <= x)%Q -> (x < pow2 (e + 1))%Q -> exponentOf x = e.
Proof.
  intros Hlo Hhi.
  assert (0 < x)%Q as Hx by (pose proof (pow2_pos e); lra).
  destruct (exponentOf_spec x Hx) as [Hlo' Hhi'].
  destruct (Z.lt_trichotomy (exponentOf x) e) as [H | [H | H]];
    [| exact H |].
  - assert (pow2 (exponentOf x + 1) <= pow2 e)%Q by (apply pow2_le; lia).
    lra.
  - assert (pow2 (e + 1) <= pow2 (exponentOf x))%Q by (apply pow2_le; lia).
    lra.
Qed.

Lemma exponentOf_mono x y :
  (0 < x)%Q -> (x <= y)%Q -> exponentOf x <= exponentOf y.
Proof.
  intros Hx Hle.
  destruct (exponentOf_spec x Hx) as [Hlo _].
  destruct (exponentOf_spec y) as [_ Hhi]; [lra |].
  destruct (Z.le_gt_cases (exponentOf x) (exponentOf y)) as [H | H];
    [exact H |].
  assert (pow2 (exponentOf y + 1) <= pow2 (exponentOf x))%Q
    by (apply pow2_le; lia).
  lra.
Qed.

(** The nearest point of the grid. *)

Lemma ulpExponent_spec a :
  exponentOf a - 52 <= ulpExponent a /\ -1074 <= ulpExponent a.
Proof. unfold ulpExponent. lia. Qed.

Lemma div_pow2 a p : (a / pow2 p * pow2 p == a)%Q.
Proof. field. pose proof (pow2_pos p). lra. Qed.

Lemma nearest_error a :
  (Qabs (nearest a - a) <= pow2 (ulpExponent a - 1))%Q.
Proof.
  unfold nearest. set (p := ulpExponent a).
  pose proof (roundHalfEven_near (a / pow2 p)) as H.
  pose proof (pow2_pos p) as Hp.
  assert (pow2 (p - 1) == (1 # 2) * pow2 p)%Q as ->.
  { rewrite pow2_sub. change (pow2 1) with 2%Q. field. }
  set (n := inject_Z (roundHalfEven (a / pow2 p))) in *.
  assert (n * pow2 p - a == (n - a / pow2 p) * pow2 p)%Q as ->.
  { field. lra. }
  rewrite Qabs_Qmult, (Qabs_pos (pow2 p)) by lra.
  apply Qmult_le_compat_r; [exact H | lra].
Qed.

Lemma nearest_nonneg a : (0 <= a)%Q -> (0 <= nearest a)%Q.
Proof.
  intros Ha. unfold nearest.
  pose proof (pow2_pos (ulpExponent a)) as Hp.
  apply Qmult_le_0_compat; [| lra].
  change 0%Q with (inject_Z 0). rewrite <- Zle_Qle.
  rewrite <- (roundHalfEven_int 0). apply roundHalfEven_mono.
  change (inject_Z 0) with 0%Q.
  apply Qle_shift_div_l; [exact Hp | lra].
Qed.

(** A multiple of a power of two that is on the grid or finer is its own
    nearest point. *)
Lemma nearest_exact a m q :
  0 < m < 2 ^ 53 -> -1074 <= q ->
  (a == inject_Z m * pow2 q)%Q ->
  (nearest a == a)%Q.
Proof.
  intros Hm Hq Ha.
  pose proof (pow2_pos q) as Hq0.
  assert (0 < a)%Q as Ha0.
  { rewrite Ha. apply Qmult_lt_0_compat; [| exact Hq0].
    change 0%Q with (inject_Z 0). rewrite <- Zlt_Qlt. lia. }
  destruct (exponentOf_spec a Ha0) as [Hlo _].
  assert (a < pow2 (53 + q))%Q as Hhi.
  { rewrite Ha, pow2_add. apply Qmult_lt_compat_r; [exact Hq0 |].
    rewrite pow2_Z by lia. rewrite <- Zlt_Qlt. lia. }
  assert (exponentOf a < 53 + q) as He.
  { destruct (Z.lt_ge_cases (exponentOf a) (53 + q)) as [H | H]; [exact H |].
    pose proof (pow2_le _ _ H). lra. }
  assert (ulpExponent a <= q) as Hp by (unfold ulpExponent; lia).
  unfold nearest. set (p := ulpExponent a) in *.
  assert (a / pow2 p == inject_Z (m * 2 ^ (q - p)))%Q as Hy.
  { rewrite inject_Z_mult, <- pow2_Z by lia. rewrite pow2_sub, Ha.
    field. pose proof (pow2_pos p). lra. }
  rewrite (roundHalfEven_comp _ _ Hy), roundHalfEven_int, <- Hy.
  apply div_pow2.
Qed.

Lemma nearest_comp a b : (a == b)%Q -> (0 < a)%Q -> (nearest a == nearest b)%Q.
Proof.
  intros H Ha.
  assert (exponentOf a = exponentOf b) as He.
  { destruct (exponentOf_spec a Ha) as [Hlo Hhi].
    symmetry. apply exponentOf_unique; lra. }
  unfold nearest, ulpExponent. rewrite He.
  set (p := Z.max _ _).
  rewrite (roundHalfEven_comp (a / pow2 p) (b / pow2 p)); [reflexivity |].
  by rewrite H.
Qed.

Lemma nearest_upper a :
  (0 < a)%Q ->
  (nearest a <= pow2 (Z.max (exponentOf a + 1) (ulpExponent a)))%Q.
Proof.
  intros Ha. destruct (exponentOf_spec a Ha) as [_ Hhi].
  unfold nearest. set (p := ulpExponent a). set (e := exponentOf a) in *.
  set (k := Z.max (e + 1) p).
  pose proof (pow2_pos p) as Hp.
  assert (pow2 k == inject_Z (2 ^ (k - p)) * pow2 p)%Q as ->.
  { rewrite <- pow2_Z, <- pow2_add by lia. by replace (k - p + p) with k by lia. }
  apply Qmult_le_compat_r; [| lra].
  rewrite <- Zle_Qle. rewrite <- (roundHalfEven_int (2 ^ (k - p))).
  apply roundHalfEven_mono. rewrite <- pow2_Z, pow2_sub by lia.
  apply Qmult_le_compat_r; [| apply Qlt_le_weak, Qinv_lt_0_compat, Hp].
  assert (pow2 (e + 1) <= pow2 k)%Q by (apply pow2_le; lia). lra.
Qed.

Lemma nearest_lower a :
  (0 < a)%Q -> ulpExponent a <= exponentOf a ->
  (pow2 (exponentOf a) <= nearest a)%Q.
Proof.
  intros Ha Hpe. destruct (exponentOf_spec a Ha) as [Hlo _].
  unfold nearest. set (p := ulpExponent a) in *. set (e := exponentOf a) in *.
  pose proof (pow2_pos p) as Hp.
  assert (pow2 e == inject_Z (2 ^ (e - p)) * pow2 p)%Q as ->.
  { rewrite <- pow2_Z, <- pow2_add by lia. by replace (e - p + p) with e by lia. }
  apply Qmult_le_compat_r; [| lra].
  rewrite <- Zle_Qle. rewrite <- (roundHalfEven_int (2 ^ (e - p))).
  apply roundHalfEven_mono. rewrite <- pow2_Z, pow2_sub by lia.
  apply Qmult_le_compat_r; [exact Hlo |].
  apply Qlt_le_weak, Qinv_lt_0_compat, Hp.
Qed.

Lemma nearest_mono a b : (0 < a)%Q -> (a <= b)%Q -> (nearest a <= nearest b)%Q.
Proof.
  intros Ha Hab.
  assert (0 < b)%Q as Hb by lra.
  pose proof (exponentOf_mono a b Ha Hab) as He.
  destruct (Z.eq_dec (ulpExponent a) (ulpExponent b)) as [E | E].
  - unfold nearest. rewrite E. set (p := ulpExponent b).
    pose proof (pow2_pos p) as Hp.
    apply Qmult_le_compat_r; [| lra].
    rewrite <- Zle_Qle. apply roundHalfEven_mono.
    apply Qmult_le_compat_r; [exact Hab |].
    apply Qlt_le_weak, Qinv_lt_0_compat, Hp.
  - assert (ulpExponent a < ulpExponent b) as Hlt
      by (unfold ulpExponent in *; lia).
    pose proof (nearest_upper a Ha) as Hup.
    assert (ulpExponent b <= exponentOf b) as Hpb
      by (unfold ulpExponent in *; lia).
    pose proof (nearest_lower b Hb Hpb) as Hlo.
    assert (pow2 (Z.max (exponentOf a + 1) (ulpExponent a))
            <= pow2 (exponentOf b))%Q.
    { apply pow2_le. unfold ulpExponent in *. lia. }
    lra.
Qed.

(** Rounding to a double. *)

Lemma Qabs_pos_eq x : (0 < x)%Q -> Qabs x = x.
Proof. destruct x as [[| n | n] d]; [done | done |]. intros H. by compute in H. Qed.

Lemma Qabs_neg_eq x : (x < 0)%Q -> Qabs x = (- x)%Q.
Proof. destruct x as [[| n | n] d]; [| | done]; intros H; by compute in H. Qed.

Lemma roundDouble_zero x : (x == 0)%Q -> roundDouble x = Fin 0.
Proof.
  intros H. unfold roundDouble.
  assert (Qle_bool (Qabs x) 0 = true) as ->; [| reflexivity].
  apply Qle_bool_iff. rewrite H. by compute.
Qed.

Lemma roundDouble_pos x :
  (0 < x)%Q ->
  roundDouble x
  = if Qle_bool (pow2 1024) (nearest x) then PInf
    else Fin (Qred (nearest x)).
Proof.
  intros H. unfold roundDouble. rewrite (Qabs_pos_eq x H).
  assert (Qle_bool x 0 = false) as ->.
  { destruct (Qle_bool x 0) eqn:E; [| reflexivity].
    apply Qle_bool_iff in E. lra. }
  assert (Qle_bool 0 x = true) as ->; [| reflexivity].
  apply Qle_bool_iff. lra.
Qed.

Lemma roundDouble_neg x :
  (x < 0)%Q ->
  roundDouble x
  = if Qle_bool (pow2 1024) (nearest (- x)) then NInf
    else Fin (Qred (- nearest (- x))).
Proof.
  intros H. unfold roundDouble. rewrite (Qabs_neg_eq x H).
  assert (Qle_bool (- x) 0 = false) as ->.
  { destruct (Qle_bool (- x) 0) eqn:E; [| reflexivity].
    apply Qle_bool_iff in E. lra. }
  assert (Qle_bool 0 x = false) as ->; [| reflexivity].
  destruct (Qle_bool 0 x) eqn:E; [| reflexivity].
  apply Qle_bool_iff in E. lra.
Qed.

Lemma Qle_bool_false x y : Qle_bool x y = false <-> (y < x)%Q.
Proof.
  split.
  - intros H. apply Qnot_le_lt. intros H'. apply Qle_bool_iff in H'.
    congruence.
  - intros H. destruct (Qle_bool x y) eqn:E; [| reflexivity].
    apply Qle_bool_iff in E. lra.
Qed.

Lemma leD_NInf d : leD NInf d.
Proof. exact I. Qed.

Lemma leD_PInf d : leD d PInf.
Proof. by destruct d. Qed.

Lemma roundDouble_mono x y :
  (x <= y)%Q -> leD (roundDouble x) (roundDouble y).
Proof.
  intros Hxy.
  destruct (Q_dec x 0) as [[Hx | Hx] | Hx];
    destruct (Q_dec y 0) as [[Hy | Hy] | Hy]; try lra.
  - rewrite (roundDouble_neg x Hx), (roundDouble_neg y Hy).
    assert (nearest (- y) <= nearest (- x))%Q as Hm
      by (apply nearest_mono; lra).
    destruct (Qle_bool (pow2 1024) (nearest (- x))) eqn:Ex;
      [apply leD_NInf |].
    destruct (Qle_bool (pow2 1024) (nearest (- y))) eqn:Ey.
    + apply Qle_bool_iff in Ey. apply Qle_bool_false in Ex. lra.
    + simpl. rewrite !Qred_correct. lra.
  - rewrite (roundDouble_neg x Hx), (roundDouble_pos y Hy).
    assert (0 <= nearest (- x))%Q by (apply nearest_nonneg; lra).
    assert (0 <= nearest y)%Q by (apply nearest_nonneg; lra).
    destruct (Qle_bool _ (nearest (- x))); [apply leD_NInf |].
    destruct (Qle_bool _ _); [apply leD_PInf |].
    simpl. rewrite !Qred_correct. lra.
  - rewrite (roundDouble_neg x Hx), (roundDouble_zero y Hy).
    assert (0 <= nearest (- x))%Q by (apply nearest_nonneg; lra).
    destruct (Qle_bool _ _); [apply leD_NInf |].
    simpl. rewrite !Qred_correct. lra.
  - rewrite (roundDouble_pos x Hx), (roundDouble_pos y Hy).
    assert (nearest x <= nearest y)%Q as Hm by (apply nearest_mono; lra).
    destruct (Qle_bool (pow2 1024) (nearest y)) eqn:Ey;
      [apply leD_PInf |].
    destruct (Qle_bool (pow2 1024) (nearest x)) eqn:Ex.
    + apply Qle_bool_iff in Ex. apply Qle_bool_false in Ey. lra.
    + simpl. rewrite !Qred_correct. lra.
  - rewrite (roundDouble_zero x Hx), (roundDouble_pos y Hy).
    assert (0 <= nearest y)%Q by (apply nearest_nonneg; lra).
    destruct (Qle_bool _ _); [apply leD_PInf |].
    simpl. rewrite !Qred_correct. lra.
  - rewrite (roundDouble_zero x Hx), (roundDouble_zero y Hy). simpl. lra.
Qed.

(** A number with a mantissa of 53 bits and an exponent of at least
    -1074 below 2^1024 is a double: rounding leaves it as it is. *)
Lemma roundDouble_exact x m q :
  0 <= m < 2 ^ 53 -> -1074 <= q ->
  (x == inject_Z m * pow2 q)%Q ->
  (x < pow2 1024)%Q ->
  exists r, roundDouble x = Fin r /\ (r == x)%Q.
Proof.
  intros Hm Hq Hx Hmax.
  destruct (Z.eq_dec m 0) as [-> | Hm0].
  { exists 0%Q. assert (x == 0)%Q as H0 by (rewrite Hx; ring).
    split; [by apply roundDouble_zero | by rewrite H0]. }
  pose proof (pow2_pos q) as Hq0.
  assert (0 < x)%Q as Hpos.
  { rewrite Hx. apply Qmult_lt_0_compat; [| exact Hq0].
    change 0%Q with (inject_Z 0). rewrite <- Zlt_Qlt. lia. }
  assert (nearest x == x)%Q as Hn by (apply (nearest_exact x m q); [lia | done..]).
  rewrite (roundDouble_pos x Hpos).
  assert (Qle_bool (pow2 1024) (nearest x) = false) as ->.
  { apply Qle_bool_false. lra. }
  eexists. split; [reflexivity |]. by rewrite Qred_correct.
Qed.

(** What rounding gives is a double. *)
Lemma nearest_form a :
  (0 < a)%Q -> (nearest a < pow2 1024)%Q ->
  exists m q,
    0 <= m < 2 ^ 53 /\ -1074 <= q /\ (nearest a == inject_Z m * pow2 q)%Q.
Proof.
  intros Ha Hmax.
  pose proof (ulpExponent_spec a) as [Hp1 Hp2].
  pose proof (nearest_upper a Ha) as Hup.
  pose proof (nearest_nonneg a (Qlt_le_weak _ _ Ha)) as Hlo.
  set (p := ulpExponent a) in *. set (e := exponentOf a) in *.
  set (n := roundHalfEven (a / pow2 p)).
  assert (nearest a == inject_Z n * pow2 p)%Q as Hn by reflexivity.
  pose proof (pow2_pos p) as Hp.
  assert (0 <= n) as Hn0.
  { rewrite Hn in Hlo. rewrite Zle_Qle. change (inject_Z 0) with 0%Q.
    apply (Qmult_le_r _ _ (pow2 p)); [exact Hp | lra]. }
  destruct (Z.lt_ge_cases n (2 ^ 53)) as [Hlt | Hge].
  { exists n, p. split; [lia |]. split; [lia | exact Hn]. }
  (* the mantissa reached 2^53: the next power of two *)
  assert (n <= 2 ^ (Z.max (e + 1) p - p)) as Hle.
  { rewrite Zle_Qle. apply (Qmult_le_r _ _ (pow2 p)); [exact Hp |].
    rewrite <- Hn, <- pow2_Z, <- pow2_add by lia.
    by replace (Z.max (e + 1) p - p + p) with (Z.max (e + 1) p) by lia. }
  assert (Z.max (e + 1) p - p <= 53) as Hk by lia.
  assert (2 ^ (Z.max (e + 1) p - p) <= 2 ^ 53) as Hpow
    by (apply Z.pow_le_mono_r; lia).
  assert (n = 2 ^ 53) as Hn53 by lia.
  exists 1, (p + 53). split; [lia |]. split; [lia |].
  rewrite Hn, Hn53, pow2_add, <- pow2_Z by lia. ring.
Qed.

Lemma roundDouble_nonneg x : (0 <= x)%Q -> nonNegative (roundDouble x).
Proof.
  intros Hx. destruct (Q_dec x 0) as [[H | H] | H]; [lra | |].
  - rewrite (roundDouble_pos x H).
    assert (0 <= nearest x)%Q by (apply nearest_nonneg; lra).
    destruct (Qle_bool _ _); [exact I |]. simpl. by rewrite Qred_correct.
  - rewrite (roundDouble_zero x H). simpl. lra.
Qed.

Lemma isDouble_round x :
  isDouble x = true -> exists r, roundDouble x = Fin r /\ (r == x)%Q.
Proof.
  unfold isDouble. destruct (roundDouble x) as [r | |]; [| done | done].
  intros H. exists r. split; [reflexivity | by apply Qeq_bool_iff].
Qed.

Lemma isDouble_form x :
  isDouble x = true -> (0 <= x)%Q ->
  (x < pow2 1024)%Q
  /\ exists m q, 0 <= m < 2 ^ 53 /\ -1074 <= q /\ (x == inject_Z m * pow2 q)%Q.
Proof.
  intros Hd Hx. destruct (isDouble_round x Hd) as (r & Hr & Hrx).
  destruct (Q_dec x 0) as [[H | H] | H]; [lra | |].
  - rewrite (roundDouble_pos x H) in Hr.
    destruct (Qle_bool (pow2 1024) (nearest x)) eqn:E; [done |].
    apply Qle_bool_false in E. injection Hr as <-.
    rewrite Qred_correct in Hrx.
    split; [lra |].
    destruct (nearest_form x H E) as (m & q & Hm & Hq & Hn).
    exists m, q. split; [exact Hm |]. split; [exact Hq |]. by rewrite <- Hrx.
  - split; [pose proof (pow2_pos 1024); lra |].
    exists 0, 0. split; [lia |]. split; [lia |]. rewrite H. ring.
Qed.

(** Doubling a double gives a double, short of overflow. *)
Lemma isDouble_scale x k :
  isDouble x = true -> (0 <= x)%Q -> 0 <= k ->
  (x * pow2 k < pow2 1024)%Q ->
  exists r, roundDouble (x * pow2 k) = Fin r /\ (r == x * pow2 k)%Q.
Proof.
  intros Hd Hx Hk Hmax.
  destruct (isDouble_form x Hd Hx) as (_ & m & q & Hm & Hq & Hxm).
  apply (roundDouble_exact _ m (q + k)); [exact Hm | lia | | exact Hmax].
  rewrite Hxm, pow2_add. ring.
Qed.

(** In the normal range rounding changes a number by at most one part in
    2^53. *)
Lemma roundDouble_rel x :
  (pow2 (-1022) <= x)%Q -> (x < pow2 1023)%Q ->
  exists r, roundDouble x = Fin r /\ (Qabs (r - x) <= x * pow2 (-53))%Q.
Proof.
  intros Hlo Hhi.
  assert (0 < x)%Q as Hx by (pose proof (pow2_pos (-1022)); lra).
  destruct (exponentOf_spec x Hx) as [Hlo' Hhi'].
  set (e := exponentOf x) in *.
  assert (-1022 <= e) as He1.
  { destruct (Z.le_gt_cases (-1022) e) as [H | H]; [exact H |].
    assert (pow2 (e + 1) <= pow2 (-1022))%Q by (apply pow2_le; lia). lra. }
  assert (e <= 1022) as He2.
  { destruct (Z.le_gt_cases e 1022) as [H | H]; [exact H |].
    assert (pow2 1023 <= pow2 e)%Q by (apply pow2_le; lia). lra. }
  assert (ulpExponent x = e - 52) as Hp by (unfold ulpExponent; fold e; lia).
  pose proof (nearest_error x) as Herr. rewrite Hp in Herr.
  pose proof (nearest_upper x Hx) as Hup. rewrite Hp in Hup. fold e in Hup.
  replace (Z.max (e + 1) (e - 52)) with (e + 1) in Hup by lia.
  assert (pow2 (e + 1) <= pow2 1023)%Q by (apply pow2_le; lia).
  assert (pow2 1023 < pow2 1024)%Q by (by apply pow2_lt).
  rewrite (roundDouble_pos x Hx).
  assert (Qle_bool (pow2 1024) (nearest x) = false) as ->.
  { apply Qle_bool_false. lra. }
  eexists. split; [reflexivity |].
  rewrite Qred_correct.
  assert (pow2 (e - 52 - 1) == pow2 e * pow2 (-53))%Q as Hpow.
  { rewrite <- pow2_add. by replace (e + -53) with (e - 52 - 1) by lia. }
  rewrite Hpow in Herr.
  apply Qle_trans with (pow2 e * pow2 (-53))%Q; [exact Herr |].
  apply Qmult_le_compat_r; [exact Hlo' |].
  apply Qlt_le_weak, pow2_pos.
Qed.

(** Rounding a number between zero and a double stays between them. *)
Lemma roundDouble_between x t :
  isDouble t = true -> (0 <= x)%Q -> (x <= t)%Q ->
  exists r, roundDouble x = Fin r /\ (0 <= r)%Q /\ (r <= t)%Q.
Proof.
  intros Hd Hx Hxt.
  destruct (isDouble_round t Hd) as (r' & Hr' & Hrt).
  pose proof (roundDouble_mono x t Hxt) as Hle. rewrite Hr' in Hle.
  pose proof (roundDouble_nonneg x Hx) as Hnn.
  destruct (roundDouble x) as [r | |]; [| done | done].
  exists r. split; [reflexivity |]. simpl in *. split; lra.
Qed.

(** A percentage of at most 32 of a total that is a double, short of
    overflow: the discount and the final price are between zero and the
    total. *)
Lemma percentage_within t pct :
  isDouble t = true -> (0 <= t)%Q -> (t < pow2 1019)%Q ->
  (0 <= pct)%Q -> (pct <= 32)%Q ->
  exists d f,
    divD (mulD t pct) 100 = Fin d
    /\ subD t (Fin d) = Fin f
    /\ (0 <= d)%Q /\ (d <= t)%Q /\ (0 <= f)%Q /\ (f <= t)%Q.
Proof.
  intros Hd Ht Hmax Hp0 Hp.
  assert (t * pow2 5 < pow2 1024)%Q as H32.
  { change 1024 with (1019 + 5). rewrite pow2_add.
    apply Qmult_lt_compat_r; [apply pow2_pos | exact Hmax]. }
  destruct (isDouble_scale t 5 Hd Ht ltac:(lia) H32) as (r & Hr & Hrt).
  change (pow2 5) with 32%Q in *.
  assert (t * pct <= t * 32)%Q as Hle.
  { rewrite !(Qmult_comm t). apply Qmult_le_compat_r; lra. }
  pose proof (roundDouble_mono _ _ Hle) as Hm. rewrite Hr in Hm.
  assert (0 <= t * pct)%Q as Hnn by (apply Qmult_le_0_compat; lra).
  pose proof (roundDouble_nonneg _ Hnn) as Hnn'.
  unfold mulD.
  destruct (roundDouble (t * pct)) as [q1 | |]; [| done | done].
  simpl in Hm, Hnn'. unfold divD.
  destruct (roundDouble_between (q1 / 100) t Hd) as (d & Hdd & Hd0 & Hdt).
  { apply Qle_shift_div_l; lra. }
  { apply Qle_shift_div_r; lra. }
  exists d. rewrite Hdd. unfold subD.
  destruct (roundDouble_between (t - d) t Hd) as (f & Hf & Hf0 & Hft);
    [lra | lra |].
  exists f. by rewrite Hf.
Qed.

(** A percentage between 1 and 100 of a total in the range of 2^-1000 to
    2^1000: the discount is within four parts in 2^53 of the exact
    value. *)
Lemma percentage_error t pct :
  (pow2 (-1000) <= t)%Q -> (t <= pow2 1000)%Q ->
  (1 <= pct)%Q -> (pct <= 100)%Q ->
  exists d,
    divD (mulD t pct) 100 = Fin d
    /\ (Qabs (d - t * pct / 100) <= t * pct / 100 * pow2 (-51))%Q.
Proof.
  intros Ht1 Ht2 Hp1 Hp2.
  pose proof (pow2_pos (-1000)) as H1000.
  pose proof (pow2_pos (-53)) as Hu.
  assert (pow2 (-53) <= 1 # 2)%Q as Hu2 by (by apply Qle_bool_iff).
  assert (pow2 (-51) == 4 * pow2 (-53))%Q as H51
    by (change (-51) with (2 + -53); by rewrite pow2_add).
  assert (pow2 (-1022) <= pow2 (-1008))%Q as Hlow by (by apply pow2_le).
  assert (pow2 (-1000) == 256 * pow2 (-1008))%Q as H1008
    by (change (-1000) with (8 + -1008); by rewrite pow2_add).
  assert (pow2 1007 == 128 * pow2 1000)%Q as H1007
    by (change 1007 with (7 + 1000); by rewrite pow2_add).
  assert (pow2 1007 < pow2 1023)%Q as Hhigh by (by apply pow2_lt).
  set (u := pow2 (-53)) in *.
  assert (0 < t)%Q as Ht0 by lra.
  assert (t <= t * pct)%Q as Hx1.
  { rewrite <- (Qmult_1_r t) at 1. apply Qmult_le_l; lra. }
  assert (t * pct <= t * 100)%Q as Hx2 by (apply Qmult_le_l; lra).
  set (x1 := (t * pct)%Q) in *.
  destruct (roundDouble_rel x1) as (q1 & Hq1 & He1); [lra | lra |].
  fold u in He1. apply Qabs_Qle_condition in He1 as [He1 He1'].
  assert (x1 * u <= x1 * (1 # 2))%Q as Hx1u by (apply Qmult_le_l; lra).
  assert (0 <= x1 * u)%Q as Hx1u0 by (apply Qmult_le_0_compat; lra).
  unfold mulD. fold x1. rewrite Hq1. unfold divD.
  assert (q1 / 100 == q1 * (1 # 100))%Q as Hdiv by reflexivity.
  destruct (roundDouble_rel (q1 / 100)) as (d & Hd & He2);
    [rewrite Hdiv; lra | rewrite Hdiv; lra |].
  fold u in He2. apply Qabs_Qle_condition in He2 as [He2 He2'].
  exists d. split; [exact Hd |].
  assert (q1 * u <= 2 * (x1 * u))%Q as Hq1u.
  { rewrite Qmult_assoc. apply Qmult_le_compat_r; lra. }
  assert (0 <= q1 * u)%Q as Hq1u0 by (apply Qmult_le_0_compat; lra).
  assert (q1 / 100 * u == q1 * u * (1 # 100))%Q as Hdu
    by (rewrite Hdiv; ring).
  rewrite Hdu, Hdiv in He2, He2'.
  assert (x1 / 100 == x1 * (1 # 100))%Q as Hdiv' by reflexivity.
  rewrite H51, Hdiv'.
  assert (x1 * (1 # 100) * (4 * u) == 4 * (x1 * u) * (1 # 100))%Q as ->
    by ring.
  apply Qabs_Qle_condition. split; lra.
Qed.

(** The arithmetic of the machine on the prices of the examples: 19.99
    is 1999 / 100, its tenth by SAVE10 is (19.99 × 10) / 100, and the
    prices 10.13 and 10.12 differ by more than 0.01. *)
Example roundDouble_agrees_with_binary64 :
  let f19_99 := PrimFloat.div (floatOf 1999) (floatOf 100) in
  let f10_13 := PrimFloat.div (floatOf 1013) (floatOf 100) in
  let f10_12 := PrimFloat.div (floatOf 1012) (floatOf 100) in
  valueOf f19_99 = Some (Fin double_19_99)
  /\ valueOf f19_99 = Some (roundDouble (1999 # 100))
  /\ valueOf (PrimFloat.mul f19_99 (floatOf 10))
     = Some (mulD double_19_99 10)
  /\ valueOf (PrimFloat.div (PrimFloat.mul f19_99 (floatOf 10)) (floatOf 100))
     = Some (divD (mulD double_19_99 10) 100)
  /\ valueOf (PrimFloat.div (floatOf 1) (floatOf 100)) = Some (Fin cent)
  /\ match valueOf f10_13, valueOf f10_12 with
     | Some (Fin a), Some (Fin b) =>
         valueOf (PrimFloat.sub f10_13 f10_12) = Some (subD a (Fin b))
         /\ priceChanged a b = true
         /\ Qle_bool (Qabs ((1013 # 100) - (1012 # 100))%Q) (1 # 100) = true
     | _, _ => False
     end.
Proof. vm_compute. repeat split. Qed.

(** On every pair of the probes, the machine's product, quotient, sum
    and difference are the exact ones rounded by [roundDouble],
    overflow and gradual underflow included. *)
Example roundDouble_agrees_on_probes :
  forallb (fun a =>
    forallb (fun b =>
      agrees PrimFloat.mul Qmult a b && agrees PrimFloat.div Qdiv a b
      && agrees PrimFloat.add Qplus a b && agrees PrimFloat.sub Qminus a b)
      probes) probes
  = true
  /\ map valueOf (drop 10 probes)
     = [Some (Fin (inject_Z ((2 ^ 31 - 1) * 2 ^ 992)));
        Some (Fin (1 # 2 ^ 1022)); Some (Fin (1 # 2 ^ 1074));
        Some (Fin (- double_19_99))].
Proof. vm_compute. split; reflexivity. Qed.

(** *** The cart *)

(** Splits a handler's run into its paths and drops the failed ones. *)
Ltac handler_paths :=
  repeat case_match; simplify_eq/=; try discriminate;
  repeat match goal with
         | H : Cart_save _ _ _ = _ |- _ => unfold Cart_save in H; simplify_eq/=
         end.

Lemma recomputeTotals_consistent c : totalsConsistent (recomputeTotals c).
Proof. split; reflexivity. Qed.

Lemma recomputeTotals_items c : Cart.items (recomputeTotals c) = Cart.items c.
Proof. reflexivity. Qed.

Lemma Cart_save_stored user c w :
  carts (Cart_save user c w).2 !! user = Some (recomputeTotals c).
Proof. simpl. apply lookup_insert_eq. Qed.

Lemma Cart_save_other user user' c w :
  user <> user' ->
  carts (Cart_save user c w).2 !! user' = carts w !! user'.
Proof. intros Hne. simpl. by apply lookup_insert_ne. Qed.

Lemma Cart_save_products user c w :
  products (Cart_save user c w).2 = products w.
Proof. reflexivity. Qed.

Lemma storedItems_default w user :
  Cart.items (default Cart_new (Cart_findOne w user)) = storedItems w user.
Proof. unfold storedItems. by destruct (Cart_findOne w user). Qed.

Lemma storedItems_saved user c w :
  storedItems (Cart_save user c w).2 user = Cart.items c.
Proof.
  unfold storedItems, Cart_findOne. simpl. by rewrite lookup_insert_eq.
Qed.

Lemma findIndex_Some productId items i existing :
  findIndex productId items = Some (i, existing) ->
  items !! i = Some existing /\ Item.product existing = productId.
Proof.
  unfold findIndex. intros H.
  apply list_find_Some in H as (Hi & Hp & _). by split.
Qed.

Lemma findIndex_In productId items :
  is_Some (findIndex productId items) <-> In productId (map Item.product items).
Proof.
  unfold findIndex. split.
  - intros [[i existing] H]. apply list_find_Some in H as (Hi & Hp & _).
    apply in_map_iff. exists existing. split; [exact Hp |].
    apply list_elem_of_In. by eapply list_elem_of_lookup_2.
  - intros H. apply in_map_iff in H as (existing & Hp & Hin).
    destruct (list_find (sameProduct productId) items) as [[i e]|] eqn:E;
      [by eexists |].
    apply list_find_None in E. rewrite Forall_forall in E.
    apply list_elem_of_In in Hin. by destruct (E existing Hin).
Qed.

(** A product stored under the string of the request is the one the
    cast lookup finds. *)
Lemma findByIdCast_exact w id p :
  Product_findById w id = Some p -> Product_findByIdCast w id = Some p.
Proof. unfold Product_findById, Product_findByIdCast. by intros ->. Qed.

(** For an id in the form the database prints, the cast changes
    nothing. *)
Lemma findByIdCast_canon w id :
  canonId id = id -> Product_findByIdCast w id = Product_findById w id.
Proof.
  unfold Product_findById, Product_findByIdCast. intros ->.
  by destruct (products w !! id).
Qed.

(** The requests a handler accepts are those it answers with success. *)
Lemma accepts_success user op w :
  accepts user op w <-> success (runOp user op w).1 = true.
Proof.
  destruct op as [productId quantity | productId quantity | productId | ];
    simpl.
  - unfold addToCart, lineQuantity.
    destruct (Product_findByIdCast w productId) as [product|].
    2:{ split; [intros (p & Hp & _); discriminate | done]. }
    destruct (Product.isActive product) eqn:Hact; simpl.
    2:{ split; [intros (p & Hp & Ha & _); congruence | done]. }
    destruct (Z.ltb_spec (Product.inventory_quantity product)
                (default 1 quantity)) as [Hq | Hq].
    { split; [intros (p & Hp & _ & Hq' & _); simplify_eq; lia | done]. }
    rewrite storedItems_default.
    destruct (findIndex productId (storedItems w user)) as [[i existing]|].
    + destruct (Z.ltb_spec (Product.inventory_quantity product)
                  (Item.quantity existing + default 1 quantity)) as [Hs | Hs].
      { split; [intros (p & Hp & _ & _ & Hs'); simplify_eq; lia | done]. }
      split; [done |]. intros _. exists product. repeat split; try done; lia.
    + split; [done |]. intros _. exists product. repeat split; try done; lia.
  - unfold updateCartItem, cartProducts. rewrite <- findIndex_In.
    unfold storedItems.
    destruct (Z.ltb_spec quantity 1) as [Hlt | Hge].
    { split; [| done]. intros [H _]. lia. }
    destruct (Cart_findOne w user) as [cart|].
    2:{ split; [| done]. intros (_ & [x Hx] & _). discriminate Hx. }
    destruct (findIndex productId (Cart.items cart)) as [[i existing]|].
    2:{ split; [| done]. intros (_ & [x Hx] & _). discriminate Hx. }
    destruct (Product_findById w productId) as [product|].
    2:{ split; [| done]. intros (_ & _ & p & Hp & _). discriminate Hp. }
    destruct (Product.isActive product) eqn:Hact; simpl.
    2:{ split; [| done]. intros (_ & _ & p & Hp & Ha & _). congruence. }
    destruct (Z.ltb_spec (Product.inventory_quantity product) quantity)
      as [Hs | Hs]; simpl.
    { split; [| done]. intros (_ & _ & p & Hp & _ & Hq). simplify_eq. lia. }
    split; [done |]. intros _.
    split; [lia |]. split; [by eexists |]. by exists product.
  - unfold removeFromCart, cartProducts. rewrite <- findIndex_In.
    unfold storedItems.
    destruct (Cart_findOne w user) as [cart|].
    2:{ split; [| done]. intros [x Hx]. discriminate Hx. }
    destruct (findIndex productId (Cart.items cart)) as [[i existing]|].
    + split; [done | by eexists].
    + split; [| done]. intros [x Hx]. discriminate Hx.
  - unfold clearCart.
    destruct (Cart_findOne w user) as [cart|].
    + split; [done | by eexists].
    + split; [| done]. intros [x Hx]. discriminate Hx.
Qed.

(** C1. addToCart, updateCartItem, removeFromCart and clearCart answer
    with success exactly on the requests that pass their checks
    (clearCart: whenever the user has a cart).  After such an answer the
    cart stored for the user has totalItems = sum of the quantities and
    totalPrice = sum of price × quantity over its items; after clearCart
    it has no items and both totals are zero. *)
Theorem mutation_keeps_totals (user : string) (op : CartOp) (w : World) :
  let out := runOp user op w in
  (accepts user op w <-> success out.1 = true)
  /\ (success out.1 = true ->
      exists c,
        carts out.2 !! user = Some c
        /\ totalsConsistent c
        /\ (op = OpClear ->
            Cart.items c = [] /\ Cart.totalItems c = 0
            /\ Cart.totalPrice c = 0%Q)).
Proof.
  intros out. split; [apply accepts_success |].
  subst out.
  destruct (runOp user op w) as [r w'] eqn:Hrun. simpl. intros Hok.
  destruct op as [productId quantity | productId quantity | productId | ];
    simpl in Hrun;
    unfold addToCart, updateCartItem, removeFromCart, clearCart in Hrun;
    handler_paths.
  all: eexists; split; [apply lookup_insert_eq |].
  all: split; [apply recomputeTotals_consistent | ].
  all: try discriminate.
  intros _. repeat split.
Qed.

(** Each of the four operations run with success on the cart of three
    widgets: clearing leaves the empty cart with zero totals, and one
    more widget, four widgets and no widget leave totals of 4 and 40, of
    4 and 40, and of 0 and 0. *)
Lemma mutation_keeps_totals_witness :
  carts (runOp "u1" OpClear shop3).2 !! "u1"%string = Some (Cart.mk [] 0 0%Q)
  /\ (exists c,
        carts (runOp "u1" (OpAdd "p1" (Some 1)) shop3).2 !! "u1"%string
        = Some c
        /\ totalsConsistent c /\ Cart.totalItems c = 4)
  /\ (exists c,
        carts (runOp "u1" (OpUpdate "p1" 4) shop3).2 !! "u1"%string = Some c
        /\ totalsConsistent c /\ Cart.totalItems c = 4)
  /\ (exists c,
        carts (runOp "u1" (OpRemove "p1") shop3).2 !! "u1"%string = Some c
        /\ totalsConsistent c /\ Cart.totalItems c = 0).
Proof.
  assert (forall op,
            accepts "u1" op shop3 ->
            exists c,
              carts (runOp "u1" op shop3).2 !! "u1"%string = Some c
              /\ totalsConsistent c
              /\ (op = OpClear ->
                  Cart.items c = [] /\ Cart.totalItems c = 0
                  /\ Cart.totalPrice c = 0%Q)) as Hrun.
  { intros op Hacc.
    destruct (mutation_keeps_totals "u1" op shop3) as [Hiff Hafter].
    apply Hafter, Hiff, Hacc. }
  split; [| split; [| split]].
  - destruct (Hrun OpClear) as (c & Hc & _ & Hclear).
    { simpl. eexists. vm_compute. reflexivity. }
    rewrite Hc. f_equal.
    destruct (Hclear eq_refl) as (Hi & Hn & Hp).
    destruct c as [items n price]. simpl in *. by subst.
  - destruct (Hrun (OpAdd "p1" (Some 1))) as (c & Hc & Hcons & _).
    { exists widget. vm_compute. repeat split; congruence. }
    exists c. split; [exact Hc |]. split; [exact Hcons |].
    rewrite (proj1 Hcons).
    assert (Cart.items <$> carts (runOp "u1" (OpAdd "p1" (Some 1)) shop3).2
                             !! "u1"%string
            = Some [Item.mk "p1" 4 10]) as Hitems by (vm_compute; reflexivity).
    rewrite Hc in Hitems. injection Hitems as ->. reflexivity.
  - destruct (Hrun (OpUpdate "p1" 4)) as (c & Hc & Hcons & _).
    { split; [lia |]. split; [vm_compute; auto |].
      exists widget. vm_compute. repeat split; congruence. }
    exists c. split; [exact Hc |]. split; [exact Hcons |].
    rewrite (proj1 Hcons).
    assert (Cart.items <$> carts (runOp "u1" (OpUpdate "p1" 4) shop3).2
                             !! "u1"%string
            = Some [Item.mk "p1" 4 10]) as Hitems by (vm_compute; reflexivity).
    rewrite Hc in Hitems. injection Hitems as ->. reflexivity.
  - destruct (Hrun (OpRemove "p1")) as (c & Hc & Hcons & _).
    { vm_compute. auto. }
    exists c. split; [exact Hc |]. split; [exact Hcons |].
    rewrite (proj1 Hcons).
    assert (Cart.items <$> carts (runOp "u1" (OpRemove "p1") shop3).2
                             !! "u1"%string
            = Some []) as Hitems by (vm_compute; reflexivity).
    rewrite Hc in Hitems. injection Hitems as ->. reflexivity.
Defined.

Example shop3_cart :
  carts shop3 !! "u1"%string
  = Some (Cart.mk [Item.mk "p1" 3 10] 3 (sumQ [lineTotal (Item.mk "p1" 3 10)])).
Proof. vm_compute. reflexivity. Qed.

(** *** Adding to an existing line *)




(** *** Snapshot prices *)

(** C5. For a line of the cart whose product is stored: updateCartItem
    succeeds exactly when the product is active and the quantity is at
    least 1 and within the stock, and then the line holds the requested
    quantity and the product's current price; addToCart succeeds exactly
    when the product is active and both the added quantity and its sum
    with the line's are within the stock, and then the line holds the
    sum and the price it had.  No other line changes. *)
Theorem update_resyncs_add_keeps_price (user productId : string)
    (w : World) (cart : Cart.t) (i : nat) (existing : Item.t)
    (product : Product.t) :
  Cart_findOne w user = Some cart ->
  findIndex productId (Cart.items cart) = Some (i, existing) ->
  Product_findById w productId = Some product ->
  let stock := Product.inventory_quantity product in
  (forall quantity,
      let out := updateCartItem user productId quantity w in
      (success out.1 = true
       <-> Product.isActive product = true
           /\ 1 <= quantity /\ quantity <= stock)
      /\ (success out.1 = true ->
          storedItems out.2 user
          = <[i := Item.mk productId quantity (Product.price product)]>
              (Cart.items cart)))
  /\ (forall quantity,
      let out := addToCart user productId quantity w in
      let added := default 1 quantity in
      (success out.1 = true
       <-> Product.isActive product = true
           /\ added <= stock /\ Item.quantity existing + added <= stock)
      /\ (success out.1 = true ->
          storedItems out.2 user
          = <[i := Item.mk productId (Item.quantity existing + added)
                           (Item.price existing)]> (Cart.items cart))).
Proof.
  intros Hcart Hidx Hprod stock.
  destruct (findIndex_Some _ _ _ _ Hidx) as [Hi Hp].
  split; intros quantity out; [| intros added]; subst out.
  - unfold updateCartItem. rewrite Hcart, Hidx, Hprod.
    destruct (Z.ltb_spec quantity 1) as [Hlt | Hge].
    { split; [| done]. split; [done |]. intros (_ & H & _). lia. }
    destruct (Product.isActive product) eqn:Hact; simpl.
    2:{ split; [| done]. split; [done |]. intros (H & _). discriminate H. }
    destruct (Z.ltb_spec (Product.inventory_quantity product) quantity)
      as [Hs | Hs]; simpl.
    { split; [| done]. split; [done |]. intros (_ & _ & H). fold stock in Hs.
      lia. }
    split; [split; [intros _; repeat split; [lia | exact Hs] | done] |].
    intros _. unfold storedItems, Cart_findOne. simpl.
    rewrite lookup_insert_eq. simpl. by rewrite Hp.
  - unfold addToCart. rewrite (findByIdCast_exact _ _ _ Hprod), Hcart.
    simpl. rewrite Hidx. fold added stock.
    destruct (Product.isActive product) eqn:Hact; simpl.
    2:{ split; [| done]. split; [done |]. intros (H & _). discriminate H. }
    destruct (Z.ltb_spec stock added) as [Hq | Hq]; simpl.
    { split; [| done]. split; [done |]. intros (_ & H & _). lia. }
    destruct (Z.ltb_spec stock (Item.quantity existing + added))
      as [Hs | Hs]; simpl.
    { split; [| done]. split; [done |]. intros (_ & _ & H). lia. }
    split; [split; [intros _; repeat split; [exact Hq | exact Hs] | done] |].
    intros _. unfold storedItems, Cart_findOne. simpl.
    rewrite lookup_insert_eq. simpl. by rewrite Hp.
Qed.

(** The widget of the market cart, bought at 8 and now priced 10, with 5
    in stock: setting its quantity to 3 stores the price 10, adding one
    keeps the price 8. *)
Lemma update_resyncs_add_keeps_price_witness :
  storedItems (updateCartItem "u1" "p1" 3 market).2 "u1"
  = [Item.mk "p1" 3 10; Item.mk "p2" 1 5; Item.mk "p3" 4 7; Item.mk "p4" 1 1]
  /\ storedItems (addToCart "u1" "p1" (Some 1) market).2 "u1"
     = [Item.mk "p1" 3 8; Item.mk "p2" 1 5; Item.mk "p3" 4 7;
        Item.mk "p4" 1 1].
Proof.
  destruct (update_resyncs_add_keeps_price "u1" "p1" market
              (recomputeTotals
                 (Cart.mk [Item.mk "p1" 2 8; Item.mk "p2" 1 5;
                           Item.mk "p3" 4 7; Item.mk "p4" 1 1] 0 0%Q))
              0%nat (Item.mk "p1" 2 8) widget)
    as [Hupdate Hadd].
  - vm_compute. reflexivity.
  - vm_compute. reflexivity.
  - vm_compute. reflexivity.
  - split.
    + destruct (Hupdate 3) as [Hiff Hst]. rewrite Hst; [reflexivity |].
      apply Hiff. vm_compute. repeat split; congruence.
    + destruct (Hadd (Some 1)) as [Hiff Hst]. rewrite Hst; [reflexivity |].
      apply Hiff. vm_compute. repeat split; congruence.
Defined.

(** *** Validation *)

Lemma itemKept_keptb item :
  itemKept item = if keptb item then [item] else [].
Proof.
  unfold itemKept, keptb, validateStep.
  destruct (PItem.product item) as [p|]; [| reflexivity].
  destruct (Product.isActive p); [| reflexivity].
  destruct (_ <? _); reflexivity.
Qed.

Lemma validateStep_acc es vs item :
  validateStep (es, vs) item = (es ++ itemErrors item, vs ++ itemKept item).
Proof.
  unfold itemErrors, itemKept, validateStep.
  destruct (PItem.product item) as [p|]; [| by rewrite app_nil_r].
  destruct (Product.isActive p); simpl; [| by rewrite app_nil_r].
  destruct (_ <? _); simpl; [by rewrite app_nil_r |].
  destruct (priceChanged _ _); simpl; [reflexivity | by rewrite app_nil_r].
Qed.

Lemma validateLoop_from es vs items :
  foldl validateStep (es, vs) items
  = (es ++ flat_map itemErrors items, vs ++ flat_map itemKept items).
Proof.
  revert es vs. induction items as [| item items IH]; intros es vs.
  - simpl. by rewrite !app_nil_r.
  - change (foldl validateStep (es, vs) (item :: items))
      with (foldl validateStep (validateStep (es, vs) item) items).
    rewrite validateStep_acc, IH. simpl. by rewrite <- !app_assoc.
Qed.

Lemma validateLoop_flat items :
  validateLoop items = (flat_map itemErrors items, flat_map itemKept items).
Proof. unfold validateLoop. by rewrite validateLoop_from. Qed.

Lemma flat_map_itemKept items :
  flat_map itemKept items = List.filter keptb items.
Proof.
  induction items as [| item items IH]; simpl; [reflexivity |].
  rewrite itemKept_keptb, IH. by destruct (keptb item).
Qed.

Lemma itemErrors_length item : (length (itemErrors item) <= 1)%nat.
Proof.
  unfold itemErrors, validateStep.
  destruct (PItem.product item) as [p|]; simpl; [| lia].
  destruct (Product.isActive p); simpl; [| lia].
  destruct (_ <? _); simpl; [lia |].
  destruct (priceChanged _ _); simpl; lia.
Qed.

Lemma itemErrors_dropped item : keptb item = false -> itemErrors item <> [].
Proof.
  unfold itemErrors, keptb, validateStep.
  destruct (PItem.product item) as [p|]; simpl; [| discriminate].
  destruct (Product.isActive p); simpl; [| discriminate].
  destruct (_ <? _); simpl; discriminate.
Qed.

Lemma price_error_kept item e :
  In e (itemErrors item) ->
  VError.type e = Some "price_change"%string ->
  keptb item = true.
Proof.
  unfold itemErrors, keptb, validateStep.
  destruct (PItem.product item) as [p|]; simpl.
  - destruct (Product.isActive p); simpl.
    + destruct (_ <? _); simpl; [| reflexivity].
      intros [<- | []]; discriminate.
    + intros [<- | []]; discriminate.
  - intros [<- | []]; discriminate.
Qed.

Lemma filter_same_length {A} (f : A -> bool) (l : list A) :
  length (List.filter f l) = length l -> List.filter f l = l.
Proof.
  induction l as [| a l IH]; simpl; [reflexivity |].
  destruct (f a); simpl; intros H.
  - f_equal. apply IH. lia.
  - pose proof (List.filter_length_le f l). lia.
Qed.

Lemma no_errors_all_kept items :
  flat_map itemErrors items = [] -> List.filter keptb items = items.
Proof.
  induction items as [| item items IH]; simpl; [reflexivity |].
  intros H. apply app_eq_nil in H as [H1 H2].
  destruct (keptb item) eqn:K.
  - f_equal. by apply IH.
  - by apply itemErrors_dropped in K.
Qed.

Lemma if_pair {A B} (b : bool) (x y : A) (z : B) :
  (if b then (x, z) else (y, z)) = (if b then x else y, z).
Proof. by destruct b. Qed.

(** The lines that pass the first two checks all have their product
    loaded, so only an empty list of them can be serialised. *)
Lemma serialisable_kept items totalItems totalPrice :
  serialisable (PCart.mk (List.filter keptb items) totalItems totalPrice)
  = match List.filter keptb items with [] => true | _ :: _ => false end.
Proof.
  unfold serialisable. simpl.
  destruct (List.filter keptb items) as [| item rest] eqn:E; [reflexivity |].
  assert (In item (List.filter keptb items)) as Hin by (rewrite E; by left).
  apply filter_In in Hin as [_ Hk]. simpl.
  unfold keptb in Hk. by destruct (PItem.product item).
Qed.

(** What [validateCart] stores and answers for a cart with lines: the
    lines that pass the first two checks are stored, and the validation
    is the answer when there is none of them. *)
Lemma validateCart_items user w c :
  Cart_findOne w user = Some c ->
  Cart.items c <> [] ->
  let items := map (populateItem w) (Cart.items c) in
  exists totalItems totalPrice,
    let cart := PCart.mk (List.filter keptb items) totalItems totalPrice in
    carts (validateCart user w).2 !! user = Some (depopulate cart)
    /\ (validateCart user w).1
       = match List.filter keptb items with
         | [] =>
             mkResponse 200 (length (flat_map itemErrors items) =? 0)%nat None
               (Some (DValidation
                  (Validation.mk cart
                     (length (flat_map itemErrors items) =? 0)%nat
                     (flat_map itemErrors items)
                     (length (List.filter keptb items)))))
         | _ :: _ => fail 400 msgImagesUndefined
         end.
Proof.
  intros Hc Hne items.
  unfold validateCart. rewrite Hc. simpl. fold items.
  destruct (length items =? 0)%nat eqn:E.
  { apply Nat.eqb_eq in E. subst items. rewrite length_map in E.
    by destruct (Cart.items c). }
  rewrite validateLoop_flat, flat_map_itemKept.
  destruct ((0 <? length (flat_map itemErrors items))%nat
            && negb (length (List.filter keptb items) =? length items)%nat)
    eqn:G; simpl.
  - eexists _, _. rewrite serialisable_kept, if_pair. simpl.
    split; [by rewrite lookup_insert_eq |].
    by destruct (List.filter keptb items).
  - assert (List.filter keptb items = items) as Hall.
    { apply andb_false_iff in G as [G | G].
      - apply Nat.ltb_ge in G. apply no_errors_all_kept.
        destruct (flat_map itemErrors items); [reflexivity | simpl in G; lia].
      - apply negb_false_iff, Nat.eqb_eq in G. by apply filter_same_length. }
    exists (Cart.totalItems c), (Cart.totalPrice c).
    assert (populate w c
            = PCart.mk (List.filter keptb items) (Cart.totalItems c)
                       (Cart.totalPrice c)) as ->.
    { by rewrite Hall. }
    rewrite serialisable_kept, if_pair. simpl. split.
    + unfold Cart_findOne in Hc. rewrite Hc, Hall. f_equal.
      unfold depopulate, items. simpl. rewrite map_map. simpl.
      rewrite map_id. by destruct c.
    + by destruct (List.filter keptb items).
Qed.

Lemma populateItem_item w it : PItem.item (populateItem w it) = it.
Proof. reflexivity. Qed.

Lemma in_kept_items w items it :
  In it (map PItem.item (List.filter keptb (map (populateItem w) items)))
  <-> In it items /\ keptb (populateItem w it) = true.
Proof.
  rewrite in_map_iff. split.
  - intros (pit & <- & Hin). apply filter_In in Hin as [Hin Hk].
    apply in_map_iff in Hin as (it' & <- & Hin). by split.
  - intros [Hin Hk]. exists (populateItem w it). split; [reflexivity |].
    apply filter_In. split; [by apply in_map | done].
Qed.

Lemma invalid_not_kept w it :
  unavailable w it \/ shortOfStock w it -> keptb (populateItem w it) = false.
Proof.
  unfold unavailable, shortOfStock, keptb, populateItem. simpl.
  intros [H | (p & Hp & Hact & Hlt)].
  - destruct (Product_findById w (Item.product it)) as [p|]; [| reflexivity].
    by rewrite H.
  - rewrite Hp, Hact. simpl. apply negb_false_iff, Z.ltb_lt. lia.
Qed.

Lemma purchasable_keptb w it :
  purchasable w it <-> keptb (populateItem w it) = true.
Proof.
  unfold purchasable, keptb, populateItem. simpl. split.
  - intros (p & -> & -> & Hq). simpl.
    apply negb_true_iff, Z.ltb_ge. lia.
  - destruct (Product_findById w (Item.product it)) as [p|]; [| done].
    intros H. apply andb_prop in H as [Hact Hq].
    apply negb_true_iff, Z.ltb_ge in Hq. by exists p.
Qed.

(** What validateCart leaves in the stored cart, in every case. *)
Lemma validateCart_stored user w :
  storedItems (validateCart user w).2 user
  = map PItem.item
      (List.filter keptb (map (populateItem w) (storedItems w user))).
Proof.
  unfold storedItems at 2.
  destruct (Cart_findOne w user) as [c|] eqn:Hc.
  - destruct (Cart.items c) as [| it items] eqn:Hitems.
    + assert ((validateCart user w).2 = w) as ->.
      { unfold validateCart. rewrite Hc. simpl. by rewrite Hitems. }
      unfold storedItems. by rewrite Hc, Hitems.
    + destruct (validateCart_items user w c Hc) as (ti & tp & Hst & _);
        [by rewrite Hitems |].
      unfold storedItems, Cart_findOne. simpl in Hst. rewrite Hst.
      by rewrite Hitems.
  - assert ((validateCart user w).2 = w) as ->.
    { unfold validateCart. by rewrite Hc. }
    unfold storedItems. by rewrite Hc.
Qed.

(** What validateCart answers for a cart with lines. *)
Lemma validateCart_answer user w :
  storedItems w user <> [] ->
  let items := map (populateItem w) (storedItems w user) in
  match List.filter keptb items with
  | [] =>
      exists cart,
        PCart.items cart = []
        /\ (validateCart user w).1
           = mkResponse 200 false None
               (Some (DValidation
                  (Validation.mk cart false (flat_map itemErrors items) 0)))
  | _ :: _ => (validateCart user w).1 = fail 400 msgImagesUndefined
  end.
Proof.
  unfold storedItems.
  destruct (Cart_findOne w user) as [c|] eqn:Hc; [| done].
  intros Hne. simpl.
  destruct (validateCart_items user w c Hc Hne) as (ti & tp & _ & Hout).
  simpl in Hout.
  destruct (List.filter keptb (map (populateItem w) (Cart.items c)))
    as [| item rest] eqn:E; [| exact Hout].
  exists (PCart.mk [] ti tp). split; [| rewrite Hout].
  - reflexivity.
  - assert ((length (flat_map itemErrors
                       (map (populateItem w) (Cart.items c))) =? 0)%nat
            = false) as ->; [| reflexivity].
    apply Nat.eqb_neq. intros Hlen. apply length_zero_iff_nil in Hlen.
    apply no_errors_all_kept in Hlen. rewrite E in Hlen.
    symmetry in Hlen. apply map_eq_nil in Hlen. done.
Qed.

(** C2. validateCart answers 400 "Cart is empty" without a cart or with
    an empty one.  Otherwise it stores the cart as the specification
    says: a line with a price-change error stays, a line whose product
    is missing or inactive, or short of stock, is removed.  But it
    answers with {cart, isValid, errors, validItemsCount} only when no
    line stays: as soon as one does, the answer is 400 with the message
    of the TypeError that the serialisation of the cart throws, and
    neither the errors nor the cart are reported. *)
Theorem validateCart_throws_when_a_line_stays (user : string) (w : World) :
  (storedItems w user = [] ->
   validateCart user w = (fail 400 [Lit "Cart is empty"], w))
  /\ (storedItems w user <> [] ->
      let out := validateCart user w in
      (forall it,
          In it (storedItems out.2 user)
          <-> In it (storedItems w user) /\ purchasable w it)
      /\ (forall it e,
            In it (storedItems w user) ->
            In e (itemErrors (populateItem w it)) ->
            VError.type e = Some "price_change"%string ->
            In it (storedItems out.2 user))
      /\ (forall it,
            In it (storedItems w user) ->
            unavailable w it \/ shortOfStock w it ->
            ~ In it (storedItems out.2 user))
      /\ (forall it,
            In it (storedItems w user) ->
            purchasable w it ->
            out.1 = fail 400 msgImagesUndefined /\ data out.1 = None)
      /\ ((forall it, In it (storedItems w user) -> ~ purchasable w it) ->
          exists cart,
            PCart.items cart = []
            /\ out.1
               = mkResponse 200 false None
                   (Some (DValidation
                      (Validation.mk cart false
                         (flat_map itemErrors
                            (map (populateItem w) (storedItems w user)))
                         0))))).
Proof.
  split.
  - unfold storedItems, validateCart.
    destruct (Cart_findOne w user) as [c|]; [| reflexivity].
    intros Hnil. simpl. rewrite Hnil. reflexivity.
  - intros Hne out.
    assert (forall it,
              In it (storedItems out.2 user)
              <-> In it (storedItems w user) /\ purchasable w it) as Hst.
    { intros it. unfold out. rewrite validateCart_stored, in_kept_items.
      by rewrite purchasable_keptb. }
    pose proof (validateCart_answer user w Hne) as Hans. simpl in Hans.
    fold out in Hans.
    split; [exact Hst |]. split; [| split; [| split]].
    + intros it e Hin He Hty. apply Hst. split; [exact Hin |].
      apply purchasable_keptb. by eapply price_error_kept.
    + intros it Hin Hbad Hk. apply Hst in Hk as [_ Hk].
      apply purchasable_keptb in Hk.
      apply invalid_not_kept in Hbad. congruence.
    + intros it Hin Hp. apply purchasable_keptb in Hp.
      assert (In (populateItem w it)
                 (List.filter keptb
                    (map (populateItem w) (storedItems w user)))) as Hk.
      { apply filter_In. split; [by apply in_map | exact Hp]. }
      destruct (List.filter keptb
                  (map (populateItem w) (storedItems w user)));
        [destruct Hk |].
      rewrite Hans. by split.
    + intros Hnone.
      destruct (List.filter keptb
                  (map (populateItem w) (storedItems w user)))
        as [| item rest] eqn:E; [exact Hans |].
      assert (In item (List.filter keptb
                         (map (populateItem w) (storedItems w user))))
        as Hk by (rewrite E; by left).
      apply filter_In in Hk as [Hin Hk].
      apply in_map_iff in Hin as (it & <- & Hin).
      destruct (Hnone it Hin). by apply purchasable_keptb.
Qed.

(** The market cart: its widget, bought at 8 and now priced 10, has a
    price-change error and stays; the answer is the TypeError. *)
Lemma validateCart_throws_when_a_line_stays_witness :
  In (Item.mk "p1" 2 8) (storedItems (validateCart "u1" market).2 "u1")
  /\ (validateCart "u1" market).1 = fail 400 msgImagesUndefined
  /\ data (validateCart "u1" market).1 = None.
Proof.
  destruct (proj2 (validateCart_throws_when_a_line_stays "u1" market))
    as (_ & Hdrift & _ & Hthrow & _).
  - vm_compute. congruence.
  - split.
    + apply (Hdrift (Item.mk "p1" 2 8)
               (errPrice (populateItem market (Item.mk "p1" 2 8)) widget)).
      * vm_compute. auto.
      * vm_compute. auto.
      * reflexivity.
    + apply (Hthrow (Item.mk "p1" 2 8)).
      * vm_compute. auto.
      * exists widget. vm_compute. repeat split; congruence.
Defined.

(** The market cart: the loop gives each line one error and keeps the
    widget with the changed price; the three other lines go from the
    stored cart, and the answer carries none of this. *)
Example market_validated :
  map VError.type
      (validateLoop (map (populateItem market) (storedItems market "u1"))).1
  = [Some "price_change"; None; None; None]%string
  /\ map PItem.item
       (validateLoop (map (populateItem market) (storedItems market "u1"))).2
     = [Item.mk "p1" 2 8]
  /\ storedItems (validateCart "u1" market).2 "u1" = [Item.mk "p1" 2 8]
  /\ (validateCart "u1" market).1 = fail 400 msgImagesUndefined.
Proof. vm_compute. repeat split. Qed.

(** A cart of three widgets with nothing wrong: the same answer. *)
Example valid_cart_not_validated :
  validateCart "u1" shop3 = (fail 400 msgImagesUndefined, shop3).
Proof. vm_compute. reflexivity. Qed.

(** C10. validateCart gives a line at most one error, by precedence: for
    a missing or inactive product only the unavailability error; else for
    a quantity above the stock only the stock error; else the line counts
    as valid and has the price-change error exactly when the price
    drifted.  A price-change error therefore belongs to a line that
    passed both earlier checks.  The errors and the valid lines of the
    whole loop are those of its lines, in order. *)
Theorem validation_error_precedence (item : PItem.t) :
  (length (itemErrors item) <= 1)%nat
  /\ (itemAvailable item = false ->
      itemErrors item = [errUnavailable item] /\ itemKept item = [])
  /\ (forall p,
        PItem.product item = Some p ->
        Product.isActive p = true ->
        Product.inventory_quantity p < Item.quantity (PItem.item item) ->
        itemErrors item = [errStock item p] /\ itemKept item = [])
  /\ (forall p,
        PItem.product item = Some p ->
        Product.isActive p = true ->
        Item.quantity (PItem.item item) <= Product.inventory_quantity p ->
        itemKept item = [item]
        /\ itemErrors item
           = if priceChanged (Item.price (PItem.item item)) (Product.price p)
             then [errPrice item p] else [])
  /\ (forall e,
        In e (itemErrors item) ->
        VError.type e = Some "price_change"%string ->
        itemErrors item = [e] /\ itemKept item = [item]
        /\ exists p,
             PItem.product item = Some p
             /\ Product.isActive p = true
             /\ Item.quantity (PItem.item item)
                <= Product.inventory_quantity p)
  /\ (forall items,
        validateLoop items
        = (flat_map itemErrors items, flat_map itemKept items)).
Proof.
  split; [apply itemErrors_length |].
  unfold itemErrors, itemKept, itemAvailable, validateStep.
  split; [| split; [| split; [| split]]].
  - destruct (PItem.product item) as [p|]; [| done].
    intros ->. done.
  - intros p -> -> Hlt. simpl.
    destruct (Z.ltb_spec (Product.inventory_quantity p)
                (Item.quantity (PItem.item item))); [done | lia].
  - intros p -> -> Hle. simpl.
    destruct (Z.ltb_spec (Product.inventory_quantity p)
                (Item.quantity (PItem.item item))); [lia |].
    by destruct (priceChanged _ _).
  - intros e.
    destruct (PItem.product item) as [p|]; simpl;
      [| intros [<- | []]; discriminate].
    destruct (Product.isActive p) eqn:Hact; simpl;
      [| intros [<- | []]; discriminate].
    destruct (Z.ltb_spec (Product.inventory_quantity p)
                (Item.quantity (PItem.item item))); simpl;
      [intros [<- | []]; discriminate |].
    destruct (priceChanged _ _); simpl; [| intros []].
    intros [<- | []] _.
    split; [reflexivity |]. split; [reflexivity |].
    exists p. split; [reflexivity |]. split; [exact Hact | lia].
  - apply validateLoop_flat.
Qed.

Lemma validation_error_precedence_witness :
  let item := populateItem market (Item.mk "p3" 4 7) in
  itemErrors item = [errStock item scarce] /\ itemKept item = [].
Proof.
  intros item.
  apply (proj1 (proj2 (proj2 (validation_error_precedence item))) scarce).
  - vm_compute. reflexivity.
  - vm_compute. reflexivity.
  - vm_compute. reflexivity.
Defined.

(** *** Coupons *)

Lemma lookupCoupon_known code coupon :
  lookupCoupon code validCoupons = Some coupon ->
  (code = "SAVE10"%string /\ coupon = Coupon.mk 10 percentage)
  \/ (code = "WELCOME20"%string /\ coupon = Coupon.mk 20 percentage)
  \/ (code = "FLAT50"%string /\ coupon = Coupon.mk 50 fixed).
Proof.
  unfold validCoupons. cbn [lookupCoupon].
  destruct (String.eqb_spec "SAVE10" code) as [<- |_];
    [intros [= <-]; by left |].
  destruct (String.eqb_spec "WELCOME20" code) as [<- |_];
    [intros [= <-]; right; by left |].
  destruct (String.eqb_spec "FLAT50" code) as [<- |_];
    [intros [= <-]; right; by right | discriminate].
Qed.

(** C4 as written fails: the discount of a percentage coupon is computed
    in doubles and is not exactly totalPrice × pct / 100.  For a total
    of 19.99 (the double nearest to it) SAVE10 answers the double
    printed 1.9989999999999997, which is neither the exact tenth of the
    total nor the double nearest to that tenth, printed
    1.9989999999999999. *)
Lemma exact_percentage_counterexample :
  exists res,
    applyCoupon "u1" "SAVE10" bench
    = (mkResponse 200 true (Some [Lit "Coupon applied successfully"])
         (Some (DCoupon res)), bench)
    /\ CouponResult.originalPrice res = double_19_99
    /\ CouponResult.discountAmount res
       = Fin (2250673913778405 # 1125899906842624)
    /\ ~ (2250673913778405 # 1125899906842624 == double_19_99 * 10 / 100)%Q
    /\ roundDouble (double_19_99 * 10 / 100)
       = Fin (9002695655113621 # 4503599627370496)
    /\ ~ (2250673913778405 # 1125899906842624
          == 9002695655113621 # 4503599627370496)%Q.
Proof.
  eexists. split; [vm_compute; reflexivity |]. simpl.
  split; [reflexivity |]. split; [vm_compute; reflexivity |].
  split; [by vm_compute |]. split; [vm_compute; reflexivity | by vm_compute].
Qed.

(** C4, amended. For a known code and a cart with items, applyCoupon
    answers with the total as originalPrice, and with the discount and
    finalPrice = totalPrice - discountAmount computed in doubles, every
    operation rounded.  For a percentage coupon the discount is
    (totalPrice × discount) / 100 so computed; for a total between
    2^-1000 and 2^1000 it is finite and within four parts in 2^53 of
    the exact value.  For a fixed coupon the discount is exactly
    min(discount, totalPrice), and the final price is not negative.
    The database is returned as it was: nothing of the cart is changed
    or stored. *)
Theorem applyCoupon_discount (user code : string) (w : World)
    (coupon : Coupon.t) (cart : Cart.t) :
  lookupCoupon code validCoupons = Some coupon ->
  Cart_findOne w user = Some cart ->
  Cart.items cart <> [] ->
  let total := Cart.totalPrice cart in
  exists res,
    applyCoupon user code w
    = (mkResponse 200 true (Some [Lit "Coupon applied successfully"])
         (Some (DCoupon res)), w)
    /\ CouponResult.originalPrice res = total
    /\ CouponResult.finalPrice res
       = subD total (CouponResult.discountAmount res)
    /\ match Coupon.type coupon with
       | percentage =>
           CouponResult.discountAmount res
           = divD (mulD total (Coupon.discount coupon)) 100
           /\ ((pow2 (-1000) <= total)%Q -> (total <= pow2 1000)%Q ->
               exists d,
                 CouponResult.discountAmount res = Fin d
                 /\ (Qabs (d - total * Coupon.discount coupon / 100)
                     <= total * Coupon.discount coupon / 100 * pow2 (-51))%Q)
       | fixed =>
           CouponResult.discountAmount res
           = Fin (Qmin (Coupon.discount coupon) total)
           /\ nonNegative (CouponResult.finalPrice res)
       end.
Proof.
  intros Hcode Hcart Hne total.
  unfold applyCoupon. rewrite Hcode, Hcart.
  destruct (Cart.items cart) as [| it items] eqn:Hitems; [done |]. simpl.
  eexists. split; [reflexivity |]. simpl. fold total.
  split; [reflexivity |]. split; [reflexivity |].
  unfold couponDiscount.
  apply lookupCoupon_known in Hcode as [[_ ->] | [[_ ->] | [_ ->]]]; simpl.
  - split; [reflexivity |]. intros Hlo Hhi.
    by apply percentage_error.
  - split; [reflexivity |]. intros Hlo Hhi.
    by apply percentage_error.
  - split; [reflexivity |].
    apply roundDouble_nonneg.
    pose proof (Q.le_min_r 50 total). lra.
Qed.

(** The scenario of the specification, FLAT50 on a total of 30, and
    SAVE10 on a total of 19.99. *)
Lemma applyCoupon_discount_witness :
  (exists res,
      applyCoupon "u1" "FLAT50" shop3
      = (mkResponse 200 true (Some [Lit "Coupon applied successfully"])
           (Some (DCoupon res)), shop3)
      /\ CouponResult.discountAmount res = Fin (Qmin 50 30)
      /\ nonNegative (CouponResult.finalPrice res))
  /\ (exists res d,
        applyCoupon "u1" "SAVE10" bench
        = (mkResponse 200 true (Some [Lit "Coupon applied successfully"])
             (Some (DCoupon res)), bench)
        /\ CouponResult.discountAmount res = Fin d
        /\ (Qabs (d - double_19_99 * 10 / 100)
            <= double_19_99 * 10 / 100 * pow2 (-51))%Q).
Proof.
  split.
  - destruct (applyCoupon_discount "u1" "FLAT50" shop3 (Coupon.mk 50 fixed)
                (Cart.mk [Item.mk "p1" 3 10] 3
                         (sumQ [lineTotal (Item.mk "p1" 3 10)])))
      as (res & Hout & _ & _ & Hdisc & Hfinal).
    + vm_compute. reflexivity.
    + vm_compute. reflexivity.
    + vm_compute. congruence.
    + exists res. split; [exact Hout |]. split; [| exact Hfinal].
      rewrite Hdisc. vm_compute. reflexivity.
  - destruct (applyCoupon_discount "u1" "SAVE10" bench
                (Coupon.mk 10 percentage)
                (Cart.mk [Item.mk "p5" 1 double_19_99] 1 double_19_99))
      as (res & Hout & _ & _ & _ & Herr).
    + vm_compute. reflexivity.
    + vm_compute. reflexivity.
    + vm_compute. congruence.
    + destruct Herr as (d & Hd & Hbound).
      * by apply Qle_bool_iff.
      * by apply Qle_bool_iff.
      * exists res, d. split; [exact Hout |]. split; [exact Hd |].
        exact Hbound.
Defined.

Example save10_on_30 :
  match data (applyCoupon "u1" "SAVE10" shop3).1 with
  | Some (DCoupon res) =>
      CouponResult.discountAmount res = Fin 3
      /\ CouponResult.finalPrice res = Fin 27
  | _ => False
  end.
Proof. vm_compute. split; reflexivity. Qed.

(** *** Summary *)

(** C7 as written fails for a user without a cart: the answer has no
    itemsCount. *)
Lemma summary_without_cart_counterexample :
  exists s,
    data (getCartSummary "u1" shop).1 = Some (DSummary s)
    /\ ~ fullSummary s.
Proof.
  eexists. split; [vm_compute; reflexivity |].
  intros (_ & _ & [n Hn] & _). discriminate Hn.
Qed.

(** C7, amended. getCartSummary always answers 200 and changes nothing.
    For a cart with items the answer is {totalItems, totalPrice,
    itemsCount, isEmpty} with the stored totals, the number of lines and
    isEmpty = false; without a cart or with an empty one it is
    {totalItems: 0, totalPrice: 0, isEmpty: true}, without itemsCount. *)
Theorem getCartSummary_answer (user : string) (w : World) :
  exists s,
    getCartSummary user w
    = (mkResponse 200 true None (Some (DSummary s)), w)
    /\ s = match storedItems w user, Cart_findOne w user with
           | _ :: _, Some cart =>
               Summary.mk (Some (Cart.totalItems cart))
                          (Some (Cart.totalPrice cart))
                          (Some (length (Cart.items cart))) (Some false)
           | _, _ => Summary.mk (Some 0) (Some 0%Q) None (Some true)
           end.
Proof.
  unfold getCartSummary, storedItems.
  destruct (Cart_findOne w user) as [[[| it items] ti tp] |]; simpl;
    eexists; split; reflexivity.
Qed.

Example summary_of_three :
  data (getCartSummary "u1" shop3).1
  = Some (DSummary (Summary.mk (Some 3)
                      (Some (sumQ [lineTotal (Item.mk "p1" 3 10)]))
                      (Some 1%nat) (Some false))).
Proof. vm_compute. reflexivity. Qed.

(** *** Reading the cart *)

(** getCart always answers 200 with the available lines of the cart, and
    it saves exactly when their number differs from the stored
    totalItems. *)
Lemma getCart_answer (user : string) (w : World) :
  let kept := List.filter itemAvailable
                (map (populateItem w) (storedItems w user)) in
  let w1 := match Cart_findOne w user with
            | Some _ => w
            | None => (Cart_create user (Cart.mk [] 0 0%Q) w).2
            end in
  let stale := match Cart_findOne w user with
               | Some c => Cart.totalItems c
               | None => 0
               end in
  exists cart,
    (getCart user w).1 = mkResponse 200 true None (Some (DPopulated cart))
    /\ PCart.items cart = kept
    /\ writes (getCart user w).2
       = writes w1
         ++ (if Z.of_nat (length kept) =? stale then []
             else [CartSaved user]).
Proof.
  unfold getCart, storedItems.
  destruct (Cart_findOne w user) as [c|]; simpl.
  - destruct (_ =? _); simpl; eexists;
      (split; [reflexivity |]); (split; [reflexivity |]);
      [by rewrite app_nil_r | reflexivity].
  - eexists. split; [reflexivity |]. split; [reflexivity |].
    by rewrite app_nil_r.
Qed.

(** C6, at the failing input: a cart with one line of quantity 2 for an
    active product.  The filter removes nothing, the number of lines (1)
    differs from totalItems (2), and getCart saves the cart. *)
Theorem getCart_saves_unfiltered_cart :
  storedItems shop2 "u1" = [Item.mk "p1" 2 10]
  /\ Cart.totalItems <$> Cart_findOne shop2 "u1" = Some 2
  /\ (exists cart,
        data (getCart "u1" shop2).1 = Some (DPopulated cart)
        /\ map PItem.item (PCart.items cart) = storedItems shop2 "u1")
  /\ writes (getCart "u1" shop2).2 = writes shop2 ++ [CartSaved "u1"].
Proof.
  split; [vm_compute; reflexivity |].
  split; [vm_compute; reflexivity |].
  split; [eexists; split; vm_compute; reflexivity |].
  vm_compute. reflexivity.
Qed.

(** *** Ratings *)

Lemma foldl_rating_sum (reviews : list Review.t) (acc : Z) :
  foldl (fun acc review => acc + Review.rating review) acc reviews
  = acc + sumZ (map Review.rating reviews).
Proof.
  revert acc. induction reviews as [| r reviews IH]; intros acc; simpl.
  - lia.
  - rewrite IH. unfold sumZ. lia.
Qed.

Lemma Math_round_near (x : Q) :
  (x - (1 # 2) < inject_Z (Math_round x)
   /\ inject_Z (Math_round x) <= x + (1 # 2))%Q.
Proof.
  unfold Math_round.
  pose proof (Qfloor_le (x + (1 # 2))) as Hle.
  pose proof (Qlt_floor (x + (1 # 2))) as Hlt.
  rewrite inject_Z_plus in Hlt. change (inject_Z 1) with 1%Q in Hlt.
  generalize dependent (inject_Z (Qfloor (x + (1 # 2)))). intros k Hle Hlt.
  split; lra.
Qed.

(** calculateAverageRating makes the ratings agree with the reviews. *)
Lemma calculateAverageRating_consistent (p : Product.t) :
  ratingsConsistent (calculateAverageRating p).
Proof.
  unfold calculateAverageRating, ratingsConsistent.
  destruct (Product.reviews p) as [| r reviews] eqn:Hrev.
  - simpl. rewrite Hrev. split; reflexivity.
  - cbn [length Nat.eqb]. cbv beta iota. unfold withRatings.
    cbn [Product.ratings_count Product.ratings_average Product.reviews].
    rewrite Hrev. split; [reflexivity |].
    rewrite foldl_rating_sum, Z.add_0_l.
    change (inject_Z (sumZ (map Review.rating (r :: reviews)))
            / inject_Z (Z.of_nat (S (length reviews))))%Q
      with (meanRating (r :: reviews)).
    set (m := meanRating (r :: reviews)).
    destruct (Math_round_near (m * 10)) as [Hlo Hhi].
    exists (Math_round (m * 10)).
    split; [reflexivity |].
    generalize dependent (inject_Z (Math_round (m * 10))). intros k Hlo Hhi.
    change (k / 10)%Q with (k * (1 # 10))%Q. split; lra.
Qed.

(** After a successful addReview the stored product has the new review
    appended and ratings that agree with its reviews. *)
Lemma addReview_ratings (id user : string) (rating : Z) (comment : string)
    (w w' : World) (r : Response) :
  addReview id user rating comment w = (r, w') ->
  success r = true ->
  exists p p',
    Product_findById w id = Some p
    /\ Product_findById w' id = Some p'
    /\ Product.reviews p'
       = Product.reviews p ++ [Review.mk user rating comment]
    /\ ratingsConsistent p'.
Proof.
  unfold addReview.
  destruct (Product_findById w id) as [p|] eqn:Hp;
    [| intros; simplify_eq/=; discriminate].
  destruct (List.find _ _); intros Hrun Hok; simplify_eq/=.
  eexists _, _. split; [reflexivity |].
  unfold Product_findById. simpl. rewrite lookup_insert_eq.
  split; [reflexivity |].
  split; [| apply calculateAverageRating_consistent].
  unfold calculateAverageRating, withReviews, withRatings. simpl.
  by destruct (_ =? _)%nat.
Qed.

(** The scenario of the specification: reviews rated 5, 4 and 3. *)
Example reviewed_ratings :
  match Product_findById reviewed "p1" with
  | Some p =>
      map Review.rating (Product.reviews p) = [5; 4; 3]
      /\ (Product.ratings_average p == 4)%Q
      /\ Product.ratings_count p = 3
  | None => False
  end.
Proof. vm_compute. repeat split. Qed.

(** C8, at the failing input: updateProduct with a body that replaces the
    three reviews by a single review rated 1.  The update is stored, the
    ratings stay at average 4 and count 3, and no longer agree with the
    reviews. *)
Theorem updateProduct_leaves_ratings :
  let body := onlyReviews [Review.mk "dave" 1 "It broke in a day"] in
  let out := updateProduct "p1" body reviewed in
  success out.1 = true
  /\ exists p',
       Product_findById out.2 "p1" = Some p'
       /\ map Review.rating (Product.reviews p') = [1]
       /\ (Product.ratings_average p' == 4)%Q
       /\ Product.ratings_count p' = 3
       /\ ~ ratingsConsistent p'.
Proof.
  intros body out. split; [vm_compute; reflexivity |].
  eexists. split; [vm_compute; reflexivity |].
  split; [vm_compute; reflexivity |].
  split; [vm_compute; reflexivity |].
  split; [vm_compute; reflexivity |].
  intros [Hcount _]. vm_compute in Hcount. discriminate Hcount.
Qed.

(** *** Soft deletion *)

Lemma In_Product_find filter w id p :
  In (id, p) (Product_find filter w)
  <-> products w !! id = Some p /\ filter id p = true.
Proof.
  unfold Product_find. rewrite filter_In, <- list_elem_of_In.
  rewrite elem_of_map_to_list. reflexivity.
Qed.

Lemma In_db_limit {A} n (l : list A) x : In x (db_limit n l) -> In x l.
Proof.
  destruct n as [| n]; simpl; [done |].
  rewrite <- !list_elem_of_In. intros H.
  apply (subseteq_take (S n) l). exact H.
Qed.

Lemma In_db_skip {A} n (l : list A) x : In x (db_skip n l) -> In x l.
Proof.
  unfold db_skip. rewrite <- !list_elem_of_In.
  apply (subseteq_drop n l).
Qed.

Lemma In_insertSorted le d l x :
  In x (insertSorted le d l) -> x = d \/ In x l.
Proof.
  induction l as [| e l IH]; simpl.
  - intros [<- | []]. by left.
  - destruct (le d.2 e.2); simpl.
    + intros [<- | H]; [by left | by right].
    + intros [<- | H]; [right; by left |].
      destruct (IH H) as [-> | H']; [by left | right; by right].
Qed.

Lemma In_db_sort path descending l x :
  In x (db_sort path descending l) -> In x l.
Proof.
  unfold db_sort. induction l as [| d l IH]; simpl; [done |].
  intros H. apply In_insertSorted in H as [-> | H]; [by left |].
  right. by apply IH.
Qed.

(** What a query lists is stored and active. *)
Lemma listed_getProducts regex_i text_search q w id p :
  In (id, p) (listed (getProducts regex_i text_search q w).1) ->
  products w !! id = Some p /\ Product.isActive p = true.
Proof.
  simpl. intros H.
  apply In_db_limit, In_db_skip, In_db_sort, In_Product_find in H
    as [Hp Hf].
  split; [done |]. unfold listFilter in Hf.
  repeat (apply andb_prop in Hf as [Hf _]). done.
Qed.

Lemma listed_searchProducts regex_i q limit w id p :
  In (id, p) (listed (searchProducts regex_i q limit w).1) ->
  products w !! id = Some p /\ Product.isActive p = true.
Proof.
  destruct q as [q|]; simpl; [| done]. intros H.
  apply In_db_limit, In_Product_find in H as [Hp Hf].
  split; [done |]. unfold searchFilter in Hf.
  by apply andb_prop in Hf as [Hf _].
Qed.

Lemma listed_getRelatedProducts id' limit w id p :
  In (id, p) (listed (getRelatedProducts id' limit w).1) ->
  products w !! id = Some p /\ Product.isActive p = true.
Proof.
  unfold getRelatedProducts.
  destruct (Product_findById w id') as [product|]; simpl; [| done].
  intros H. apply In_db_limit, In_Product_find in H as [Hp Hf].
  split; [done |]. unfold relatedFilter in Hf.
  by apply andb_prop in Hf as [_ Hf].
Qed.

Lemma not_listed (l : list (string * Product.t)) (id : string) :
  (forall p, ~ In (id, p) l) -> ~ In id (map fst l).
Proof.
  intros H Hin. apply in_map_iff in Hin as ([id' p] & Hid & Hin).
  simpl in Hid. subst id'. by apply (H p).
Qed.

(** C9. deleteProduct on a stored product keeps the record and sets only
    its isActive to false; nothing is removed from the collection.
    Afterwards getProduct still answers with the product, and neither the
    product list, nor the search, nor the related products of any product
    list it. *)
Theorem soft_delete_hides_product
    (regex_i : string -> string -> bool)
    (text_search : string -> Product.t -> bool)
    (id : string) (w : World) (p : Product.t) :
  Product_findById w id = Some p ->
  let w' := (deleteProduct id w).2 in
  products w' = <[id := withActive p false]> (products w)
  /\ (forall id', is_Some (products w !! id') -> is_Some (products w' !! id'))
  /\ getProduct id w'
     = (mkResponse 200 true None (Some (DProduct (withActive p false))), w')
  /\ (forall q,
        ~ In id (map fst (listed (getProducts regex_i text_search q w').1)))
  /\ (forall q limit,
        ~ In id (map fst (listed (searchProducts regex_i q limit w').1)))
  /\ (forall id' limit,
        ~ In id (map fst (listed (getRelatedProducts id' limit w').1))).
Proof.
  intros Hp w'.
  assert (products w' = <[id := withActive p false]> (products w)) as Hw'.
  { unfold w', deleteProduct. by rewrite Hp. }
  assert (products w' !! id = Some (withActive p false)) as Hid.
  { rewrite Hw'. apply lookup_insert_eq. }
  assert (forall p', products w' !! id = Some p' ->
                     Product.isActive p' = true -> False) as Hgone.
  { intros p' Hp' Hact. rewrite Hid in Hp'. by simplify_eq. }
  split; [exact Hw' |]. split; [| split; [| split; [| split]]].
  - intros id' Hsome. rewrite Hw'.
    destruct (decide (id = id')) as [<- | Hne].
    + rewrite lookup_insert_eq. by eexists.
    + by rewrite lookup_insert_ne.
  - unfold getProduct, Product_findById. by rewrite Hid.
  - intros q. apply not_listed. intros p' H.
    apply listed_getProducts in H as [H1 H2]. eauto.
  - intros q limit. apply not_listed. intros p' H.
    apply listed_searchProducts in H as [H1 H2]. eauto.
  - intros id' limit. apply not_listed. intros p' H.
    apply listed_getRelatedProducts in H as [H1 H2]. eauto.
Qed.

Lemma soft_delete_hides_product_witness :
  let w' := (deleteProduct "p1" shop).2 in
  products w' = <["p1"%string := withActive widget false]> (products shop)
  /\ (forall id', is_Some (products shop !! id') -> is_Some (products w' !! id'))
  /\ getProduct "p1" w'
     = (mkResponse 200 true None (Some (DProduct (withActive widget false))), w')
  /\ (forall q,
        ~ In "p1"%string (map fst (listed (getProducts anyMatch anyMatch q w').1)))
  /\ (forall q limit,
        ~ In "p1"%string (map fst (listed (searchProducts anyMatch q limit w').1)))
  /\ (forall id' limit,
        ~ In "p1"%string (map fst (listed (getRelatedProducts id' limit w').1))).
Proof.
  apply (soft_delete_hides_product anyMatch anyMatch "p1" shop widget).
  vm_compute. reflexivity.
Defined.

(** Before the deletion the widget is listed, found by a search, and
    related to the gizmo of its category; afterwards it is in none. *)
Example widget_listed_then_hidden :
  let shown (w : World) :=
    (map fst (listed (getProducts anyMatch anyMatch defaultQuery w).1),
     map fst (listed (searchProducts anyMatch (Some "wid"%string) 10 w).1),
     map fst (listed (getRelatedProducts "p3" 4 w).1)) in
  shown market = (["p3"; "p1"], ["p3"; "p1"], ["p1"])%string
  /\ shown (deleteProduct "p1" market).2 = (["p3"], ["p3"], [])%string.
Proof. vm_compute. split; reflexivity. Qed.

(** ** Further properties of the cart *)

(** X1. A cart operation that does not succeed leaves the whole database,
    write log included, as it was. *)
Theorem failed_mutation_changes_nothing (user : string) (op : CartOp)
    (w w' : World) (r : Response) :
  runOp user op w = (r, w') ->
  success r = false ->
  w' = w.
Proof.
  intros Hrun Hfail.
  destruct op; simpl in Hrun;
    unfold addToCart, updateCartItem, removeFromCart, clearCart in Hrun;
    repeat case_match; simplify_eq/=; try reflexivity; discriminate.
Qed.

Lemma failed_mutation_changes_nothing_witness :
  (updateCartItem "u1" "p1" 9 shop3).2 = shop3.
Proof.
  apply (failed_mutation_changes_nothing "u1" (OpUpdate "p1" 9) shop3 _
           (updateCartItem "u1" "p1" 9 shop3).1).
  - vm_compute. reflexivity.
  - vm_compute. reflexivity.
Defined.

(** X2. A cart operation never changes the products, nor the cart of another
    user. *)
Theorem mutation_frame (user : string) (op : CartOp) (w : World) :
  products (runOp user op w).2 = products w
  /\ forall other, other <> user ->
       carts (runOp user op w).2 !! other = carts w !! other.
Proof.
  destruct op; simpl;
    unfold addToCart, updateCartItem, removeFromCart, clearCart, Cart_save;
    repeat case_match; simplify_eq/=; (split; [reflexivity |]);
    intros other Hne; try reflexivity;
    by rewrite lookup_insert_ne.
Qed.

Lemma mutation_frame_witness :
  carts (runOp "u2" (OpAdd "p1" None) shop3).2 !! "u1"%string
  = carts shop3 !! "u1"%string.
Proof.
  apply (proj2 (mutation_frame "u2" (OpAdd "p1" None) shop3)).
  vm_compute. congruence.
Defined.

(** What addToCart stores when it accepts. *)
Lemma addToCart_stored user productId quantity w product :
  Product_findByIdCast w productId = Some product ->
  Product.isActive product = true ->
  default 1 quantity <= Product.inventory_quantity product ->
  lineQuantity w user productId + default 1 quantity
    <= Product.inventory_quantity product ->
  success (addToCart user productId quantity w).1 = true
  /\ storedItems (addToCart user productId quantity w).2 user
     = match findIndex productId (storedItems w user) with
       | Some (i, existing) =>
           <[i := Item.mk (Item.product existing)
                          (Item.quantity existing + default 1 quantity)
                          (Item.price existing)]> (storedItems w user)
       | None =>
           storedItems w user
           ++ [Item.mk (canonId productId) (default 1 quantity)
                       (Product.price product)]
       end.
Proof.
  intros Hp Hact Hq Hsum. unfold addToCart, lineQuantity in *.
  rewrite Hp, Hact. simpl.
  destruct (Z.ltb_spec (Product.inventory_quantity product)
              (default 1 quantity)) as [|_]; [lia |].
  rewrite storedItems_default.
  destruct (findIndex productId (storedItems w user)) as [[i existing]|].
  - destruct (Z.ltb_spec (Product.inventory_quantity product)
                (Item.quantity existing + default 1 quantity)) as [|_];
      [lia |].
    split; [reflexivity |].
    unfold storedItems, Cart_findOne. simpl. by rewrite lookup_insert_eq.
  - split; [reflexivity |].
    unfold storedItems, Cart_findOne. simpl. by rewrite lookup_insert_eq.
Qed.

(** X3. addToCart succeeds exactly when the product the id is cast to is
    stored and active, and both the requested quantity and its sum with
    the quantity of the line found for the id, compared as the string
    the request gave, are within the stock. *)
Theorem addToCart_accepts (user productId : string) (quantity : option Z)
    (w : World) :
  success (addToCart user productId quantity w).1 = true
  <-> exists product,
        Product_findByIdCast w productId = Some product
        /\ Product.isActive product = true
        /\ default 1 quantity <= Product.inventory_quantity product
        /\ lineQuantity w user productId + default 1 quantity
           <= Product.inventory_quantity product.
Proof.
  symmetry. apply (accepts_success user (OpAdd productId quantity) w).
Qed.

(** The id of a stored product with its hex letters in upper case: the
    product is found and the line is not, so the 5 widgets in the cart
    do not count and 5 more are accepted, in a second line for the same
    product. *)
Example upper_case_id_adds_second_line :
  Product.inventory_quantity <$> Product_findById depot "a1" = Some 5
  /\ storedItems depot "u1" = [Item.mk "a1" 5 10]
  /\ success (addToCart "u1" "a1" (Some 1) depot).1 = false
  /\ lineQuantity depot "u1" "A1" = 0
  /\ success (addToCart "u1" "A1" (Some 5) depot).1 = true
  /\ storedItems (addToCart "u1" "A1" (Some 5) depot).2 "u1"
     = [Item.mk "a1" 5 10; Item.mk "a1" 5 10].
Proof. vm_compute. repeat split. Qed.

Example add_two_more_accepted :
  success (addToCart "u1" "p1" (Some 2) shop3).1 = true
  /\ success (addToCart "u1" "p1" (Some 3) shop3).1 = false.
Proof. vm_compute. split; reflexivity. Qed.

(** X4. updateCartItem succeeds exactly when the quantity is at least 1, the
    cart has a line for the product, and the product is stored, active
    and has that quantity in stock. *)
Theorem updateCartItem_accepts (user productId : string) (quantity : Z)
    (w : World) :
  success (updateCartItem user productId quantity w).1 = true
  <-> 1 <= quantity
      /\ In productId (cartProducts w user)
      /\ exists product,
           Product_findById w productId = Some product
           /\ Product.isActive product = true
           /\ quantity <= Product.inventory_quantity product.
Proof.
  unfold updateCartItem, cartProducts. rewrite <- findIndex_In.
  unfold storedItems.
  destruct (Z.ltb_spec quantity 1) as [Hlt | Hge].
  { split; [done |]. intros [H _]. lia. }
  destruct (Cart_findOne w user) as [cart|].
  2:{ split; [done |]. intros (_ & [x Hx] & _). discriminate Hx. }
  destruct (findIndex productId (Cart.items cart)) as [[i existing]|].
  2:{ split; [done |]. intros (_ & [x Hx] & _). discriminate Hx. }
  destruct (Product_findById w productId) as [product|].
  2:{ split; [done |]. intros (_ & _ & p & Hp & _). discriminate Hp. }
  destruct (Product.isActive product) eqn:Hact; simpl.
  2:{ split; [done |]. intros (_ & _ & p & Hp & Ha & _). congruence. }
  destruct (Z.ltb_spec (Product.inventory_quantity product) quantity)
    as [Hs | Hs]; simpl.
  { split; [done |]. intros (_ & _ & p & Hp & _ & Hq). simplify_eq. lia. }
  split; [| done]. intros _.
  split; [lia |]. split; [by eexists |]. by exists product.
Qed.

Example update_beyond_stock_refused :
  success (updateCartItem "u1" "p1" 5 shop3).1 = true
  /\ success (updateCartItem "u1" "p1" 6 shop3).1 = false
  /\ success (updateCartItem "u1" "p1" 0 shop3).1 = false
  /\ success (updateCartItem "u2" "p1" 1 shop3).1 = false.
Proof. vm_compute. repeat split. Qed.

Lemma removeFromCart_stored user productId w i existing :
  findIndex productId (storedItems w user) = Some (i, existing) ->
  success (removeFromCart user productId w).1 = true
  /\ storedItems (removeFromCart user productId w).2 user
     = delete i (storedItems w user).
Proof.
  unfold removeFromCart, storedItems.
  destruct (Cart_findOne w user) as [cart|]; [| done].
  intros ->. split; [reflexivity |].
  unfold Cart_findOne. simpl. by rewrite lookup_insert_eq.
Qed.

Lemma map_product_delete (items : list Item.t) i :
  map Item.product (delete i items) = delete i (map Item.product items).
Proof.
  revert i. induction items as [| it items IH]; intros [| i]; simpl;
    [done | done | done |]. by rewrite IH.
Qed.

Lemma NoDup_delete_lookup {A} (l : list A) i x :
  NoDup l -> l !! i = Some x -> ~ In x (delete i l).
Proof.
  intros Hnd. revert i. induction Hnd as [| y l Hy Hnd IH]; intros [| i];
    simpl; try done.
  - intros Heq. injection Heq as ->. by rewrite <- list_elem_of_In.
  - intros Hi [-> | Hin].
    + apply Hy. by eapply list_elem_of_lookup_2.
    + by apply (IH i).
Qed.

Lemma In_delete_other {A} (l : list A) i x y :
  l !! i = Some y -> In x l -> x <> y -> In x (delete i l).
Proof.
  revert i. induction l as [| z l IH]; intros [| i]; simpl; try done.
  - intros [= ->] [-> | Hin] Hne; [done | done].
  - intros Hi [-> | Hin] Hne; [by left | right; by apply (IH i)].
Qed.

(** X5. removeFromCart succeeds exactly when the cart has a line for the
    product; it answers 404 otherwise.  When no product has two lines,
    the product is then gone from the cart and every line of another
    product is still there. *)
Theorem removeFromCart_drops_product (user productId : string) (w : World) :
  (success (removeFromCart user productId w).1 = true
   <-> In productId (cartProducts w user))
  /\ (~ In productId (cartProducts w user) ->
      status (removeFromCart user productId w).1 = 404
      /\ (removeFromCart user productId w).2 = w)
  /\ (NoDup (cartProducts w user) ->
      In productId (cartProducts w user) ->
      let w' := (removeFromCart user productId w).2 in
      ~ In productId (cartProducts w' user)
      /\ length (storedItems w' user) = pred (length (storedItems w user))
      /\ forall it,
           In it (storedItems w user) ->
           Item.product it <> productId ->
           In it (storedItems w' user)).
Proof.
  unfold cartProducts. split; [| split].
  - rewrite <- findIndex_In. split.
    + unfold removeFromCart, storedItems.
      destruct (Cart_findOne w user) as [cart|]; [| done].
      destruct (findIndex productId (Cart.items cart)) as [[i e]|];
        [by eexists | done].
    + intros [[i e] H]. by apply (removeFromCart_stored _ _ _ _ _ H).
  - rewrite <- findIndex_In. unfold removeFromCart, storedItems.
    destruct (Cart_findOne w user) as [cart|]; [| done].
    destruct (findIndex productId (Cart.items cart)) as [[i e]|];
      [| done].
    intros H. destruct H. by eexists.
  - intros Hnd Hin. apply findIndex_In in Hin as [[i e] Hidx].
    destruct (removeFromCart_stored _ _ _ _ _ Hidx) as [_ Hst].
    destruct (findIndex_Some _ _ _ _ Hidx) as [Hi Hp].
    rewrite Hst. split; [| split].
    + rewrite map_product_delete.
      apply (NoDup_delete_lookup _ i); [exact Hnd |].
      by rewrite list_lookup_fmap, Hi, <- Hp.
    + rewrite length_delete; [lia | by rewrite Hi].
    + intros it Hit Hne. apply (In_delete_other _ i it e Hi Hit).
      congruence.
Qed.

Lemma removeFromCart_drops_product_witness :
  let w' := (removeFromCart "u1" "p2" market).2 in
  ~ In "p2"%string (cartProducts w' "u1")
  /\ length (storedItems w' "u1") = pred (length (storedItems market "u1"))
  /\ forall it,
       In it (storedItems market "u1") ->
       Item.product it <> "p2"%string ->
       In it (storedItems w' "u1").
Proof.
  apply (proj2 (proj2 (removeFromCart_drops_product "u1" "p2" market))).
  - apply (bool_decide_unpack _). vm_compute. reflexivity.
  - vm_compute. auto.
Defined.

(** The two outcomes of addToCart. *)
Lemma addToCart_outcome user productId quantity w :
  (success (addToCart user productId quantity w).1 = false
   /\ (addToCart user productId quantity w).2 = w)
  \/ exists product,
       Product_findByIdCast w productId = Some product
       /\ Product.isActive product = true
       /\ default 1 quantity <= Product.inventory_quantity product
       /\ lineQuantity w user productId + default 1 quantity
          <= Product.inventory_quantity product.
Proof.
  unfold addToCart, lineQuantity.
  destruct (Product_findByIdCast w productId) as [product|]; [| by left].
  destruct (Product.isActive product) eqn:Hact; [| by left]. simpl.
  destruct (Z.ltb_spec (Product.inventory_quantity product)
              (default 1 quantity)) as [|Hq]; [by left |].
  rewrite storedItems_default.
  destruct (findIndex productId (storedItems w user)) as [[i existing]|].
  - destruct (Z.ltb_spec (Product.inventory_quantity product)
                (Item.quantity existing + default 1 quantity)) as [|Hs];
      [by left |].
    right. exists product. repeat split; try done; lia.
  - right. exists product. repeat split; try done; lia.
Qed.

(** The two outcomes of updateCartItem. *)
Lemma updateCartItem_outcome user productId quantity w :
  (success (updateCartItem user productId quantity w).1 = false
   /\ (updateCartItem user productId quantity w).2 = w)
  \/ exists i existing product,
       findIndex productId (storedItems w user) = Some (i, existing)
       /\ Product_findById w productId = Some product
       /\ success (updateCartItem user productId quantity w).1 = true
       /\ storedItems (updateCartItem user productId quantity w).2 user
          = <[i := Item.mk (Item.product existing) quantity
                           (Product.price product)]> (storedItems w user).
Proof.
  unfold updateCartItem, storedItems.
  destruct (quantity <? 1); [by left |].
  destruct (Cart_findOne w user) as [cart|] eqn:Hc; [| by left].
  destruct (findIndex productId (Cart.items cart)) as [[i existing]|];
    [| by left].
  destruct (Product_findById w productId) as [product|]; [| by left].
  destruct (negb (Product.isActive product)); [by left |].
  destruct (_ <? _); [by left |].
  right. exists i, existing, product. repeat split.
  unfold Cart_findOne. simpl. by rewrite lookup_insert_eq.
Qed.

Lemma products_insert_same (items : list Item.t) i existing quantity price :
  items !! i = Some existing ->
  map Item.product (<[i := Item.mk (Item.product existing) quantity price]> items)
  = map Item.product items.
Proof.
  intros Hi. rewrite list_fmap_insert. simpl.
  apply list_insert_id. by rewrite list_lookup_fmap, Hi.
Qed.

(** X6. Carts keep at most one line per product, as long as products are
    added under the id the database prints (hex letters in lower case):
    if the products of the user's lines are distinct before a cart
    operation, they are distinct after it. *)
Theorem one_line_per_product (user : string) (op : CartOp) (w : World) :
  NoDup (cartProducts w user) ->
  (forall productId quantity,
      op = OpAdd productId quantity -> canonId productId = productId) ->
  NoDup (cartProducts (runOp user op w).2 user).
Proof.
  intros Hnd Hcanon. unfold cartProducts in *.
  destruct op as [productId quantity | productId quantity | productId | ];
    simpl.
  - destruct (addToCart_outcome user productId quantity w)
      as [[_ ->] | (product & Hp & Hact & Hq & Hsum)]; [exact Hnd |].
    destruct (addToCart_stored _ _ _ _ _ Hp Hact Hq Hsum) as [_ ->].
    destruct (findIndex productId (storedItems w user))
      as [[i existing]|] eqn:Hidx.
    + apply findIndex_Some in Hidx as [Hi _].
      by rewrite products_insert_same.
    + rewrite (Hcanon productId quantity eq_refl).
      rewrite map_app. simpl. apply NoDup_app. split; [exact Hnd |].
      split; [| apply NoDup_singleton].
      intros x Hx Hx'. apply list_elem_of_singleton in Hx'. subst x.
      apply list_elem_of_In, findIndex_In in Hx as [? Hx]. congruence.
  - destruct (updateCartItem_outcome user productId quantity w)
      as [[_ ->] | (i & existing & product & Hidx & _ & _ & ->)];
      [exact Hnd |].
    apply findIndex_Some in Hidx as [Hi _].
    by rewrite products_insert_same.
  - destruct (findIndex productId (storedItems w user))
      as [[i existing]|] eqn:Hidx.
    + destruct (removeFromCart_stored _ _ _ _ _ Hidx) as [_ ->].
      rewrite map_product_delete.
      eapply sublist_NoDup; [exact Hnd | apply sublist_delete].
    + unfold removeFromCart. unfold storedItems in Hidx.
      destruct (Cart_findOne w user) as [cart|] eqn:Hc; [| exact Hnd].
      rewrite Hidx. exact Hnd.
  - unfold clearCart.
    destruct (Cart_findOne w user) as [cart|] eqn:Hc; [| exact Hnd].
    simpl. unfold storedItems, Cart_findOne. simpl.
    rewrite lookup_insert_eq. simpl. apply NoDup_nil_2.
Qed.

(** Two more widgets for the cart of three, and a gizmo for it: the
    first goes into the widgets' line, the second into a line of its
    own. *)
Lemma one_line_per_product_witness :
  NoDup (cartProducts (runOp "u1" (OpAdd "p1" (Some 2)) shop3b).2 "u1")
  /\ NoDup (cartProducts (runOp "u1" (OpAdd "p3" None) shop3b).2 "u1").
Proof.
  split.
  - apply (one_line_per_product "u1" (OpAdd "p1" (Some 2)) shop3b).
    + apply (bool_decide_unpack _). vm_compute. reflexivity.
    + intros productId quantity [= <- _]. reflexivity.
  - apply (one_line_per_product "u1" (OpAdd "p3" None) shop3b).
    + apply (bool_decide_unpack _). vm_compute. reflexivity.
    + intros productId quantity [= <- _]. reflexivity.
Defined.

Example lines_after_adding :
  storedItems (runOp "u1" (OpAdd "p1" (Some 2)) shop3b).2 "u1"
  = [Item.mk "p1" 5 10]
  /\ storedItems (runOp "u1" (OpAdd "p3" None) shop3b).2 "u1"
     = [Item.mk "p1" 3 10; Item.mk "p3" 1 7].
Proof. vm_compute. split; reflexivity. Qed.

(** X7. Adding a product the cart has no line for, under the id the
    database prints, appends a line with the requested quantity and the
    product's current price, creating the cart when the user has none;
    removing the product afterwards gives back the lines there were. *)
Theorem add_then_remove (user productId : string) (quantity : option Z)
    (w : World) (product : Product.t) :
  canonId productId = productId ->
  Product_findById w productId = Some product ->
  Product.isActive product = true ->
  default 1 quantity <= Product.inventory_quantity product ->
  ~ In productId (cartProducts w user) ->
  let w1 := (addToCart user productId quantity w).2 in
  success (addToCart user productId quantity w).1 = true
  /\ is_Some (Cart_findOne w1 user)
  /\ storedItems w1 user
     = storedItems w user
       ++ [Item.mk productId (default 1 quantity) (Product.price product)]
  /\ success (removeFromCart user productId w1).1 = true
  /\ storedItems (removeFromCart user productId w1).2 user
     = storedItems w user.
Proof.
  intros Hcanon Hp Hact Hq Hnot w1.
  apply findByIdCast_exact in Hp.
  assert (findIndex productId (storedItems w user) = None) as Hnone.
  { destruct (findIndex productId (storedItems w user)) eqn:E; [| done].
    destruct Hnot. apply findIndex_In. by eexists. }
  assert (lineQuantity w user productId = 0) as Hline.
  { unfold lineQuantity. by rewrite Hnone. }
  destruct (addToCart_stored user productId quantity w product Hp Hact Hq)
    as [Hok Hst]; [lia |].
  rewrite Hnone, Hcanon in Hst. fold w1 in Hst.
  assert (findIndex productId (storedItems w1 user)
          = Some (length (storedItems w user),
                  Item.mk productId (default 1 quantity)
                          (Product.price product))) as Hidx.
  { rewrite Hst. unfold findIndex in *.
    rewrite list_find_app_r by exact Hnone. simpl.
    rewrite decide_True by reflexivity. reflexivity. }
  destruct (removeFromCart_stored _ _ _ _ _ Hidx) as [Hrm Hst'].
  split; [exact Hok |].
  split.
  { destruct (Cart_findOne w1 user) eqn:E; [by eexists |].
    unfold storedItems in Hst at 1. rewrite E in Hst.
    destruct (app_cons_not_nil _ _ _ Hst). }
  split; [exact Hst |]. split; [exact Hrm |].
  rewrite Hst', Hst.
  rewrite delete_middle. by rewrite app_nil_r.
Qed.

Lemma add_then_remove_witness :
  let w1 := (addToCart "u1" "p3" None shop3b).2 in
  success (addToCart "u1" "p3" None shop3b).1 = true
  /\ is_Some (Cart_findOne w1 "u1")
  /\ storedItems w1 "u1"
     = storedItems shop3b "u1" ++ [Item.mk "p3" (default 1 None) 7]
  /\ success (removeFromCart "u1" "p3" w1).1 = true
  /\ storedItems (removeFromCart "u1" "p3" w1).2 "u1"
     = storedItems shop3b "u1".
Proof.
  apply (add_then_remove "u1" "p3" None shop3b scarce).
  - reflexivity.
  - vm_compute. reflexivity.
  - vm_compute. reflexivity.
  - vm_compute. congruence.
  - vm_compute. intuition discriminate.
Defined.

(** With the hex letters in upper case the line is stored under the
    printed id, and removing under the id of the request finds no
    line. *)
Example upper_case_id_not_removed :
  storedItems (addToCart "u2" "A1" None depot).2 "u2" = [Item.mk "a1" 1 10]
  /\ status (removeFromCart "u2" "A1" (addToCart "u2" "A1" None depot).2).1
     = 404.
Proof. vm_compute. split; reflexivity. Qed.

(** *** Validation, again *)



Lemma filter_all {A} (f : A -> bool) (l : list A) :
  (forall x, In x l -> f x = true) -> List.filter f l = l.
Proof.
  induction l as [| a l IH]; simpl; [done |]. intros H.
  rewrite (H a) by (by left). f_equal. apply IH. intros x Hx. apply H.
  by right.
Qed.

(** A cart whose lines all pass the first two checks is not written. *)
Lemma validateCart_noop user w :
  (forall it, In it (storedItems w user) -> keptb (populateItem w it) = true) ->
  (validateCart user w).2 = w.
Proof.
  intros Hall. unfold validateCart, storedItems in *.
  destruct (Cart_findOne w user) as [c|]; [| reflexivity]. simpl.
  destruct (length _ =? 0)%nat; [reflexivity |].
  rewrite validateLoop_flat, flat_map_itemKept.
  rewrite filter_all.
  - rewrite Nat.eqb_refl. simpl. rewrite andb_false_r, if_pair. reflexivity.
  - intros pit Hpit. apply in_map_iff in Hpit as (it & <- & Hit). by apply Hall.
Qed.

(** X8. validateCart on a cart with lines.  When every line is for a
    stored, active product with enough stock, it writes nothing and
    answers 400 with the message of the TypeError, whatever the prices.
    When no line is, it empties the stored cart and answers 200 with
    the validation: isValid false, no valid item, an empty cart and one
    error for each line. *)
Theorem validateCart_purchasable_cart (user : string) (w : World) :
  storedItems w user <> [] ->
  ((forall it, In it (storedItems w user) -> purchasable w it) ->
   validateCart user w = (fail 400 msgImagesUndefined, w))
  /\ ((forall it, In it (storedItems w user) -> ~ purchasable w it) ->
      storedItems (validateCart user w).2 user = []
      /\ status (validateCart user w).1 = 200
      /\ success (validateCart user w).1 = false
      /\ exists v,
           data (validateCart user w).1 = Some (DValidation v)
           /\ Validation.isValid v = false
           /\ Validation.validItemsCount v = 0%nat
           /\ PCart.items (Validation.cart v) = []
           /\ length (Validation.errors v) = length (storedItems w user)).
Proof.
  intros Hne.
  pose proof (validateCart_answer user w Hne) as Hans. simpl in Hans.
  split.
  - intros Hall.
    assert (forall it, In it (storedItems w user) ->
                       keptb (populateItem w it) = true) as Hk.
    { intros it Hit. by apply purchasable_keptb, Hall. }
    rewrite (surjective_pairing (validateCart user w)).
    rewrite (validateCart_noop user w Hk). f_equal.
    rewrite filter_all in Hans.
    2:{ intros pit Hpit. apply in_map_iff in Hpit as (it & <- & Hit).
        by apply Hk. }
    destruct (storedItems w user) as [| it items]; [done | exact Hans].
  - intros Hnone.
    assert (List.filter keptb (map (populateItem w) (storedItems w user)) = [])
      as Hnil.
    { destruct (List.filter keptb
                  (map (populateItem w) (storedItems w user)))
        as [| item rest] eqn:E; [reflexivity |].
      assert (In item (List.filter keptb
                         (map (populateItem w) (storedItems w user))))
        as Hk by (rewrite E; by left).
      apply filter_In in Hk as [Hin Hk].
      apply in_map_iff in Hin as (it & <- & Hin).
      destruct (Hnone it Hin). by apply purchasable_keptb. }
    rewrite validateCart_stored, Hnil. rewrite Hnil in Hans.
    destruct Hans as (cart & Hcart & ->). simpl.
    split; [reflexivity |]. split; [reflexivity |]. split; [reflexivity |].
    eexists. split; [reflexivity |]. simpl.
    split; [reflexivity |]. split; [reflexivity |]. split; [exact Hcart |].
    clear -Hnone.
    induction (storedItems w user) as [| it items IH]; simpl; [reflexivity |].
    rewrite length_app, IH by (intros x Hx; apply Hnone; by right).
    assert (keptb (populateItem w it) = false) as Hk.
    { destruct (keptb (populateItem w it)) eqn:K; [| reflexivity].
      destruct (Hnone it (or_introl eq_refl)). by apply purchasable_keptb. }
    pose proof (itemErrors_length (populateItem w it)) as Hle.
    pose proof (itemErrors_dropped _ Hk) as Hn.
    destruct (itemErrors (populateItem w it)) as [| e [| e' es]];
      [done | reflexivity | simpl in Hle; lia].
Qed.

(** A cart of three widgets with nothing wrong is answered with the
    TypeError.  Of a cart whose lines are a retired gadget and 4 gizmos
    with 1 in stock, both lines go and the validation is answered. *)
Lemma validateCart_purchasable_cart_witness :
  validateCart "u1" shop3 = (fail 400 msgImagesUndefined, shop3)
  /\ storedItems (validateCart "u1" clearance).2 "u1" = []
  /\ status (validateCart "u1" clearance).1 = 200
  /\ success (validateCart "u1" clearance).1 = false
  /\ exists v,
       data (validateCart "u1" clearance).1 = Some (DValidation v)
       /\ Validation.isValid v = false
       /\ Validation.validItemsCount v = 0%nat
       /\ PCart.items (Validation.cart v) = []
       /\ length (Validation.errors v) = length (storedItems clearance "u1").
Proof.
  split.
  - refine (proj1 (validateCart_purchasable_cart "u1" shop3 _) _).
    + vm_compute. congruence.
    + intros it Hit. exists widget. vm_compute in Hit.
      destruct Hit as [<- | []]. vm_compute. repeat split; congruence.
  - refine (proj2 (validateCart_purchasable_cart "u1" clearance _) _).
    + vm_compute. congruence.
    + intros it Hit (p & Hp & Hact & Hq). vm_compute in Hit.
      destruct Hit as [<- | [<- | []]]; vm_compute in Hp;
        injection Hp as <-.
      * discriminate Hact.
      * vm_compute in Hq. by apply Hq.
Defined.


Example market_validated_twice :
  let w1 := (validateCart "u1" market).2 in
  validateCart "u1" w1 = (fail 400 msgImagesUndefined, w1)
  /\ map VError.type
       (validateLoop (map (populateItem w1) (storedItems w1 "u1"))).1
     = [Some "price_change"%string].
Proof. vm_compute. repeat split. Qed.

(** *** Reading the cart, again *)

Lemma sumZ_ge_length (l : list Z) :
  (forall q, In q l -> 1 <= q) -> Z.of_nat (length l) <= sumZ l.
Proof.
  induction l as [| q l IH]; simpl; [lia |]. intros H.
  pose proof (H q (or_introl eq_refl)).
  assert (Z.of_nat (length l) <= sumZ l) by (apply IH; intros; apply H; by right).
  unfold sumZ in *. lia.
Qed.

(** X10. For a stored cart whose totalItems is the sum of its quantities
    and whose quantities are at least 1, the lines getCart answers with
    are the
    lines it leaves stored: every line of an unavailable product is gone
    from the database too. *)
Theorem getCart_stores_what_it_answers (user : string) (w : World)
    (c : Cart.t) :
  Cart_findOne w user = Some c ->
  Cart.totalItems c = sumZ (map Item.quantity (Cart.items c)) ->
  (forall it, In it (Cart.items c) -> 1 <= Item.quantity it) ->
  exists cart,
    data (getCart user w).1 = Some (DPopulated cart)
    /\ PCart.items cart
       = List.filter itemAvailable (map (populateItem w) (Cart.items c))
    /\ storedItems (getCart user w).2 user = map PItem.item (PCart.items cart)
    /\ forall it,
         In it (storedItems (getCart user w).2 user) ->
         In it (Cart.items c)
         /\ exists p, Product_findById w (Item.product it) = Some p
                      /\ Product.isActive p = true.
Proof.
  intros Hc Hti Hq.
  set (kept := List.filter itemAvailable (map (populateItem w) (Cart.items c))).
  assert (storedItems (getCart user w).2 user = map PItem.item kept) as Hst.
  { unfold getCart. rewrite Hc. simpl. fold kept.
    destruct (Z.of_nat (length kept) =? Cart.totalItems c) eqn:E; simpl.
    - apply Z.eqb_eq in E. unfold storedItems. rewrite Hc.
      assert (length kept = length (map (populateItem w) (Cart.items c)))
        as Hlen.
      { pose proof (List.filter_length_le itemAvailable
                      (map (populateItem w) (Cart.items c))) as Hle.
        fold kept in Hle. rewrite length_map in *.
        pose proof (sumZ_ge_length (map Item.quantity (Cart.items c))) as Hs.
        rewrite length_map in Hs.
        assert (Z.of_nat (length (Cart.items c))
                <= sumZ (map Item.quantity (Cart.items c))).
        { apply Hs. intros q Hin. apply in_map_iff in Hin as (it & <- & Hit).
          by apply Hq. }
        lia. }
      apply filter_same_length in Hlen. fold kept in Hlen. rewrite Hlen.
      rewrite map_map. simpl. by rewrite map_id.
    - unfold storedItems, Cart_findOne. simpl. by rewrite lookup_insert_eq. }
  assert (exists cart, data (getCart user w).1 = Some (DPopulated cart)
                       /\ PCart.items cart = kept) as (cart & Hd & Hk).
  { unfold getCart. rewrite Hc. simpl. fold kept.
    destruct (negb _); simpl; eexists; split; reflexivity. }
  exists cart. split; [exact Hd |]. split; [exact Hk |].
  rewrite Hk. split; [exact Hst |].
  intros it Hit. rewrite Hst in Hit.
  apply in_map_iff in Hit as (pit & <- & Hpit).
  apply filter_In in Hpit as [Hpit Hav].
  apply in_map_iff in Hpit as (it & <- & Hit). simpl.
  split; [exact Hit |].
  unfold itemAvailable, populateItem in Hav. simpl in Hav.
  destruct (Product_findById w (Item.product it)) as [p|]; [| done].
  by exists p.
Qed.

Lemma getCart_stores_what_it_answers_witness :
  exists cart,
    data (getCart "u1" market).1 = Some (DPopulated cart)
    /\ PCart.items cart
       = List.filter itemAvailable
           (map (populateItem market) (storedItems market "u1"))
    /\ storedItems (getCart "u1" market).2 "u1"
       = map PItem.item (PCart.items cart)
    /\ forall it,
         In it (storedItems (getCart "u1" market).2 "u1") ->
         In it (storedItems market "u1")
         /\ exists p, Product_findById market (Item.product it) = Some p
                      /\ Product.isActive p = true.
Proof.
  apply (getCart_stores_what_it_answers "u1" market
           (recomputeTotals
              (Cart.mk [Item.mk "p1" 2 8; Item.mk "p2" 1 5; Item.mk "p3" 4 7;
                        Item.mk "p4" 1 1] 0 0%Q))).
  - vm_compute. reflexivity.
  - reflexivity.
  - intros it Hit. simpl in Hit.
    destruct Hit as [<- | [<- | [<- | [<- | []]]]]; simpl; lia.
Defined.

Example market_read :
  storedItems (getCart "u1" market).2 "u1"
  = [Item.mk "p1" 2 8; Item.mk "p3" 4 7].
Proof. vm_compute. reflexivity. Qed.

(** X11. For a user without a cart getCart stores an empty cart with zero
    totals and answers with it; a second getCart answers the same and
    writes nothing. *)
Theorem getCart_creates_once (user : string) (w : World) :
  Cart_findOne w user = None ->
  let w1 := (getCart user w).2 in
  (getCart user w).1
  = mkResponse 200 true None (Some (DPopulated (PCart.mk [] 0 0%Q)))
  /\ Cart_findOne w1 user = Some (Cart.mk [] 0 0%Q)
  /\ writes w1 = writes w ++ [CartCreated user]
  /\ products w1 = products w
  /\ getCart user w1 = ((getCart user w).1, w1).
Proof.
  intros Hc w1.
  assert (w1 = mkWorld (<[user := Cart.mk [] 0 0%Q]> (carts w)) (products w)
                       (writes w ++ [CartCreated user])) as Hw1.
  { unfold w1, getCart. by rewrite Hc. }
  assert (Cart_findOne w1 user = Some (Cart.mk [] 0 0%Q)) as Hc1.
  { rewrite Hw1. unfold Cart_findOne. simpl. by rewrite lookup_insert_eq. }
  assert ((getCart user w).1
          = mkResponse 200 true None (Some (DPopulated (PCart.mk [] 0 0%Q))))
    as Hr.
  { unfold getCart. by rewrite Hc. }
  split; [exact Hr |]. split; [exact Hc1 |].
  split; [by rewrite Hw1 |]. split; [by rewrite Hw1 |].
  rewrite Hr. unfold getCart. by rewrite Hc1.
Qed.

Lemma getCart_creates_once_witness :
  let w1 := (getCart "u2" shop3).2 in
  (getCart "u2" shop3).1
  = mkResponse 200 true None (Some (DPopulated (PCart.mk [] 0 0%Q)))
  /\ Cart_findOne w1 "u2" = Some (Cart.mk [] 0 0%Q)
  /\ writes w1 = writes shop3 ++ [CartCreated "u2"]
  /\ products w1 = products shop3
  /\ getCart "u2" w1 = ((getCart "u2" shop3).1, w1).
Proof.
  apply (getCart_creates_once "u2" shop3). vm_compute. reflexivity.
Defined.

(** *** Coupons, again *)

(** X12. applyCoupon refuses every code but SAVE10, WELCOME20 and FLAT50 with
    400, whatever the cart.  For a known code and a cart with items whose
    total is a double, not negative and below 2^1019, the discount and
    the final price are finite and both lie between zero and the
    total. *)
Theorem applyCoupon_within_total (user code : string) (w : World) :
  (code <> "SAVE10"%string -> code <> "WELCOME20"%string ->
   code <> "FLAT50"%string ->
   applyCoupon user code w = (fail 400 [Lit "Invalid coupon code"], w))
  /\ (forall res,
        data (applyCoupon user code w).1 = Some (DCoupon res) ->
        let total := CouponResult.originalPrice res in
        isDouble total = true -> (0 <= total)%Q -> (total < pow2 1019)%Q ->
        exists d f,
          CouponResult.discountAmount res = Fin d
          /\ CouponResult.finalPrice res = Fin f
          /\ (0 <= d)%Q /\ (d <= total)%Q /\ (0 <= f)%Q /\ (f <= total)%Q).
Proof.
  split.
  - intros H1 H2 H3. unfold applyCoupon.
    destruct (lookupCoupon code validCoupons) as [coupon|] eqn:E;
      [| reflexivity].
    apply lookupCoupon_known in E. intuition congruence.
  - intros res. unfold applyCoupon.
    destruct (lookupCoupon code validCoupons) as [coupon|] eqn:E; [| done].
    destruct (Cart_findOne w user) as [cart|]; [| done].
    destruct (length (Cart.items cart) =? 0)%nat; [done |].
    simpl. intros [= <-]. simpl. intros Hd Hpos Hmax.
    set (total := Cart.totalPrice cart) in *.
    apply lookupCoupon_known in E
      as [[_ ->] | [[_ ->] | [_ ->]]]; unfold couponDiscount; simpl.
    + destruct (percentage_within total 10 Hd Hpos Hmax)
        as (d & f & Hdd & Hf & Hb); [lra | lra |].
      exists d, f. rewrite Hdd. by split.
    + destruct (percentage_within total 20 Hd Hpos Hmax)
        as (d & f & Hdd & Hf & Hb); [lra | lra |].
      exists d, f. rewrite Hdd. by split.
    + pose proof (Q.le_min_r 50 total) as Hmin.
      assert (0 <= Qmin 50 total)%Q as Hmin0.
      { destruct (Q.min_spec 50 total) as [[_ Hm] | [_ Hm]]; rewrite Hm; lra. }
      destruct (roundDouble_between (total - Qmin 50 total) total Hd)
        as (f & Hf & Hf0 & Hft); [lra | lra |].
      exists (Qmin 50 total), f. by rewrite Hf.
Qed.

(** SAVE10 on a total of 19.99. *)
Lemma applyCoupon_within_total_witness :
  exists d f,
    couponDiscount (Coupon.mk 10 percentage) double_19_99 = Fin d
    /\ subD double_19_99 (couponDiscount (Coupon.mk 10 percentage)
                                          double_19_99) = Fin f
    /\ (0 <= d)%Q /\ (d <= double_19_99)%Q
    /\ (0 <= f)%Q /\ (f <= double_19_99)%Q.
Proof.
  refine (proj2 (applyCoupon_within_total "u1" "SAVE10" bench)
            (CouponResult.mk "SAVE10" (Coupon.mk 10 percentage) double_19_99
               (couponDiscount (Coupon.mk 10 percentage) double_19_99)
               (subD double_19_99
                     (couponDiscount (Coupon.mk 10 percentage) double_19_99)))
            _ _ _ _).
  - vm_compute. reflexivity.
  - vm_compute. reflexivity.
  - by vm_compute.
  - by apply Qle_bool_false.
Defined.

(** Beyond that range the product overflows: on a total of 2^1023 the
    discount of SAVE10 is Infinity and the final price -Infinity. *)
Example discount_overflows :
  isDouble (pow2 1023) = true
  /\ couponDiscount (Coupon.mk 10 percentage) (pow2 1023) = PInf
  /\ subD (pow2 1023) (couponDiscount (Coupon.mk 10 percentage) (pow2 1023))
     = NInf.
Proof. vm_compute. repeat split. Qed.

(** ** Further properties of the catalogue *)

Lemma deleteProduct_world id w p :
  Product_findById w id = Some p ->
  (deleteProduct id w).2
  = mkWorld (carts w) (<[id := withActive p false]> (products w))
            (writes w ++ [ProductSaved id]).
Proof. intros Hp. unfold deleteProduct. by rewrite Hp. Qed.

(** X13. Once a product is deleted, no cart accepts it and no cart shows it:
    addToCart answers 404, updateCartItem does not succeed, the cart that
    getCart answers with has no line for it, and validateCart leaves no
    line for it in the stored cart. *)
Theorem deleted_product_leaves_carts (id : string) (w : World)
    (p : Product.t) :
  Product_findById w id = Some p ->
  let w' := (deleteProduct id w).2 in
  (forall user quantity,
      addToCart user id quantity w' = (fail 404 msgNotFoundOrInactive, w'))
  /\ (forall user quantity,
        success (updateCartItem user id quantity w').1 = false)
  /\ (forall user cart,
        data (getCart user w').1 = Some (DPopulated cart) ->
        ~ In id (map (fun item => Item.product (PItem.item item))
                     (PCart.items cart)))
  /\ (forall user, ~ In id (cartProducts (validateCart user w').2 user)).
Proof.
  intros Hp w'.
  assert (Product_findById w' id = Some (withActive p false)) as Hid.
  { unfold w'. rewrite (deleteProduct_world id w p Hp).
    unfold Product_findById. simpl. by rewrite lookup_insert_eq. }
  split; [| split; [| split]].
  - intros user quantity. unfold addToCart.
    by rewrite (findByIdCast_exact _ _ _ Hid).
  - intros user quantity. unfold updateCartItem. rewrite Hid. simpl.
    repeat case_match; reflexivity.
  - intros user cart Hd Hin.
    apply in_map_iff in Hin as (item & Hprod & Hitem).
    assert (exists items,
               PCart.items cart = List.filter itemAvailable
                                    (map (populateItem w') items))
      as [items Hitems].
    { exists (storedItems w' user). unfold getCart, storedItems in *.
      destruct (Cart_findOne w' user) as [c|]; simpl in *.
      - destruct (negb _); simpl in Hd; by simplify_eq.
      - by simplify_eq. }
    rewrite Hitems in Hitem. apply filter_In in Hitem as [Hitem Hav].
    apply in_map_iff in Hitem as (it & <- & Hit).
    unfold itemAvailable, populateItem in Hav. simpl in *.
    rewrite Hprod, Hid in Hav. discriminate Hav.
  - intros user Hin. unfold cartProducts in Hin.
    rewrite validateCart_stored in Hin.
    apply in_map_iff in Hin as (it & Hprod & Hit).
    apply in_kept_items in Hit as [_ Hk].
    unfold keptb, populateItem in Hk. simpl in Hk.
    rewrite Hprod, Hid in Hk. discriminate Hk.
Qed.

Lemma deleted_product_leaves_carts_witness :
  let w' := (deleteProduct "p1" shop3).2 in
  (forall user quantity,
      addToCart user "p1" quantity w' = (fail 404 msgNotFoundOrInactive, w'))
  /\ (forall user quantity,
        success (updateCartItem user "p1" quantity w').1 = false)
  /\ (forall user cart,
        data (getCart user w').1 = Some (DPopulated cart) ->
        ~ In "p1"%string
             (map (fun item => Item.product (PItem.item item))
                  (PCart.items cart)))
  /\ (forall user, ~ In "p1"%string
                        (cartProducts (validateCart user w').2 user)).
Proof.
  apply (deleted_product_leaves_carts "p1" shop3 widget).
  vm_compute. reflexivity.
Defined.

Example deleted_widget_leaves_cart :
  let w' := (deleteProduct "p1" shop3).2 in
  storedItems w' "u1" = [Item.mk "p1" 3 10]
  /\ storedItems (validateCart "u1" w').2 "u1" = []
  /\ storedItems (getCart "u1" w').2 "u1" = [].
Proof. vm_compute. repeat split. Qed.

(** X14. An update that sets isActive to true undoes the deletion of an
    active product: the products are again what they were, and the
    product is listed again. *)
Theorem deletion_undone_by_update (id : string) (w : World) (p : Product.t) :
  Product_findById w id = Some p ->
  Product.isActive p = true ->
  let w' := (updateProduct id (onlyActive true) (deleteProduct id w).2).2 in
  products w' = products w
  /\ carts w' = carts w
  /\ forall regex_i text_search q,
       listed (getProducts regex_i text_search q w').1
       = listed (getProducts regex_i text_search q w).1.
Proof.
  intros Hp Hact w'.
  assert (products w' = products w) as Hprod.
  { unfold w'. rewrite (deleteProduct_world id w p Hp).
    unfold updateProduct, Product_findByIdAndUpdate, Product_findById.
    simpl. rewrite lookup_insert_eq. simpl. rewrite insert_insert_eq.
    apply insert_id. unfold Product_findById in Hp. rewrite Hp. f_equal.
    destruct p. simpl in *. by subst. }
  split; [exact Hprod |]. split.
  - unfold w'. rewrite (deleteProduct_world id w p Hp).
    unfold updateProduct, Product_findByIdAndUpdate, Product_findById.
    simpl. by rewrite lookup_insert_eq.
  - intros regex_i text_search q. simpl. unfold Product_find.
    by rewrite Hprod.
Qed.

Lemma deletion_undone_by_update_witness :
  let w' := (updateProduct "p1" (onlyActive true)
               (deleteProduct "p1" market).2).2 in
  products w' = products market
  /\ carts w' = carts market
  /\ forall regex_i text_search q,
       listed (getProducts regex_i text_search q w').1
       = listed (getProducts regex_i text_search q market).1.
Proof.
  apply (deletion_undone_by_update "p1" market widget);
    vm_compute; reflexivity.
Defined.

(** *** Ratings, again *)

Lemma sumZ_ratings_bounds (reviews : list Review.t) :
  (forall r, In r reviews -> 1 <= Review.rating r <= 5) ->
  Z.of_nat (length reviews) <= sumZ (map Review.rating reviews)
  /\ sumZ (map Review.rating reviews) <= 5 * Z.of_nat (length reviews).
Proof.
  induction reviews as [| r reviews IH]; intros H; [simpl; lia |].
  destruct IH as [IH1 IH2]; [intros r' Hr'; apply H; by right |].
  pose proof (H r (or_introl eq_refl)). simpl length. simpl map.
  unfold sumZ in *. simpl foldr. lia.
Qed.

(** X15. With every review rated from 1 to 5, calculateAverageRating sets an
    average from 1 to 5 when there are reviews and 0 when there are none:
    the average always passes the schema's bounds 0 and 5. *)
Theorem average_within_bounds (p : Product.t) :
  (forall r, In r (Product.reviews p) -> 1 <= Review.rating r <= 5) ->
  let average := Product.ratings_average (calculateAverageRating p) in
  (Product.reviews p = [] -> average = 0%Q)
  /\ (Product.reviews p <> [] -> (1 <= average /\ average <= 5)%Q)
  /\ (0 <= average /\ average <= 5)%Q.
Proof.
  intros Hr. unfold calculateAverageRating.
  destruct (Product.reviews p) as [| r reviews] eqn:Hrev.
  { simpl. split; [done |]. split; [done |]. split; lra. }
  cbn [length Nat.eqb]. cbv beta iota zeta. unfold withRatings.
  cbn [Product.ratings_average].
  rewrite foldl_rating_sum, Z.add_0_l.
  destruct (sumZ_ratings_bounds (r :: reviews) Hr) as [Hlo Hhi].
  set (s := sumZ (map Review.rating (r :: reviews))) in *.
  set (n := Z.of_nat (length (r :: reviews))) in *.
  change (Z.of_nat (S (length reviews))) with n.
  assert (0 < n) as Hn by (unfold n; simpl; lia).
  assert (0 < inject_Z n)%Q as Hn'.
  { change 0%Q with (inject_Z 0). by rewrite <- Zlt_Qlt. }
  assert (1 <= inject_Z s / inject_Z n)%Q as Hm1.
  { apply Qle_shift_div_l; [exact Hn' |]. rewrite Qmult_1_l.
    by rewrite <- Zle_Qle. }
  assert (inject_Z s / inject_Z n <= 5)%Q as Hm5.
  { apply Qle_shift_div_r; [exact Hn' |].
    change 5%Q with (inject_Z 5). rewrite <- inject_Z_mult.
    by rewrite <- Zle_Qle. }
  set (m := (inject_Z s / inject_Z n)%Q) in *. clearbody m.
  assert (10 <= Math_round (m * 10) <= 50) as [Hk1 Hk2].
  { unfold Math_round. split.
    - assert (Qfloor (inject_Z 10) <= Qfloor (m * 10 + (1 # 2))) as H.
      { apply Qfloor_resp_le. change (inject_Z 10) with 10%Q. lra. }
      by rewrite Qfloor_Z in H.
    - assert (Qfloor (m * 10 + (1 # 2)) <= Qfloor (101 # 2)) as H.
      { apply Qfloor_resp_le. lra. }
      exact H. }
  rewrite Zle_Qle in Hk1, Hk2.
  change (inject_Z 10) with 10%Q in Hk1. change (inject_Z 50) with 50%Q in Hk2.
  generalize dependent (inject_Z (Math_round (m * 10))). intros k Hk1 Hk2.
  change (k / 10)%Q with (k * (1 # 10))%Q.
  split; [done |]. split; [intros _; split; lra | split; lra].
Qed.

Lemma average_within_bounds_witness :
  (1 <= Product.ratings_average
          (calculateAverageRating
             (withReviews widget [Review.mk "alice" 5 "A great widget";
                                  Review.mk "bob" 4 "A good widget"]))
   /\ Product.ratings_average
        (calculateAverageRating
           (withReviews widget [Review.mk "alice" 5 "A great widget";
                                Review.mk "bob" 4 "A good widget"]))
      <= 5)%Q.
Proof.
  refine (proj1 (proj2 (average_within_bounds
            (withReviews widget [Review.mk "alice" 5 "A great widget";
                                 Review.mk "bob" 4 "A good widget"]) _)) _).
  - intros r Hr. simpl in Hr. destruct Hr as [<- | [<- | []]]; simpl; lia.
  - simpl. congruence.
Defined.

Lemma find_reviewer (user : string) (reviews : list Review.t) :
  is_Some (List.find (fun review => String.eqb (Review.user review) user)
                     reviews)
  <-> In user (map Review.user reviews).
Proof.
  induction reviews as [| r reviews IH]; simpl.
  - split; [intros [x Hx]; discriminate Hx | done].
  - destruct (String.eqb_spec (Review.user r) user) as [-> | Hne].
    + split; [by left | by eexists].
    + rewrite IH. split; [by right | by intros [? | ?]].
Qed.

(** X16. A user reviews a product once: addReview answers 400 and changes
    nothing when the user is among the reviewers, and otherwise appends
    the review, counts one more, and leaves price, stock and isActive as
    they were.  Reviewers that were distinct stay distinct. *)
Theorem one_review_per_user (id user : string) (rating : Z)
    (comment : string) (w : World) (p : Product.t) :
  Product_findById w id = Some p ->
  let out := addReview id user rating comment w in
  (In user (map Review.user (Product.reviews p)) ->
   out = (fail 400 [Lit "You have already reviewed this product"], w))
  /\ (~ In user (map Review.user (Product.reviews p)) ->
      exists p',
        Product_findById out.2 id = Some p'
        /\ status out.1 = 201
        /\ Product.reviews p'
           = Product.reviews p ++ [Review.mk user rating comment]
        /\ Product.ratings_count p'
           = Z.of_nat (length (Product.reviews p)) + 1
        /\ Product.price p' = Product.price p
        /\ Product.inventory_quantity p' = Product.inventory_quantity p
        /\ Product.isActive p' = Product.isActive p)
  /\ (NoDup (map Review.user (Product.reviews p)) ->
      forall p', Product_findById out.2 id = Some p' ->
                 NoDup (map Review.user (Product.reviews p'))).
Proof.
  intros Hp out.
  assert (In user (map Review.user (Product.reviews p)) ->
          out = (fail 400 [Lit "You have already reviewed this product"], w))
    as Hdup.
  { intros Hin. apply find_reviewer in Hin as [x Hx].
    unfold out, addReview. by rewrite Hp, Hx. }
  assert (~ In user (map Review.user (Product.reviews p)) ->
          out = (mkResponse 201 true (Some [Lit "Review added successfully"])
                   (Some (DReview (Review.mk user rating comment))),
                 Product_save id
                   (calculateAverageRating
                      (withReviews p (Product.reviews p
                                      ++ [Review.mk user rating comment]))) w))
    as Hnew.
  { intros Hnot. unfold out, addReview. rewrite Hp.
    destruct (List.find _ _) eqn:E; [| reflexivity].
    destruct Hnot. apply find_reviewer. by eexists. }
  assert (forall q, Product.reviews (calculateAverageRating q)
                    = Product.reviews q) as Hrev.
  { intros q. unfold calculateAverageRating. by destruct (_ =? _)%nat. }
  split; [exact Hdup |]. split.
  - intros Hnot. rewrite (Hnew Hnot). eexists. split.
    { unfold Product_findById, Product_save. simpl.
      by rewrite lookup_insert_eq. }
    split; [reflexivity |]. split; [by rewrite Hrev |].
    unfold calculateAverageRating. simpl. rewrite length_app. simpl.
    destruct (length (Product.reviews p) + 1 =? 0)%nat eqn:E.
    { apply Nat.eqb_eq in E. lia. }
    simpl. repeat split. lia.
  - intros Hnd p'.
    destruct (List.in_dec String.string_dec user
                (map Review.user (Product.reviews p))) as [Hin | Hnot].
    + rewrite (Hdup Hin). simpl. rewrite Hp. by intros [= <-].
    + rewrite (Hnew Hnot). unfold Product_findById, Product_save. simpl.
      rewrite lookup_insert_eq. intros [= <-]. rewrite Hrev. simpl.
      rewrite map_app. simpl. apply NoDup_app. split; [exact Hnd |].
      split; [| apply NoDup_singleton].
      intros x Hx Hx'. apply list_elem_of_singleton in Hx'. subst x.
      by apply list_elem_of_In in Hx.
Qed.

Lemma one_review_per_user_witness :
  addReview "p1" "bob" 1 "Changed my mind" reviewed
  = (fail 400 [Lit "You have already reviewed this product"], reviewed).
Proof.
  refine (proj1 (one_review_per_user "p1" "bob" 1 "Changed my mind" reviewed
                   (calculateAverageRating
                      (withReviews
                         (calculateAverageRating
                            (withReviews
                               (calculateAverageRating
                                  (withReviews widget
                                     [Review.mk "alice" 5 "A great widget"]))
                               [Review.mk "alice" 5 "A great widget";
                                Review.mk "bob" 4 "A good widget"]))
                         [Review.mk "alice" 5 "A great widget";
                          Review.mk "bob" 4 "A good widget";
                          Review.mk "carol" 3 "It does the job"])) _) _).
  - vm_compute. reflexivity.
  - vm_compute. auto.
Defined.

(** *** Sorting *)

Section Sorting.

Context {A : Type} (le : A -> A -> bool).

Lemma insertBy_In x a l : In x (insertBy le a l) <-> x = a \/ In x l.
Proof.
  induction l as [| y l IH]; simpl.
  - intuition.
  - destruct (le a y); simpl; [intuition |]. rewrite IH. intuition.
Qed.

Lemma sortBy_In x l : In x (sortBy le l) <-> In x l.
Proof.
  unfold sortBy. induction l as [| a l IH]; simpl; [done |].
  rewrite insertBy_In, IH. intuition.
Qed.

Lemma insertBy_length a l : length (insertBy le a l) = S (length l).
Proof.
  induction l as [| y l IH]; simpl; [done |].
  destruct (le a y); simpl; [done | by rewrite IH].
Qed.

Lemma sortBy_length l : length (sortBy le l) = length l.
Proof.
  unfold sortBy. induction l as [| a l IH]; simpl; [done |].
  by rewrite insertBy_length, IH.
Qed.

Hypothesis le_total : forall a b, le a b = false -> le b a = true.

Lemma insertBy_Sorted a l :
  Sorted (fun x y => le x y = true) l ->
  Sorted (fun x y => le x y = true) (insertBy le a l).
Proof.
  induction 1 as [| y l Hs IH Hd]; simpl.
  - constructor; constructor.
  - destruct (le a y) eqn:E.
    + constructor; [by constructor | by constructor].
    + constructor; [exact IH |].
      destruct l as [| z l]; simpl.
      * constructor. by apply le_total.
      * destruct (le a z); constructor; [by apply le_total |].
        by inversion Hd.
Qed.

Lemma sortBy_Sorted l : Sorted (fun x y => le x y = true) (sortBy le l).
Proof.
  unfold sortBy. induction l as [| a l IH]; simpl; [constructor |].
  by apply insertBy_Sorted.
Qed.

End Sorting.

Lemma Sorted_drop {A} (R : A -> A -> Prop) n l :
  Sorted R l -> Sorted R (drop n l).
Proof.
  revert l. induction n as [| n IH]; intros l Hs; [by rewrite drop_0 |].
  destruct l as [| a l]; [done |]. simpl. apply IH. by inversion Hs.
Qed.

Lemma Sorted_take {A} (R : A -> A -> Prop) n l :
  Sorted R l -> Sorted R (take n l).
Proof.
  revert l. induction n as [| n IH]; intros l Hs; [constructor |].
  destruct l as [| a l]; [constructor |]. simpl.
  inversion Hs as [| ? ? Hs' Hd]; subst. constructor; [by apply IH |].
  destruct n, l; simpl; constructor. by inversion Hd.
Qed.

Lemma insertSorted_insertBy le d l :
  insertSorted le d l = insertBy (fun a b => le a.2 b.2) d l.
Proof.
  induction l as [| e l IH]; simpl; [done |]. by rewrite IH.
Qed.

Lemma foldr_insertSorted le l :
  foldr (insertSorted le) [] l = sortBy (fun a b => le a.2 b.2) l.
Proof.
  unfold sortBy. induction l as [| d l IH]; simpl; [done |].
  by rewrite IH, insertSorted_insertBy.
Qed.

Lemma comparePath_antisym path a b :
  comparePath path a b = CompOpp (comparePath path b a).
Proof.
  unfold comparePath.
  repeat (destruct (String.eqb path _);
          [first [apply String.compare_antisym | symmetry; apply Qcompare_antisym
                 | apply Z.compare_antisym] |]).
  reflexivity.
Qed.

Lemma before_total path descending a b :
  before path descending a b = false -> before path descending b a = true.
Proof.
  unfold before. rewrite (comparePath_antisym path b a).
  destruct (comparePath path a b), descending; simpl; done.
Qed.

(** *** Inventory *)

Lemma withInventory_same p :
  withInventory p (Product.inventory_quantity p)
                (Product.inventory_lowStockThreshold p) = p.
Proof. by destruct p. Qed.

(** X17. updateInventory answers 404 for an unknown product and 400 for a
    negative quantity, changing nothing.  Otherwise it stores the product
    with the inventory fields the body gave and the others as they were,
    answers with the inventory, and touches no other product and no cart;
    with an empty body the products stay as they are. *)
Theorem updateInventory_outcomes (id : string)
    (quantity lowStockThreshold : option Z) (w : World) :
  let out := updateInventory id quantity lowStockThreshold w in
  (Product_findById w id = None -> out = (refuse 404 msgProductNotFound, w))
  /\ (forall q, quantity = Some q -> q < 0 ->
        is_Some (Product_findById w id) ->
        Reply.status out.1 = 400 /\ Reply.success out.1 = false /\ out.2 = w)
  /\ (forall p,
        Product_findById w id = Some p ->
        (forall q, quantity = Some q -> 0 <= q) ->
        let quantity' := default (Product.inventory_quantity p) quantity in
        let threshold' :=
          default (Product.inventory_lowStockThreshold p) lowStockThreshold in
        Reply.data out.1 = Some (quantity', threshold')
        /\ Product_findById out.2 id
           = Some (withInventory p quantity' threshold')
        /\ (forall other, other <> id ->
              Product_findById out.2 other = Product_findById w other)
        /\ carts out.2 = carts w
        /\ (quantity = None -> lowStockThreshold = None ->
            products out.2 = products w)).
Proof.
  unfold updateInventory. split; [| split].
  - by intros ->.
  - intros q -> Hq [p ->]. simpl.
    destruct (Z.leb_spec 0 q) as [|_]; [lia | done].
  - intros p Hp Hq. rewrite Hp.
    assert (optb (fun q => 0 <=? q) quantity = true) as ->.
    { destruct quantity as [q|]; [| done]. simpl. apply Z.leb_le. by apply Hq. }
    simpl. split; [reflexivity |].
    unfold Product_findById in *. simpl.
    split; [by rewrite lookup_insert_eq |].
    split; [intros other Hne; by rewrite lookup_insert_ne |].
    split; [reflexivity |].
    intros -> ->. simpl. rewrite withInventory_same. by apply insert_id.
Qed.

Lemma updateInventory_outcomes_witness :
  Reply.data (updateInventory "p1" (Some 0) None shop3).1 = Some (0, 10)
  /\ Product_findById (updateInventory "p1" (Some 0) None shop3).2 "p1"
     = Some (withInventory widget 0 10).
Proof.
  destruct (proj2 (proj2 (updateInventory_outcomes "p1" (Some 0) None shop3))
              widget) as (H1 & H2 & _).
  - vm_compute. reflexivity.
  - intros q [= <-]. lia.
  - split; [exact H1 | exact H2].
Defined.

Lemma lineQuantity_carts w w' user productId :
  carts w' = carts w ->
  lineQuantity w' user productId = lineQuantity w user productId.
Proof.
  intros H. unfold lineQuantity, storedItems, Cart_findOne. by rewrite H.
Qed.

(** X18. The stock that updateInventory sets is the limit that addToCart
    enforces from then on, for a product asked for under the id the
    database prints: when the product is active, adding succeeds exactly
    when the requested quantity, alone and together with what the cart
    already holds, is within the new stock. *)
Theorem new_stock_is_enforced (id user : string) (n : Z)
    (lowStockThreshold quantity : option Z) (w : World) (p : Product.t) :
  canonId id = id ->
  Product_findById w id = Some p ->
  Product.isActive p = true ->
  0 <= n ->
  let w' := (updateInventory id (Some n) lowStockThreshold w).2 in
  success (addToCart user id quantity w').1 = true
  <-> default 1 quantity <= n
      /\ lineQuantity w user id + default 1 quantity <= n.
Proof.
  intros Hcanon Hp Hact Hn w'.
  set (p' := withInventory p n
               (default (Product.inventory_lowStockThreshold p)
                        lowStockThreshold)).
  assert (Product_findById w' id = Some p' /\ carts w' = carts w)
    as [Hp' Hcarts].
  { unfold w', updateInventory. rewrite Hp. simpl.
    destruct (Z.leb_spec 0 n) as [_|]; [| lia]. simpl.
    unfold Product_findById. simpl. by rewrite lookup_insert_eq. }
  rewrite <- (lineQuantity_carts w w' user id Hcarts).
  split.
  - intros Hok.
    destruct (addToCart_outcome user id quantity w')
      as [[Hfail _] | (product & Hfound & _ & Hq & Hsum)]; [congruence |].
    rewrite (findByIdCast_canon _ _ Hcanon), Hp' in Hfound.
    by simplify_eq.
  - intros [Hq Hsum].
    by apply (addToCart_stored user id quantity w' p');
      [apply findByIdCast_exact | ..].
Qed.

Lemma new_stock_is_enforced_witness :
  success (addToCart "u1" "p1" (Some 1)
             (updateInventory "p1" (Some 3) None shop3).2).1 = true
  <-> default 1 (Some 1) <= 3
      /\ lineQuantity shop3 "u1" "p1" + default 1 (Some 1) <= 3.
Proof.
  apply (new_stock_is_enforced "p1" "u1" 3 None (Some 1) shop3 widget).
  - reflexivity.
  - vm_compute. reflexivity.
  - vm_compute. reflexivity.
  - lia.
Defined.

(** Lowering the stock to what the cart holds refuses one more, and
    raising it by one accepts it. *)
Example one_more_after_restock :
  lineQuantity shop3 "u1" "p1" = 3
  /\ success (addToCart "u1" "p1" (Some 1)
                (updateInventory "p1" (Some 3) None shop3).2).1 = false
  /\ success (addToCart "u1" "p1" (Some 1)
                (updateInventory "p1" (Some 4) None shop3).2).1 = true.
Proof. vm_compute. repeat split. Qed.

Example sold_out_refuses_more :
  success (addToCart "u1" "p1" (Some 1)
             (updateInventory "p1" (Some 3) None shop3).2).1 = false
  /\ success (addToCart "u2" "p1" (Some 3)
                (updateInventory "p1" (Some 3) None shop3).2).1 = true.
Proof. vm_compute. split; reflexivity. Qed.

(** X19. getLowStockProducts queries the stored products that are active
    and whose lowStock virtual is true, in ascending order of quantity,
    and changes nothing.  When there is none it answers 200 with an
    empty list and the count 0; as soon as there is one it answers 400
    with the message of the TypeError and no data. *)
Theorem low_stock_report (w : World) :
  (forall id p,
      In (id, p) (lowStockQuery w)
      <-> Product_findById w id = Some p
          /\ Product.isActive p = true /\ lowStock p = true)
  /\ Sorted (fun a b => Product.inventory_quantity a.2
                        <= Product.inventory_quantity b.2) (lowStockQuery w)
  /\ (getLowStockProducts w).2 = w
  /\ ((forall id p,
         Product_findById w id = Some p ->
         Product.isActive p = true -> lowStock p = false) ->
      (getLowStockProducts w).1 = Reply.mk 200 true None (Some ([], 0%nat)))
  /\ (forall id p,
        Product_findById w id = Some p ->
        Product.isActive p = true -> lowStock p = true ->
        (getLowStockProducts w).1 = refuse 400 msgImagesUndefined).
Proof.
  assert (forall id p,
            In (id, p) (lowStockQuery w)
            <-> Product_findById w id = Some p
                /\ Product.isActive p = true /\ lowStock p = true) as Hin.
  { intros id p. unfold lowStockQuery.
    rewrite foldr_insertSorted, sortBy_In, In_Product_find.
    unfold lowStockFilter, lowStock, Product_findById.
    rewrite andb_true_iff. tauto. }
  split; [exact Hin |]. split; [| split; [| split]].
  - unfold lowStockQuery. rewrite foldr_insertSorted.
    eapply Sorted_ind with
      (P := Sorted (fun a b => Product.inventory_quantity a.2
                               <= Product.inventory_quantity b.2)).
    3:{ apply (sortBy_Sorted (fun a b => byQuantity a.2 b.2)).
        intros a b. unfold byQuantity. rewrite Z.leb_gt, Z.leb_le. lia. }
    + constructor.
    + intros a l _ IH Hd. constructor; [exact IH |].
      destruct Hd as [| b l Hab]; constructor.
      unfold byQuantity in Hab. by apply Z.leb_le.
  - unfold getLowStockProducts. by destruct (lowStockQuery w).
  - intros Hnone. unfold getLowStockProducts.
    destruct (lowStockQuery w) as [| [id p] rest] eqn:E; [reflexivity |].
    destruct (proj1 (Hin id p)) as (Hp & Hact & Hlow); [by left |].
    rewrite (Hnone id p Hp Hact) in Hlow. discriminate Hlow.
  - intros id p Hp Hact Hlow. unfold getLowStockProducts.
    destruct (lowStockQuery w) as [| x rest] eqn:E; [| reflexivity].
    destruct (proj2 (Hin id p)). by repeat split.
Qed.

(** The market has the gizmo with 1 in stock. *)
Lemma low_stock_report_witness :
  (getLowStockProducts market).1 = refuse 400 msgImagesUndefined.
Proof.
  apply (proj2 (proj2 (proj2 (proj2 (low_stock_report market))))
           "p3"%string scarce).
  - vm_compute. reflexivity.
  - vm_compute. reflexivity.
  - vm_compute. reflexivity.
Defined.

(** What the query of the market finds, and the answer after the
    products were restocked above their thresholds. *)
Example market_low_stock :
  map fst (lowStockQuery market) = ["p3"; "p1"]%string
  /\ getLowStockProducts
       (updateInventory "p1" (Some 50) None
          (updateInventory "p3" (Some 50) None market).2).2
     = (Reply.mk 200 true None (Some ([], 0%nat)),
        (updateInventory "p1" (Some 50) None
           (updateInventory "p3" (Some 50) None market).2).2).
Proof. vm_compute. split; reflexivity. Qed.

(** *** Pages *)

Lemma pages_concat {A} (n m : nat) (l : list A) :
  (length l <= m * n)%nat ->
  concat (map (fun k => take n (drop (k * n) l)) (seq 0 m)) = l.
Proof.
  revert l. induction m as [| m IH]; intros l Hlen.
  - simpl in *. destruct l; [done | simpl in Hlen; lia].
  - simpl. rewrite <- seq_shift, map_map.
    etransitivity; [| apply (take_drop n l)]. f_equal.
    assert (length (drop n l) <= m * n)%nat as Hlen'
      by (rewrite length_drop; lia).
    etransitivity; [| apply (IH (drop n l) Hlen')].
    f_equal. apply map_ext. intros k. rewrite drop_drop. do 2 f_equal; lia.
Qed.

Lemma totalPages_covers (total limit : nat) :
  (1 <= limit)%nat ->
  (total <= (total + limit - 1) / limit * limit)%nat.
Proof.
  intros Hl.
  pose proof (Nat.div_mod_eq (total + limit - 1) limit) as Hd.
  pose proof (Nat.mod_upper_bound (total + limit - 1) limit) as Hm. nia.
Qed.

Lemma totalPagesOf_finite (total limit : nat) :
  (1 <= limit)%nat ->
  totalPagesOf total limit = Finite ((total + limit - 1) / limit).
Proof.
  intros Hl. unfold totalPagesOf. destruct limit; [lia |]. by destruct total.
Qed.

Lemma beforePages_spec (page total limit : nat) :
  (1 <= limit)%nat ->
  beforePages page (totalPagesOf total limit) = true
  <-> (page * limit < total)%nat.
Proof.
  intros Hl. rewrite totalPagesOf_finite by exact Hl.
  simpl. rewrite Nat.ltb_lt.
  pose proof (Nat.div_mod_eq (total + limit - 1) limit) as Hd.
  pose proof (Nat.mod_upper_bound (total + limit - 1) limit) as Hm.
  split; intros H; nia.
Qed.

Lemma page_listed regex_i text_search q w k :
  listed (getProducts regex_i text_search (withPage q k) w).1
  = db_limit (Query.limit q)
      (db_skip ((k - 1) * Query.limit q) (matching regex_i text_search q w)).
Proof. reflexivity. Qed.

(** X20. With a limit of at least 1, the pages of getProducts, taken from
    page 1 to the totalPages of the pagination block, are the matching
    products in their sorted order, each product once; hasNextPage is
    true exactly when products follow the current page, hasPrevPage when
    the page is beyond the first, and a page beyond totalPages is empty. *)
Theorem product_pages_partition
    (regex_i : string -> string -> bool)
    (text_search : string -> Product.t -> bool) (q : Query.t) (w : World) :
  (1 <= Query.limit q)%nat ->
  let block := getProductsPagination regex_i text_search q w in
  let page k := listed (getProducts regex_i text_search (withPage q k) w).1 in
  exists n,
    Pagination.totalPages block = Finite n
    /\ Pagination.total block = length (matching regex_i text_search q w)
    /\ concat (map page (seq 1 n)) = matching regex_i text_search q w
    /\ (Pagination.hasNextPage block = true
        <-> (Query.page q * Query.limit q < Pagination.total block)%nat)
    /\ (Pagination.hasPrevPage block = true <-> (1 < Query.page q)%nat)
    /\ (forall k, (n < k)%nat -> page k = []).
Proof.
  intros Hl block page.
  set (all := matching regex_i text_search q w).
  set (limit := Query.limit q) in *.
  assert (length (Product_find (listFilter regex_i text_search q) w)
          = length all) as Hlen.
  { unfold all, matching, db_sort. by rewrite foldr_insertSorted, sortBy_length. }
  assert (forall k, page k = take limit (drop ((k - 1) * limit) all)) as Hpage.
  { intros k. unfold page. rewrite page_listed. fold all limit.
    unfold db_limit, db_skip. destruct limit; [lia | reflexivity]. }
  exists ((length all + limit - 1) / limit)%nat.
  unfold block, getProductsPagination, pagination. simpl. fold limit.
  rewrite Hlen.
  split; [by apply totalPagesOf_finite |].
  split; [reflexivity |]. split.
  - rewrite <- seq_shift, map_map.
    rewrite <- (pages_concat limit ((length all + limit - 1) / limit) all)
      at 2 by (by apply totalPages_covers).
    f_equal. apply map_ext. intros k. rewrite Hpage. do 3 f_equal. lia.
  - split; [by apply beforePages_spec |].
    split; [apply Nat.ltb_lt |].
    intros k Hk. rewrite Hpage.
    rewrite drop_ge; [by rewrite take_nil |].
    pose proof (totalPages_covers (length all) limit Hl). nia.
Qed.

Lemma product_pages_partition_witness :
  let q := Query.mk 1 1 None None None None None None "price" "asc" None in
  let block := getProductsPagination anyMatch anyMatch q market in
  let page k := listed (getProducts anyMatch anyMatch (withPage q k) market).1 in
  exists n,
    Pagination.totalPages block = Finite n
    /\ Pagination.total block = length (matching anyMatch anyMatch q market)
    /\ concat (map page (seq 1 n)) = matching anyMatch anyMatch q market
    /\ (Pagination.hasNextPage block = true
        <-> (Query.page q * Query.limit q < Pagination.total block)%nat)
    /\ (Pagination.hasPrevPage block = true <-> (1 < Query.page q)%nat)
    /\ (forall k, (n < k)%nat -> page k = []).
Proof.
  apply (product_pages_partition anyMatch anyMatch
           (Query.mk 1 1 None None None None None None "price" "asc" None)
           market).
  simpl. lia.
Defined.

Example market_pages :
  let q := Query.mk 1 1 None None None None None None "price" "asc" None in
  map (fun k => map fst (listed (getProducts anyMatch anyMatch
                                   (withPage q k) market).1)) [1; 2; 3]%nat
  = [["p3"]; ["p1"]; []]%string
  /\ getProductsPagination anyMatch anyMatch q market
     = Pagination.mk 1 (Finite 2) 2 true false.
Proof. vm_compute. split; reflexivity. Qed.

Lemma db_limit_length {A} n (l : list A) :
  n <> 0%nat -> (length (db_limit n l) <= n)%nat.
Proof.
  intros Hn. destruct n as [| n]; [done |].
  change (db_limit (S n) l) with (take (S n) l). rewrite length_take. lia.
Qed.

(** X21. Every page of getProducts is ordered by the requested path in the
    requested direction, lists only stored products that pass the filter
    of the query, and has at most limit products when the limit is not
    zero; getProducts changes nothing. *)
Theorem product_page_ordered
    (regex_i : string -> string -> bool)
    (text_search : string -> Product.t -> bool) (q : Query.t) (w : World) :
  let page := listed (getProducts regex_i text_search q w).1 in
  Sorted (fun a b =>
            before (Query.sortBy q) (String.eqb (Query.sortOrder q) "desc")
                   a.2 b.2 = true) page
  /\ (Query.limit q <> 0%nat -> (length page <= Query.limit q)%nat)
  /\ (forall id p,
        In (id, p) page ->
        Product_findById w id = Some p
        /\ listFilter regex_i text_search q id p = true)
  /\ (getProducts regex_i text_search q w).2 = w.
Proof.
  simpl. split; [| split; [| split; [| reflexivity]]];
    [| | intros id p H;
         by apply In_db_limit, In_db_skip, In_db_sort, In_Product_find in H].
  - assert (Sorted (fun a b =>
              before (Query.sortBy q) (String.eqb (Query.sortOrder q) "desc")
                     a.2 b.2 = true)
              (db_sort (Query.sortBy q) (String.eqb (Query.sortOrder q) "desc")
                 (Product_find (listFilter regex_i text_search q) w))) as Hs.
    { unfold db_sort. rewrite foldr_insertSorted.
      apply (sortBy_Sorted
               (fun a b => before (Query.sortBy q)
                             (String.eqb (Query.sortOrder q) "desc") a.2 b.2)).
      intros a b. apply before_total. }
    unfold db_limit, db_skip.
    destruct (Query.limit q); [by apply Sorted_drop |].
    by apply Sorted_take, Sorted_drop.
  - intros Hl. by apply db_limit_length.
Qed.

Lemma product_page_ordered_witness :
  (length (listed (getProducts anyMatch anyMatch defaultQuery market).1)
   <= Query.limit defaultQuery)%nat.
Proof.
  apply (proj1 (proj2 (product_page_ordered anyMatch anyMatch defaultQuery
                         market))).
  simpl. congruence.
Defined.

(** *** Search and related products *)

(** X22. searchProducts answers 400 without a query.  With one, every product
    it lists is stored and active and matches the query in its name, its
    description, its brand or one of its tags; when the limit is zero or
    not below the number of such products, it lists all of them. *)
Theorem search_hits (regex_i : string -> string -> bool)
    (q : string) (limit : nat) (w : World) :
  let hit p :=
    regex_i q (Product.name p) = true
    \/ regex_i q (Product.description p) = true
    \/ regex_i q (Product.brand p) = true
    \/ exists tag, In tag (Product.tags p) /\ regex_i q tag = true in
  let found := listed (searchProducts regex_i (Some q) limit w).1 in
  searchProducts regex_i None limit w
  = (fail 400 [Lit "Search query is required"], w)
  /\ (forall id p,
        In (id, p) found ->
        Product_findById w id = Some p /\ Product.isActive p = true /\ hit p)
  /\ (limit = 0%nat
      \/ (length (Product_find (searchFilter regex_i q) w) <= limit)%nat ->
      forall id p,
        Product_findById w id = Some p -> Product.isActive p = true ->
        hit p -> In (id, p) found).
Proof.
  intros hit found.
  assert (forall id p, searchFilter regex_i q id p = true
                       <-> Product.isActive p = true /\ hit p) as Hf.
  { intros id p. unfold searchFilter, hit.
    rewrite andb_true_iff, !orb_true_iff, existsb_exists. tauto. }
  split; [reflexivity |]. split.
  - intros id p Hin. unfold found in Hin. simpl in Hin.
    apply In_db_limit, In_Product_find in Hin as [Hp Hm].
    apply Hf in Hm. tauto.
  - intros Hlim id p Hp Hact Hhit. unfold found. simpl.
    assert (db_limit limit (Product_find (searchFilter regex_i q) w)
            = Product_find (searchFilter regex_i q) w) as ->.
    { unfold db_limit. destruct limit as [| l]; [done |].
      destruct Hlim as [? | Hlen]; [done |]. by apply take_ge. }
    apply In_Product_find. split; [exact Hp |]. by apply Hf.
Qed.

Lemma search_hits_witness :
  In ("p1"%string, widget)
     (listed (searchProducts anyMatch (Some "wid"%string) 10 market).1).
Proof.
  apply (proj2 (proj2 (search_hits anyMatch "wid" 10 market))).
  - right. vm_compute. lia.
  - vm_compute. reflexivity.
  - vm_compute. reflexivity.
  - left. reflexivity.
Defined.

(** X23. getRelatedProducts answers 404 for an unknown product.  Otherwise
    the products it lists are stored, active, of the same category as
    the product, and never the product itself; when the limit is zero or
    not below their number it lists all such products. *)
Theorem related_products (id : string) (limit : nat) (w : World) :
  let related := listed (getRelatedProducts id limit w).1 in
  (Product_findById w id = None ->
   getRelatedProducts id limit w = (fail 404 msgProductNotFound, w))
  /\ (forall product,
        Product_findById w id = Some product ->
        (forall id' p,
            In (id', p) related ->
            id' <> id
            /\ Product_findById w id' = Some p
            /\ Product.isActive p = true
            /\ Product.category p = Product.category product)
        /\ (limit = 0%nat
            \/ (length (Product_find (relatedFilter id product) w)
                <= limit)%nat ->
            forall id' p,
              id' <> id -> Product_findById w id' = Some p ->
              Product.isActive p = true ->
              Product.category p = Product.category product ->
              In (id', p) related)).
Proof.
  intros related. unfold related, getRelatedProducts. split.
  - by intros ->.
  - intros product ->. simpl.
    assert (forall id' p, relatedFilter id product id' p = true
                          <-> id' <> id /\ Product.isActive p = true
                              /\ Product.category p = Product.category product)
      as Hf.
    { intros id' p. unfold relatedFilter.
      rewrite !andb_true_iff, negb_true_iff.
      destruct (String.eqb_spec id' id), (String.eqb_spec (Product.category p)
                                             (Product.category product));
        intuition congruence. }
    split.
    + intros id' p Hin.
      apply In_db_limit, In_Product_find in Hin as [Hp Hm].
      apply Hf in Hm. tauto.
    + intros Hlim id' p Hne Hp Hact Hcat.
      assert (db_limit limit (Product_find (relatedFilter id product) w)
              = Product_find (relatedFilter id product) w) as ->.
      { unfold db_limit. destruct limit as [| l]; [done |].
        destruct Hlim as [? | Hlen]; [done |]. by apply take_ge. }
      apply In_Product_find. split; [exact Hp |]. by apply Hf.
Qed.

Lemma related_products_witness :
  In ("p1"%string, widget) (listed (getRelatedProducts "p3" 4 market).1).
Proof.
  refine (proj2 (proj2 (related_products "p3" 4 market) scarce _)
            _ "p1"%string widget _ _ _ _).
  - vm_compute. reflexivity.
  - right. vm_compute. lia.
  - discriminate.
  - vm_compute. reflexivity.
  - reflexivity.
  - reflexivity.
Defined.

(** *** The main image *)

(** X24. mainImage is null exactly when the product has no images.
    Otherwise it is the url of the first image flagged as main, and the
    url of the first image when none is flagged. *)
Theorem mainImage_choice (images : list Image.t) :
  (mainImage images = None <-> images = [])
  /\ (forall img rest,
        images = img :: rest ->
        Forall (fun i => Image.isMain i = false) images ->
        mainImage images = Some (Image.url img))
  /\ (forall before img rest,
        images = before ++ img :: rest ->
        Forall (fun i => Image.isMain i = false) before ->
        Image.isMain img = true ->
        mainImage images = Some (Image.url img)).
Proof.
  unfold mainImage. split; [| split].
  - destruct (List.find Image.isMain images) eqn:E; [| by destruct images].
    split; [done |]. intros ->. discriminate E.
  - intros img rest -> Hall.
    destruct (List.find Image.isMain (img :: rest)) as [m|] eqn:E;
      [| reflexivity].
    apply find_some in E as [Hin Hm]. rewrite Forall_forall in Hall.
    apply list_elem_of_In in Hin. rewrite (Hall m Hin) in Hm. discriminate Hm.
  - intros before img rest -> Hall Hm.
    assert (List.find Image.isMain (before ++ img :: rest) = Some img) as ->;
      [| reflexivity].
    induction Hall as [| b before Hb Hall IH]; simpl.
    + by rewrite Hm.
    + by rewrite Hb.
Qed.

Lemma mainImage_choice_witness :
  mainImage [Image.mk "a.png" None false; Image.mk "b.png" None true;
             Image.mk "c.png" None true]
  = Some "b.png"%string.
Proof.
  apply (proj2 (proj2 (mainImage_choice _))
           [Image.mk "a.png" None false] (Image.mk "b.png" None true)
           [Image.mk "c.png" None true]).
  - reflexivity.
  - repeat constructor.
  - reflexivity.
Defined.

(** *** Pages of reviews *)

(** X25. getReviews answers 404 for an unknown product and never writes.  For
    a stored product and a limit of at least 1, its pages from 1 to
    totalPages are the reviews of the product, each once, newest first;
    page 0 is empty, and the pagination block counts all reviews. *)
Theorem review_pages (createdAt : Review.t -> Z) (id : string) (limit : nat)
    (w : World) :
  let page k := reviewsOf (getReviews createdAt id k limit w).1 in
  (forall k, (getReviews createdAt id k limit w).2 = w)
  /\ (Product_findById w id = None ->
      forall k, getReviews createdAt id k limit w
                = (refuse 404 msgProductNotFound, w))
  /\ (forall p,
        Product_findById w id = Some p ->
        (1 <= limit)%nat ->
        let sorted := sortBy (newerFirst createdAt) (Product.reviews p) in
        exists n,
          (forall k, snd <$> Reply.data (getReviews createdAt id k limit w).1
                     = Some (pagination k limit
                               (length (Product.reviews p))))
          /\ totalPagesOf (length (Product.reviews p)) limit = Finite n
          /\ concat (map page (seq 1 n)) = sorted
          /\ page 0%nat = []
          /\ (forall r, In r sorted <-> In r (Product.reviews p))
          /\ Sorted (fun a b => createdAt b <= createdAt a) sorted).
Proof.
  intros page. split; [| split].
  - intros k. unfold getReviews. by destruct (Product_findById w id).
  - intros Hp k. unfold getReviews. by rewrite Hp.
  - intros p Hp Hl sorted.
    assert (forall k, page (S k) = take limit (drop (k * limit) sorted))
      as Hpage.
    { intros k. unfold page, reviewsOf, getReviews. rewrite Hp. simpl.
      by rewrite Nat.sub_0_r. }
    assert (length sorted = length (Product.reviews p)) as Hlen
      by apply sortBy_length.
    exists ((length (Product.reviews p) + limit - 1) / limit)%nat.
    split; [| split; [| split; [| split; [| split]]]].
    + intros k. unfold getReviews. by rewrite Hp.
    + by apply totalPagesOf_finite.
    + rewrite <- seq_shift, map_map.
      etransitivity;
        [| apply (pages_concat limit
                    ((length (Product.reviews p) + limit - 1) / limit) sorted);
           rewrite Hlen; by apply totalPages_covers].
      apply f_equal, map_ext. intros k. apply Hpage.
    + unfold page, reviewsOf, getReviews. by rewrite Hp.
    + intros r. apply sortBy_In.
    + eapply Sorted_ind with
        (P := Sorted (fun a b => createdAt b <= createdAt a)).
      3:{ apply (sortBy_Sorted (newerFirst createdAt)).
          intros a b. unfold newerFirst. rewrite Z.leb_gt, Z.leb_le. lia. }
      * constructor.
      * intros a l _ IH Hd. constructor; [exact IH |].
        destruct Hd as [| b l Hab]; constructor.
        unfold newerFirst in Hab. by apply Z.leb_le.
Qed.

Lemma review_pages_witness :
  let createdAt r := Z.of_nat (String.length (Review.comment r)) in
  let page k := reviewsOf (getReviews createdAt "p1" k 2 reviewed).1 in
  concat (map page (seq 1 2))
  = sortBy (newerFirst createdAt)
      [Review.mk "alice" 5 "A great widget"; Review.mk "bob" 4 "A good widget";
       Review.mk "carol" 3 "It does the job"].
Proof.
  intros createdAt page.
  destruct (proj2 (proj2 (review_pages createdAt "p1" 2 reviewed))
              (calculateAverageRating
                 (withReviews
                    (calculateAverageRating
                       (withReviews
                          (calculateAverageRating
                             (withReviews widget
                                [Review.mk "alice" 5 "A great widget"]))
                          [Review.mk "alice" 5 "A great widget";
                           Review.mk "bob" 4 "A good widget"]))
                    [Review.mk "alice" 5 "A great widget";
                     Review.mk "bob" 4 "A good widget";
                     Review.mk "carol" 3 "It does the job"])))
    as (n & _ & Hn & Hc & _).
  - vm_compute. reflexivity.
  - lia.
  - vm_compute in Hn. injection Hn as <-. exact Hc.
Defined.

Example reviewed_pages :
  let createdAt r := Z.of_nat (String.length (Review.comment r)) in
  map (fun k => map Review.user
                  (reviewsOf (getReviews createdAt "p1" k 2 reviewed).1))
      [0; 1; 2; 3]%nat
  = [[]; ["carol"; "alice"]; ["bob"]; []]%string.
Proof. vm_compute. reflexivity. Qed.

(** ** Further compositions on the cart *)

(** X26. clearCart answers 404 for a user without a cart.  For a user with
    one it stores the cart without lines and with zero totals; after it
    the summary is the empty one, validateCart answers 400 "Cart is
    empty", and no coupon is applied. *)
Theorem cleared_cart_is_empty (user : string) (w : World) :
  (Cart_findOne w user = None ->
   clearCart user w = (fail 404 [Lit "Cart not found"], w))
  /\ (is_Some (Cart_findOne w user) ->
      let w' := (clearCart user w).2 in
      Cart_findOne w' user = Some (Cart.mk [] 0 0%Q)
      /\ data (getCartSummary user w').1
         = Some (DSummary (Summary.mk (Some 0) (Some 0%Q) None (Some true)))
      /\ validateCart user w' = (fail 400 [Lit "Cart is empty"], w')
      /\ forall code, success (applyCoupon user code w').1 = false).
Proof.
  unfold clearCart. split; [by intros -> |].
  intros [c ->]. simpl.
  set (w' := mkWorld _ _ _).
  assert (Cart_findOne w' user = Some (Cart.mk [] 0 0%Q)) as Hc.
  { unfold Cart_findOne, w'. simpl. by rewrite lookup_insert_eq. }
  split; [exact Hc |]. split; [| split].
  - unfold getCartSummary. by rewrite Hc.
  - unfold validateCart. by rewrite Hc.
  - intros code. unfold applyCoupon. rewrite Hc.
    by destruct (lookupCoupon code validCoupons).
Qed.

Lemma cleared_cart_is_empty_witness :
  let w' := (clearCart "u1" market).2 in
  Cart_findOne w' "u1" = Some (Cart.mk [] 0 0%Q)
  /\ data (getCartSummary "u1" w').1
     = Some (DSummary (Summary.mk (Some 0) (Some 0%Q) None (Some true)))
  /\ validateCart "u1" w' = (fail 400 [Lit "Cart is empty"], w')
  /\ forall code, success (applyCoupon "u1" code w').1 = false.
Proof.
  apply (proj2 (cleared_cart_is_empty "u1" market)).
  vm_compute. by eexists.
Defined.

(** What a successful cart operation stores went through the save. *)
Lemma runOp_saved user op w :
  success (runOp user op w).1 = true ->
  exists c, Cart_findOne (runOp user op w).2 user = Some (recomputeTotals c).
Proof.
  destruct op; simpl;
    unfold addToCart, updateCartItem, removeFromCart, clearCart, Cart_save;
    repeat case_match; simplify_eq/=; try discriminate; intros _;
    eexists; unfold Cart_findOne; simpl; by rewrite lookup_insert_eq.
Qed.

(** X27. After a successful cart operation that leaves lines in the cart,
    getCartSummary reports the sum of their quantities, the sum of price
    times quantity, their number, and isEmpty = false. *)
Theorem summary_after_mutation (user : string) (op : CartOp) (w : World) :
  success (runOp user op w).1 = true ->
  let w' := (runOp user op w).2 in
  storedItems w' user <> [] ->
  data (getCartSummary user w').1
  = Some (DSummary
            (Summary.mk
               (Some (sumZ (map Item.quantity (storedItems w' user))))
               (Some (sumQ (map lineTotal (storedItems w' user))))
               (Some (length (storedItems w' user)))
               (Some false))).
Proof.
  intros Hok w' Hne. destruct (runOp_saved user op w Hok) as [c Hc].
  fold w' in Hc. unfold storedItems in *. unfold getCartSummary.
  rewrite Hc in *. simpl in *.
  destruct (Cart.items c) as [| it items]; [done | reflexivity].
Qed.

Lemma summary_after_mutation_witness :
  data (getCartSummary "u1" (runOp "u1" (OpUpdate "p1" 5) shop3).2).1
  = Some (DSummary
            (Summary.mk
               (Some (sumZ (map Item.quantity
                  (storedItems (runOp "u1" (OpUpdate "p1" 5) shop3).2 "u1"))))
               (Some (sumQ (map lineTotal
                  (storedItems (runOp "u1" (OpUpdate "p1" 5) shop3).2 "u1"))))
               (Some (length
                  (storedItems (runOp "u1" (OpUpdate "p1" 5) shop3).2 "u1")))
               (Some false))).
Proof.
  apply (summary_after_mutation "u1" (OpUpdate "p1" 5) shop3).
  - vm_compute. reflexivity.
  - vm_compute. congruence.
Defined.

Example summary_after_update :
  match data (getCartSummary "u1" (runOp "u1" (OpUpdate "p1" 5) shop3).2).1 with
  | Some (DSummary s) =>
      Summary.totalItems s = Some 5
      /\ (default 0%Q (Summary.totalPrice s) == 50)%Q
      /\ Summary.itemsCount s = Some 1%nat
  | _ => False
  end.
Proof. vm_compute. repeat split. Qed.

(** X28. A successful updateCartItem keeps the number of lines, the product of
    every line, and every line of another product as it was. *)
Theorem update_keeps_other_lines (user productId : string) (quantity : Z)
    (w : World) :
  success (updateCartItem user productId quantity w).1 = true ->
  let w' := (updateCartItem user productId quantity w).2 in
  cartProducts w' user = cartProducts w user
  /\ forall j it,
       storedItems w user !! j = Some it ->
       Item.product it <> productId ->
       storedItems w' user !! j = Some it.
Proof.
  intros Hok w'.
  destruct (updateCartItem_outcome user productId quantity w)
    as [[Hfail _] | (i & existing & product & Hidx & _ & _ & Hst)];
    [congruence |].
  fold w' in Hst. unfold cartProducts. rewrite Hst.
  destruct (findIndex_Some _ _ _ _ Hidx) as [Hi Hp].
  split; [by apply products_insert_same |].
  intros j it Hj Hne.
  rewrite list_lookup_insert_ne; [exact Hj |].
  intros <-. rewrite Hi in Hj. by simplify_eq.
Qed.

Lemma update_keeps_other_lines_witness :
  let w' := (updateCartItem "u1" "p3" 1 market).2 in
  cartProducts w' "u1" = cartProducts market "u1"
  /\ forall j it,
       storedItems market "u1" !! j = Some it ->
       Item.product it <> "p3"%string ->
       storedItems w' "u1" !! j = Some it.
Proof.
  apply (update_keeps_other_lines "u1" "p3" 1 market).
  vm_compute. reflexivity.
Defined.

Lemma addToCart_accepts_witness :
  success (addToCart "u1" "p1" (Some 2) shop3).1 = true.
Proof.
  apply (proj2 (addToCart_accepts "u1" "p1" (Some 2) shop3)).
  exists widget. vm_compute. repeat split; congruence.
Defined.

Lemma updateCartItem_accepts_witness :
  success (updateCartItem "u1" "p1" 5 shop3).1 = true.
Proof.
  apply (proj2 (updateCartItem_accepts "u1" "p1" 5 shop3)).
  split; [lia |]. split; [vm_compute; auto |].
  exists widget. vm_compute. repeat split; congruence.
Defined.

